(** * desktop-wakatime: activity classifier, heartbeat throttle and
      update coordinator

    A shallow embedding of
      - [src/electron/watchers/wakatime.ts]   (class [Wakatime]),
      - [src/electron/helpers/monitored-app.ts] (class [MonitoredApp] and
        the Linux window manager's [buildWindowFromId]),
    followed by the properties of the specification that concern them.

    Conventions.
      - JavaScript strings are [string]s (one [ascii] per code unit; code
        units above 255 are outside the model).
      - JavaScript numbers holding seconds ([Date.now() / 1000]) are
        rationals [Q]; [Date.now()] itself is an integer number of
        milliseconds, [Z].
      - [null] and [undefined] are [None].
      - The fields of the [Wakatime] object, together with what its tray
        shows, form the record [Wakatime.state]; every method takes the
        state and returns the new one, with the list of calls it made to
        the outside world (monitoring toggle, CLI, update feed).
      - Log lines are not modelled. *)

From Stdlib Require Import Bool List String Ascii ZArith QArith Lia Lqa.
From Stdlib Require Import Sorting.Sorted.
Import ListNotations.

Close Scope Q_scope.
Close Scope Z_scope.
Open Scope nat_scope.
Open Scope string_scope.

(* ------------------------------------------------------------------ *)
(** ** JavaScript string helpers *)

Module Js.

(** [s] is truthy iff it is not the empty string. *)
Definition truthy_str (s : string) : bool :=
  match s with EmptyString => false | String _ _ => true end.

(** [a || b] on strings that may be absent. *)
Definition or_str (a : string) (b : option string) : option string :=
  if truthy_str a then Some a else b.

(** [s.startsWith(p)] *)
Fixpoint starts_with (p s : string) : bool :=
  match p, s with
  | EmptyString, _ => true
  | String a p', String b s' => Ascii.eqb a b && starts_with p' s'
  | String _ _, EmptyString => false
  end.

(** [s.split(sep)[0]] for a non-empty separator: the part of [s] before
    the first occurrence of [sep], all of [s] when there is none. *)
Fixpoint split_head (sep s : string) : string :=
  if starts_with sep s then EmptyString
  else match s with
       | EmptyString => EmptyString
       | String c s' => String c (split_head sep s')
       end.

(** [s.includes(p)] *)
Fixpoint includes (p s : string) : bool :=
  starts_with p s ||
  match s with
  | EmptyString => false
  | String _ s' => includes p s'
  end.

(** The characters [\s] matches (within one-byte code units). *)
Definition is_space (c : ascii) : bool :=
  let n := nat_of_ascii c in
  (Nat.leb 9 n && Nat.leb n 13) || Nat.eqb n 32 || Nat.eqb n 160.

(** The line terminators [.] does not match. *)
Definition is_line_terminator (c : ascii) : bool :=
  let n := nat_of_ascii c in Nat.eqb n 10 || Nat.eqb n 13.

Fixpoint filter_str (keep : ascii -> bool) (s : string) : string :=
  match s with
  | EmptyString => EmptyString
  | String c s' =>
      if keep c then String c (filter_str keep s') else filter_str keep s'
  end.

(** [s.replace(/\s/g, empty)] *)
Definition strip_spaces (s : string) : string :=
  filter_str (fun c => negb (is_space c)) s.

(** [s.replace(/[\u{0080}-\u{FFFF}]/gu, empty)] on one-byte code units,
    where the class is the units from 128 on.  A code point above U+FFFF,
    which the expression keeps, takes two 16-bit units and is no string
    of this kind; [Utf16.strip_non_ascii] has the expression on 16-bit
    units. *)
Definition strip_non_ascii (s : string) : string :=
  filter_str (fun c => Nat.ltb (nat_of_ascii c) 128) s.

(** Do all the characters of [s] satisfy [f]. *)
Fixpoint every (f : ascii -> bool) (s : string) : bool :=
  match s with
  | EmptyString => true
  | String c s' => f c && every f s'
  end.


(** [Number.parseInt(s, 10)] on a run of digits. *)
Definition parseInt (s : string) : Z :=
  fold_left (fun acc c => (10 * acc + (Z.of_nat (nat_of_ascii c) - 48))%Z)
            (list_ascii_of_string s) 0%Z.

(** The value of a function call: [true], or [undefined] when the body
    ends without a [return]. *)
Inductive true_or_undefined : Type :=
| JsTrue
| JsUndefined.

(** What [if (v)] and [!v] see. *)
Definition truthy (v : true_or_undefined) : bool :=
  match v with JsTrue => true | JsUndefined => false end.

End Js.

(* ------------------------------------------------------------------ *)
(** ** Shared data model ([utils/types], [utils/validators],
       [helpers/window-manager]) *)

(** [Category] *)
Inductive Category : Type :=
| browsing | communicating | coding | debugging
| writing_docs | designing | meeting.

Definition Category_eqb (a b : Category) : bool :=
  match a, b with
  | browsing, browsing | communicating, communicating | coding, coding
  | debugging, debugging | writing_docs, writing_docs
  | designing, designing | meeting, meeting => true
  | _, _ => false
  end.

Definition Category_to_string (c : Category) : string :=
  match c with
  | browsing => "browsing" | communicating => "communicating"
  | coding => "coding" | debugging => "debugging"
  | writing_docs => "writing docs" | designing => "designing"
  | meeting => "meeting"
  end.

(** [EntityType] *)
Inductive EntityType : Type := et_app | et_file | et_url.

Definition EntityType_to_string (t : EntityType) : string :=
  match t with et_app => "app" | et_file => "file" | et_url => "url" end.

(** [DesktopWindowInfo] *)
Module DesktopWindowInfo.
Record t : Type := {
  processId : option Z;
  path : option string;
  name : string;
  execName : option string
}.
End DesktopWindowInfo.

(** [DesktopWindow] (without [getIcon]) *)
Module DesktopWindow.
Record t : Type := {
  id : string;
  title : string;
  url : option string;
  info : DesktopWindowInfo.t
}.
End DesktopWindow.

(** The fields of [AppData] the modelled code reads. *)
Module AppData.
Record t : Type := {
  id : string;
  name : string;
  version : option string;
  isBrowser : bool
}.
End AppData.

(** [HeartbeatData] *)
Module HeartbeatData.
Record t : Type := {
  entity : string;
  category : option Category;
  language : option string;
  project : option string
}.
End HeartbeatData.

(** Boolean comparison of two rationals, as [<] and [>] on numbers. *)
Definition Qltb (a b : Q) : bool := negb (Qle_bool b a).

(* ------------------------------------------------------------------ *)
(** ** Regular expressions

    The fragment of JavaScript regular expressions the sources use, with
    the backtracking semantics of [String.prototype.match] for a
    non-global expression: the leftmost start position that matches wins,
    quantifiers are greedy, alternatives are tried left to right. *)

Module Regex.

(** Character classes. *)
Inductive cclass : Type :=
| Dot                    (* [.]   : anything but a line terminator *)
| NotChar (c : ascii)    (* [[^c]] *)
| Digit.                 (* [\d]  *)

Definition cclass_match (k : cclass) (c : ascii) : bool :=
  match k with
  | Dot => negb (Js.is_line_terminator c)
  | NotChar x => negb (Ascii.eqb x c)
  | Digit => let n := nat_of_ascii c in Nat.leb 48 n && Nat.leb n 57
  end.

Inductive re : Type :=
| Lit (s : string)            (* a run of literal characters *)
| Cls (k : cclass)            (* one character of a class *)
| Star (k : cclass)           (* [k*] *)
| Plus (k : cclass)           (* [k+] *)
| Opt (r : re)                (* [r?] *)
| Seq (r1 r2 : re)            (* [r1 r2] *)
| Alt (r1 r2 : re)            (* [r1|r2] *)
| Group (n : nat) (r : re)    (* the [n]-th capturing group [(r)] *)
| Bos                         (* [^] *)
| Eos.                        (* [$] *)

Definition captures : Type := list (nat * string).

Fixpoint lookup (n : nat) (cs : captures) : option string :=
  match cs with
  | [] => None
  | (k, v) :: cs' => if Nat.eqb k n then Some v else lookup n cs'
  end.

(** [s] without its prefix [p], when it has it. *)
Fixpoint drop_prefix (p s : string) : option string :=
  match p, s with
  | EmptyString, _ => Some s
  | String a p', String b s' =>
      if Ascii.eqb a b then drop_prefix p' s' else None
  | String _ _, EmptyString => None
  end.

Definition take (n : nat) (s : string) : string := substring 0 n s.

Fixpoint drop (n : nat) (s : string) : string :=
  match n, s with
  | O, _ => s
  | S n', String _ s' => drop n' s'
  | S _, EmptyString => EmptyString
  end.

(** What was consumed between the suffix [s] and its suffix [rest]. *)
Definition consumed (s rest : string) : string :=
  take (length s - length rest) s.

Section Matcher.
Context {R : Type}.

(** Greedy [k*]: as many characters as possible first, one fewer on
    each failure of the continuation. *)
Fixpoint star (f : ascii -> bool) (s : string)
         (k : string -> option R) : option R :=
  match s with
  | String c s' =>
      if f c then
        match star f s' k with
        | Some r => Some r
        | None => k s
        end
      else k s
  | EmptyString => k s
  end.

(** [matches input r s cs k]: match [r] at the suffix [s] of [input],
    then continue with [k] on what is left. *)
Fixpoint matches (input : string) (r : re) (s : string) (cs : captures)
         (k : string -> captures -> option R) : option R :=
  match r with
  | Lit l =>
      match drop_prefix l s with
      | Some s' => k s' cs
      | None => None
      end
  | Cls c =>
      match s with
      | String a s' => if cclass_match c a then k s' cs else None
      | EmptyString => None
      end
  | Star c => star (cclass_match c) s (fun s' => k s' cs)
  | Plus c =>
      match s with
      | String a s' =>
          if cclass_match c a
          then star (cclass_match c) s' (fun s'' => k s'' cs)
          else None
      | EmptyString => None
      end
  | Opt r1 =>
      match matches input r1 s cs k with
      | Some x => Some x
      | None => k s cs
      end
  | Seq r1 r2 =>
      matches input r1 s cs (fun s' cs' => matches input r2 s' cs' k)
  | Alt r1 r2 =>
      match matches input r1 s cs k with
      | Some x => Some x
      | None => matches input r2 s cs k
      end
  | Group n r1 =>
      matches input r1 s cs
              (fun s' cs' => k s' ((n, consumed s s') :: cs'))
  | Bos => if Nat.eqb (length s) (length input) then k s cs else None
  | Eos =>
      match s with
      | EmptyString => k s cs
      | String _ _ => None
      end
  end.
End Matcher.

(** The array [s.match(r)] returns: where the match starts, and the
    groups, group 0 being the whole match. *)
Record match_result : Type := {
  index : nat;
  groups : captures
}.

Definition group (n : nat) (m : match_result) : option string :=
  lookup n (groups m).

Definition match_at (input : string) (r : re) (s : string)
  : option match_result :=
  matches input r s []
          (fun rest cs =>
             Some {| index := length input - length s;
                     groups := (0, consumed s rest) :: cs |}).

Fixpoint search (input : string) (r : re) (s : string)
  : option match_result :=
  match match_at input r s with
  | Some m => Some m
  | None =>
      match s with
      | EmptyString => None
      | String _ s' => search input r s'
      end
  end.

(** [s.match(r)] *)
Definition exec (r : re) (s : string) : option match_result :=
  search s r s.

(** [s.replace(r, by)] for a non-global [r] and a replacement without
    [$] patterns. *)
Definition replace (r : re) (by_ : string) (s : string) : string :=
  match exec r s with
  | None => s
  | Some m =>
      match group 0 m with
      | None => s
      | Some whole =>
          take (index m) s ++ by_ ++ drop (index m + length whole) s
      end
  end.

Declare Scope re_scope.
Delimit Scope re_scope with re.
Infix ";;" := Seq (at level 61, right associativity) : re_scope.

End Regex.

(* ------------------------------------------------------------------ *)
(** ** The platform's [URL] class

    [new URL(s)] is part of the JavaScript platform, not of the
    repository; what [domainFromUrl] reads from it is [host] and [port].
    A parsed URL is kept as its host name and its port, the port being
    the empty string when the address names none or names the default
    port of its scheme, and [host] is derived from the two as the
    platform defines it. *)

Module Url.

Record URL : Type := {
  hostname : string;
  port : string
}.

(** The [host] getter: the host name, followed by a colon and the
    port when the port is not empty. *)
Definition host (u : URL) : string :=
  if Js.truthy_str (port u) then hostname u ++ ":" ++ port u
  else hostname u.

(** The characters that end the authority part of an address. *)
Definition ends_authority (c : ascii) : bool :=
  Ascii.eqb c "/" || Ascii.eqb c "?" || Ascii.eqb c "#".

Fixpoint authority (s : string) : string :=
  match s with
  | EmptyString => EmptyString
  | String c s' =>
      if ends_authority c then EmptyString else String c (authority s')
  end.

(** Host name and port text of an authority without user information:
    the port is what follows the first colon. *)
Fixpoint split_port (s : string) : string * string :=
  match s with
  | EmptyString => (EmptyString, EmptyString)
  | String c s' =>
      if Ascii.eqb c ":" then (EmptyString, s')
      else let (h, p) := split_port s' in (String c h, p)
  end.

Fixpoint all_digits (s : string) : bool :=
  match s with
  | EmptyString => true
  | String c s' => Regex.cclass_match Regex.Digit c && all_digits s'
  end.

(** A port as the constructor below takes it: digits without a leading
    zero, 65535 at most; or nothing. *)
Definition plain_port (p : string) : bool :=
  all_digits p && negb (Js.starts_with "0" p)
  && (Nat.leb (String.length p) 5) && (Js.parseInt p <=? 65535)%Z.

Definition lower (c : ascii) : ascii :=
  let n := nat_of_ascii c in
  if Nat.leb 65 n && Nat.leb n 90 then ascii_of_nat (n + 32) else c.

Fixpoint lowercase (s : string) : string :=
  match s with
  | EmptyString => EmptyString
  | String c s' => String (lower c) (lowercase s')
  end.

Definition is_letter (c : ascii) : bool :=
  let n := nat_of_ascii c in Nat.leb 97 n && Nat.leb n 122.

(** A host name as the constructor below takes it: lower-case letters,
    digits, dots and hyphens, starting with a letter and with a letter
    after each dot, so that no label is empty or reads as a number. *)
Fixpoint plain_host_from (after_dot : bool) (s : string) : bool :=
  match s with
  | EmptyString => negb after_dot
  | String c s' =>
      if after_dot then is_letter c && plain_host_from false s'
      else if Ascii.eqb c "." then plain_host_from true s'
      else (is_letter c || Regex.cclass_match Regex.Digit c
            || Ascii.eqb c "-")
           && plain_host_from false s'
  end.

Definition plain_host (s : string) : bool := plain_host_from true s.

Definition parse_with (default_port rest : string) : option URL :=
  let (h, p) := split_port (authority rest) in
  if plain_host (lowercase h) && plain_port p
  then Some {| hostname := lowercase h;
               port := if String.eqb p default_port then "" else p |}
  else None.

(** A constructor for the plain addresses a browser reports,
    [http://host[:port][/...]] and [https://host[:port][/...]] with a
    host and a port as above.  On these it answers as [new URL] does; any
    other text is refused, be it that [new URL] throws on it or that it
    would take the full parser of the platform. *)
Definition parse (s : string) : option URL :=
  match Regex.drop_prefix "https://" s with
  | Some rest => parse_with "443" rest
  | None =>
      match Regex.drop_prefix "http://" s with
      | Some rest => parse_with "80" rest
      | None => None
      end
  end.

End Url.

(* ------------------------------------------------------------------ *)
(** ** [helpers/monitored-app.ts]: class [MonitoredApp] *)

(** The result of a call that may throw. *)
Inductive completion (A : Type) : Type :=
| Returns (a : A)
| Throws.
Arguments Returns {A} a.
Arguments Throws {A}.

Module MonitoredApp.
Import Regex.

(** What the class reads from its collaborators. *)
Record Collaborators : Type := {
  (** [FilterManager.filterBrowsedSites] *)
  filterBrowsedSites : string -> bool;
  (** [PropertiesManager.domainPreference] *)
  domainPreference : string;
  (** [new URL(s)], [None] when it throws *)
  new_URL : string -> option Url.URL
}.

(** [switch (app?.id) { case a: case b: ... }]: is the id one of the
    labels. *)
Definition one_of (labels : list string) (app : option AppData.t)
  : bool :=
  match app with
  | Some a => existsb (String.eqb (AppData.id a)) labels
  | None => false
  end.

Definition category (app : option AppData.t) : option Category :=
  match app with
  | None => None
  | Some _ =>
      if one_of ["arcbrowser"; "brave"; "chrome"; "firefox"; "safari";
                 "safaripreview"] app then Some browsing
      else if one_of ["imessage"; "microsoft_outlook"; "slack"; "wecom"]
                     app
      then Some communicating
      else if one_of ["iterm2"; "mac_terminal"; "microsoft_excel";
                      "windows_terminal"; "powershell"; "warp"; "xcode"]
                     app
      then Some coding
      else if one_of ["postman"; "tableplus"] app then Some debugging
      else if one_of ["microsoft_word"; "notes"; "notion"] app
      then Some writing_docs
      else if one_of ["canva"; "figma"] app then Some designing
      else if one_of ["whatsapp"; "zoom"] app then Some meeting
      else None
  end.

Definition language (app : option AppData.t) : option string :=
  match app with
  | None => None
  | Some _ =>
      if one_of ["canva"; "figma"] app then Some "Image (svg)"
      else if one_of ["postman"] app then Some "HTTP Request"
      else None
  end.

Record pattern : Type := {
  expression : re;
  group : nat
}.

Local Open Scope re_scope.

(** [/HOST\/[^/]+\/([^/]+)\/?.*$/] *)
Definition owner_repo (host_ : string) : re :=
  Lit host_ ;; Lit "/" ;; Plus (NotChar "/") ;; Lit "/" ;;
  Group 1 (Plus (NotChar "/")) ;; Opt (Lit "/") ;; Star Dot ;; Eos.

Definition provider : re :=
  Group 1 (Alt (Lit "github") (Alt (Lit "bitbucket") (Lit "gitlab"))).

(** [/HOST\/(github|bitbucket|gitlab)\/[^/]+\/([^/]+)\/?.*$/] *)
Definition travis (host_ : string) : re :=
  Lit host_ ;; Lit "/" ;; provider ;; Lit "/" ;; Plus (NotChar "/") ;;
  Lit "/" ;; Group 2 (Plus (NotChar "/")) ;; Opt (Lit "/") ;;
  Star Dot ;; Eos.

(** [/app\.circleci\.com\/.*\/?(github|bitbucket|gitlab)\/[^/]+\/([^/]+)\/?.*$/] *)
Definition circleci : re :=
  Lit "app.circleci.com" ;; Lit "/" ;; Star Dot ;; Opt (Lit "/") ;;
  provider ;; Lit "/" ;; Plus (NotChar "/") ;; Lit "/" ;;
  Group 2 (Plus (NotChar "/")) ;; Opt (Lit "/") ;; Star Dot ;; Eos.

Definition patterns : list pattern :=
  [ {| expression := owner_repo "github.com"; group := 1 |};
    {| expression := owner_repo "gitlab.com"; group := 1 |};
    {| expression := owner_repo "bitbucket.org"; group := 1 |};
    {| expression := circleci; group := 2 |};
    {| expression := travis "app.travis-ci.com"; group := 2 |};
    {| expression := travis "app.travis-ci.org"; group := 2 |} ].

Local Close Scope re_scope.

(** The [for (const pattern of patterns)] loop of [project]. *)
Fixpoint project_loop (ps : list pattern) (u : string) : option string :=
  match ps with
  | [] => None
  | p :: ps' =>
      match exec (expression p) u with
      | Some m => Regex.group (group p) m
      | None => project_loop ps' u
      end
  end.

Definition project (w : DesktopWindow.t) : option string :=
  match DesktopWindow.url w with
  | None => None
  | Some u =>
      if negb (Js.truthy_str u) then None else project_loop patterns u
  end.

(** [/^www./] *)
Definition www : re := Seq Bos (Seq (Lit "www") (Cls Dot)).

Definition domainFromUrl (c : Collaborators) (u : string)
  : completion string :=
  match new_URL c u with
  | None => Throws
  | Some parsed =>
      let domain := replace www "" (Url.host parsed) in
      if Js.truthy_str (Url.port parsed)
      then Returns (domain ++ ":" ++ Url.port parsed)
      else Returns domain
  end.

(** [`${app?.id}`] *)
Definition id_text (app : option AppData.t) : string :=
  match app with
  | Some a => AppData.id a
  | None => "undefined"
  end.

Definition title (w : DesktopWindow.t) (app : option AppData.t)
  : option string :=
  if one_of ["arcbrowser"; "brave"; "canva"; "chrome"; "firefox";
             "notes"; "safari"; "safaripreview"; "xcode";
             "microsoft_edge"] app
  then Some (id_text app ++ " should never use window title as entity")
  else if one_of ["figma"] app then
    let title := Js.split_head " - " (DesktopWindow.title w) in
    if negb (Js.truthy_str title) || String.eqb title "Figma"
       || String.eqb title "Drafts"
    then None else Some title
  else if one_of ["warp"] app then
    let title := Js.split_head " - " (DesktopWindow.title w) in
    if negb (Js.truthy_str title) || String.eqb title "Wrap"
    then None else Some title
  else if one_of ["postman"] app then
    let title := Js.split_head " - " (DesktopWindow.title w) in
    if negb (Js.truthy_str title) || String.eqb title "Postman"
    then None else Some title
  else if Js.truthy_str (DesktopWindow.title w)
  then Some (Js.split_head " - " (DesktopWindow.title w))
  else Some (DesktopWindowInfo.name (DesktopWindow.info w)).

(** [app?.isBrowser] *)
Definition is_browser (app : option AppData.t) : bool :=
  match app with
  | Some a => AppData.isBrowser a
  | None => false
  end.

Definition entity (c : Collaborators) (w : DesktopWindow.t)
           (app : option AppData.t) : completion (option string) :=
  if is_browser app then
    match DesktopWindow.url w with
    | Some u =>
        if Js.truthy_str u && filterBrowsedSites c u then
          if String.eqb (domainPreference c) "domain" then
            match domainFromUrl c u with
            | Returns d => Returns (Some d)
            | Throws => Throws
            end
          else Returns (Some u)
        else Returns None
    | None => Returns None
    end
  else if one_of ["canva"] app then Returns None
  else if one_of ["notes"] app then Returns None
  else Returns (title w app).

Definition heartbeatData (c : Collaborators) (w : DesktopWindow.t)
           (app : option AppData.t)
  : completion (option HeartbeatData.t) :=
  match entity c w app with
  | Throws => Throws
  | Returns None => Returns None
  | Returns (Some e) =>
      if negb (Js.truthy_str e) then Returns None
      else Returns (Some {| HeartbeatData.entity := e;
                            HeartbeatData.category := category app;
                            HeartbeatData.language := language app;
                            HeartbeatData.project := project w |})
  end.

End MonitoredApp.

(* ------------------------------------------------------------------ *)
(** ** [watchers/wakatime.ts]: class [Wakatime] *)

Module Wakatime.

(** The two tray images. *)
Inductive icon : Type := trayIcon | trayIconRed.

(** What the tray shows. *)
Record Tray : Type := {
  trayTitle : string;
  trayToolTip : string;
  trayImage : icon
}.

(** The fields of the object; [tray] is [None] while no tray is set. *)
Record state : Type := {
  lastEntitiy : string;
  lastTime : Q;
  lastCodeTimeFetched : Q;
  lastCodeTimeText : string;
  lastCategory : Category;
  tray : option Tray;
  versionString : string;
  lastCheckedForUpdates : Z;
  lastPromptedToUpdateAt : Z;
  lastPromptedToUpdateVersion : string
}.

(** The field initialisers and the constructor, then [init(tray)]'s
    [this.tray = tray]. *)
Definition initial (version : string) (t : option Tray) : state :=
  {| lastEntitiy := "";
     lastTime := 0%Q;
     lastCodeTimeFetched := 0%Q;
     lastCodeTimeText := "";
     lastCategory := coding;
     tray := t;
     versionString := version;
     lastCheckedForUpdates := 0%Z;
     lastPromptedToUpdateAt := 0%Z;
     lastPromptedToUpdateVersion := "" |}.

(** The three fields of the throttle. *)
Definition throttle (st : state) : string * Category * Q :=
  (lastEntitiy st, lastCategory st, lastTime st).

(** [this.lastEntitiy = e; this.lastCategory = c; this.lastTime = t] *)
Definition set_throttle (e : string) (c : Category) (t : Q) (st : state)
  : state :=
  {| lastEntitiy := e;
     lastTime := t;
     lastCodeTimeFetched := lastCodeTimeFetched st;
     lastCodeTimeText := lastCodeTimeText st;
     lastCategory := c;
     tray := tray st;
     versionString := versionString st;
     lastCheckedForUpdates := lastCheckedForUpdates st;
     lastPromptedToUpdateAt := lastPromptedToUpdateAt st;
     lastPromptedToUpdateVersion := lastPromptedToUpdateVersion st |}.

(** [this.lastCodeTimeFetched = t] *)
Definition set_lastCodeTimeFetched (t : Q) (st : state) : state :=
  {| lastEntitiy := lastEntitiy st;
     lastTime := lastTime st;
     lastCodeTimeFetched := t;
     lastCodeTimeText := lastCodeTimeText st;
     lastCategory := lastCategory st;
     tray := tray st;
     versionString := versionString st;
     lastCheckedForUpdates := lastCheckedForUpdates st;
     lastPromptedToUpdateAt := lastPromptedToUpdateAt st;
     lastPromptedToUpdateVersion := lastPromptedToUpdateVersion st |}.

(** [this.lastCodeTimeText = s] *)
Definition set_lastCodeTimeText (s : string) (st : state) : state :=
  {| lastEntitiy := lastEntitiy st;
     lastTime := lastTime st;
     lastCodeTimeFetched := lastCodeTimeFetched st;
     lastCodeTimeText := s;
     lastCategory := lastCategory st;
     tray := tray st;
     versionString := versionString st;
     lastCheckedForUpdates := lastCheckedForUpdates st;
     lastPromptedToUpdateAt := lastPromptedToUpdateAt st;
     lastPromptedToUpdateVersion := lastPromptedToUpdateVersion st |}.

(** [this.lastPromptedToUpdateVersion = v;
     this.lastPromptedToUpdateAt = t] *)
Definition set_prompted (v : string) (t : Z) (st : state) : state :=
  {| lastEntitiy := lastEntitiy st;
     lastTime := lastTime st;
     lastCodeTimeFetched := lastCodeTimeFetched st;
     lastCodeTimeText := lastCodeTimeText st;
     lastCategory := lastCategory st;
     tray := tray st;
     versionString := versionString st;
     lastCheckedForUpdates := lastCheckedForUpdates st;
     lastPromptedToUpdateAt := t;
     lastPromptedToUpdateVersion := v |}.

(** [this.tray?.f(...)]: change what the tray shows, if there is one. *)
Definition with_tray (f : Tray -> Tray) (st : state) : state :=
  {| lastEntitiy := lastEntitiy st;
     lastTime := lastTime st;
     lastCodeTimeFetched := lastCodeTimeFetched st;
     lastCodeTimeText := lastCodeTimeText st;
     lastCategory := lastCategory st;
     tray := option_map f (tray st);
     versionString := versionString st;
     lastCheckedForUpdates := lastCheckedForUpdates st;
     lastPromptedToUpdateAt := lastPromptedToUpdateAt st;
     lastPromptedToUpdateVersion := lastPromptedToUpdateVersion st |}.

(** [this.tray?.setTitle(a); this.tray?.setToolTip(b)] *)
Definition setTitleAndToolTip (a b : string) : state -> state :=
  with_tray (fun t => {| trayTitle := a; trayToolTip := b;
                         trayImage := trayImage t |}).

(** [this.tray?.setImage(i)] *)
Definition setImage (i : icon) : state -> state :=
  with_tray (fun t => {| trayTitle := trayTitle t;
                         trayToolTip := trayToolTip t;
                         trayImage := i |}).

(** The calls a method makes to the outside world, in order. *)
Inductive call : Type :=
| IsMonitored (path : string)        (* [MonitoringManager.isMonitored] *)
| Exec (cli : string) (args : list string)    (* [exec(cli, ...args)] *)
| DisplayBalloon (content : string)  (* [tray.displayBalloon] *)
| NotificationShow (body : string)   (* [new Notification(..).show()] *)
| CheckForUpdatesAndNotify           (* [autoUpdater] *)
| DownloadUpdate                     (* [autoUpdater.downloadUpdate] *)
| QuitAndInstall.                    (* [autoUpdater.quitAndInstall] *)

(** What [await exec(cli, ...args)] gives: the pair [[output, err]],
    [err] being absent or an error whose text is given, or an
    exception. *)
Inductive exec_outcome : Type :=
| Resolved (output : string) (err : option string)
| Rejected (error : string).

(** What the class reads from its collaborators. *)
Record Collaborators : Type := {
  (** [MonitoringManager.isMonitored] *)
  isMonitored : string -> bool;
  (** [PropertiesManager.showCodeTimeInStatusBar] *)
  showCodeTimeInStatusBar : bool;
  (** [PropertiesManager.autoUpdateEnabled] *)
  autoUpdateEnabled : bool;
  (** [isDev] of electron-is-dev *)
  isDev : bool;
  (** [Notification.isSupported()] *)
  notificationIsSupported : bool;
  (** [getCLIPath()] *)
  cliPath : string
}.

(** [Date.now() / 1000] *)
Definition seconds (now : Z) : Q := (inject_Z now / inject_Z 1000)%Q.

Definition shouldSendHeartbeat (st : state) (entity : string) (time : Q)
           (isWrite : bool) (category : Category)
  : Js.true_or_undefined :=
  if isWrite then Js.JsTrue
  else if negb (Category_eqb category (lastCategory st)) then Js.JsTrue
  else if Js.truthy_str entity && negb (String.eqb (lastEntitiy st) entity)
  then Js.JsTrue
  else if Qltb (lastTime st + 120) time then Js.JsTrue
  else Js.JsUndefined.

(** [windowInfo?.info.name || appData?.name] *)
Definition appName_of (appData : option AppData.t)
           (windowInfo : option DesktopWindow.t) : option string :=
  match windowInfo with
  | Some w =>
      Js.or_str (DesktopWindowInfo.name (DesktopWindow.info w))
                (option_map AppData.name appData)
  | None => option_map AppData.name appData
  end.

(** [a || unknown] *)
Definition or_unknown (a : option string) : string :=
  match a with
  | Some s => if Js.truthy_str s then s else "unknown"
  | None => "unknown"
  end.

Definition pluginString (st : state) (appData : option AppData.t)
           (windowInfo : option DesktopWindow.t) : string :=
  match appName_of appData windowInfo with
  | None => versionString st
  | Some appName =>
      if negb (Js.truthy_str appName) then versionString st
      else
        let appNameSafe := Js.strip_spaces appName in
        let appVersion :=
          or_unknown
            (match appData with
             | Some a => option_map Js.strip_spaces (AppData.version a)
             | None => None
             end) in
        Js.strip_non_ascii
          (appNameSafe ++ "/" ++ appVersion ++ " " ++ versionString st)
  end.

Definition fetchToday (c : Collaborators) (now : Z) (cli : exec_outcome)
           (st : state) : state * list call :=
  if negb (showCodeTimeInStatusBar c) then
    (setTitleAndToolTip "" "Wakatime" st, [])
  else
    let time := seconds now in
    if Qltb time (lastCodeTimeFetched st + 120) then
      (setTitleAndToolTip (" " ++ lastCodeTimeText st)
                          (" " ++ lastCodeTimeText st) st, [])
    else
      let st := set_lastCodeTimeFetched time st in
      let args := ["--today"; "--today-hide-categories"; "true";
                   "--plugin"; pluginString st None None] in
      let calls := [Exec (cliPath c) args] in
      match cli with
      | Resolved output (Some _) => (st, calls)
      | Resolved output None =>
          let st := set_lastCodeTimeText output st in
          (setTitleAndToolTip (" " ++ output) (" " ++ output) st, calls)
      | Rejected _ => (st, calls)
      end.

Definition canPromptToUpdate (st : state) (newVersion : string)
           (now : Z) : bool :=
  if (lastPromptedToUpdateAt st + 604800 * 1000 <? now)%Z then true
  else if negb (String.eqb (lastPromptedToUpdateVersion st) newVersion)
  then true
  else false.

Definition checkForUpdates (c : Collaborators) (now : Z) (st : state)
  : state * list call :=
  if negb (autoUpdateEnabled c) || isDev c then (st, [])
  else if (lastCheckedForUpdates st + 600 * 1000 >? now)%Z then (st, [])
  else (st, [CheckForUpdatesAndNotify]).

(** The events of the update feed client that [setupAutoUpdater]
    listens to. *)
Inductive updater_event : Type :=
| checking_for_update
| update_available (version : string)
| update_downloaded (version : string)
| update_not_available
| update_cancelled
| updater_error (message : string).

(** The listeners of [setupAutoUpdater]; [now] is what [Date.now()]
    reads while the listener runs. *)
Definition on_event (e : updater_event) (now : Z) (st : state)
  : state * list call :=
  match e with
  | update_available version =>
      if negb (canPromptToUpdate st version now) then (st, [])
      else (st, [DownloadUpdate])
  | update_downloaded version =>
      if negb (canPromptToUpdate st version now) then (st, [])
      else (set_prompted version now st, [QuitAndInstall])
  | checking_for_update | update_not_available | update_cancelled
  | updater_error _ => (st, [])
  end.

(** The argument of [sendHeartbeat]. *)
Record props : Type := {
  appData : option AppData.t;
  windowInfo : DesktopWindow.t;
  entity : string;
  entityType : EntityType;
  category : option Category;
  project : option string;
  language : option string;
  isWrite : bool
}.

(** What the outside world answers during one [sendHeartbeat]: the
    clock where the method reads it, and the result of each CLI run. *)
Record world : Type := {
  now : Z;
  heartbeat_cli : exec_outcome;
  today_now : Z;
  today_cli : exec_outcome;
  update_now : Z
}.

(** [this.tray?.displayBalloon(..)] *)
Definition displayBalloon (content : string) (st : state) : list call :=
  match tray st with
  | Some _ => [DisplayBalloon content]
  | None => []
  end.

(** [if (Notification.isSupported()) new Notification(..).show()] *)
Definition notify (c : Collaborators) (body : string) : list call :=
  if notificationIsSupported c then [NotificationShow body] else [].

Definition sendHeartbeat (c : Collaborators) (w : world) (p : props)
           (st : state) : state * list call :=
  let category := match category p with Some k => k | None => coding end in
  let time := seconds (now w) in
  if negb (Js.truthy (shouldSendHeartbeat st (entity p) time (isWrite p)
                                          category))
  then (st, [])
  else
    match DesktopWindowInfo.path (DesktopWindow.info (windowInfo p)) with
    | None => (st, [])
    | Some windowPath =>
        if negb (Js.truthy_str windowPath) then (st, [])
        else if negb (isMonitored c windowPath)
        then (st, [IsMonitored windowPath])
        else
          match appName_of (appData p) (Some (windowInfo p)) with
          | None => (st, [IsMonitored windowPath])
          | Some appName =>
              if negb (Js.truthy_str appName)
              then (st, [IsMonitored windowPath])
              else
                let st := set_throttle (entity p) category time st in
                let args :=
                  (["--entity"; entity p;
                   "--entity-type"; EntityType_to_string (entityType p);
                   "--category"; Category_to_string category;
                   "--plugin";
                   pluginString st (appData p) (Some (windowInfo p))]
                  ++ match project p with
                     | Some x =>
                         if Js.truthy_str x then ["--project"; x] else []
                     | None => []
                     end
                  ++ (if isWrite p then ["--write"] else [])
                  ++ match language p with
                     | Some x =>
                         if Js.truthy_str x then ["--language"; x] else []
                     | None => []
                     end)%list in
                let '(st, reported) :=
                  match heartbeat_cli w with
                  | Resolved _ (Some err) =>
                      let balloon :=
                        displayBalloon
                          ("Error when running wakatime-cli: " ++ err) st in
                      if Js.includes "ENOENT" err then
                        (setImage trayIconRed st,
                         (balloon ++
                         notify c "Unable to execute WakaTime cli. Please make sure WakaTime is not being blocked by AV software.")%list)
                      else if Js.includes "EPERM" err then
                        (setImage trayIconRed st,
                         (balloon ++
                         notify c "Microsoft Defender is blocking WakaTime. Please allow WakaTime to run so it can upload code stats to your dashboard.")%list)
                      else (st, balloon)
                  | Resolved _ None => (setImage trayIcon st, [])
                  | Rejected _ => (st, [])
                  end in
                let '(st, today) :=
                  fetchToday c (today_now w) (today_cli w) st in
                let '(st, update) := checkForUpdates c (update_now w) st in
                (st,
                 IsMonitored windowPath :: Exec (cliPath c) args
                 :: (reported ++ today ++ update)%list)
          end
    end.

(** *** Sequences of calls *)

(** The feed events of a run, each with the clock at its listener, and
    what each listener called. *)
Fixpoint on_events (es : list (updater_event * Z)) (st : state)
  : state * list (list call) :=
  match es with
  | [] => (st, [])
  | (e, now) :: es' =>
      let (st1, calls) := on_event e now st in
      let (st2, rest) := on_events es' st1 in
      (st2, calls :: rest)
  end.

(** Successive calls of [checkForUpdates], each with its clock. *)
Fixpoint checkForUpdates_each (c : Collaborators) (nows : list Z)
         (st : state) : state * list call :=
  match nows with
  | [] => (st, [])
  | now :: nows' =>
      let (st1, calls) := checkForUpdates c now st in
      let (st2, rest) := checkForUpdates_each c nows' st1 in
      (st2, (calls ++ rest)%list)
  end.

Definition is_exec (k : call) : bool :=
  match k with
  | Exec _ _ => true
  | _ => false
  end.

(** Successive calls of [fetchToday], each with its settings, its clock
    and the outcome of the CLI should it run; the result lists the times
    at which the CLI was spawned. *)
Fixpoint fetchToday_each (cs : list (Collaborators * Z * exec_outcome))
         (st : state) : state * list Q :=
  match cs with
  | [] => (st, [])
  | (c, now, cli) :: cs' =>
      let (st1, calls) := fetchToday c now cli st in
      let (st2, times) := fetchToday_each cs' st1 in
      (st2, if existsb is_exec calls then seconds now :: times else times)
  end.

(** Is [t] in the window of 120 seconds that starts at [from]. *)
Definition in_window (from t : Q) : bool :=
  Qle_bool from t && Qltb t (from + 120).

End Wakatime.

(* ------------------------------------------------------------------ *)
(** ** Node's [path.parse(p).name] (posix) *)

Module NodePath.

(** [s.split(c)] for a one-character separator. *)
Fixpoint split_char (c : ascii) (s : string) : list string :=
  match s with
  | EmptyString => [EmptyString]
  | String a s' =>
      match split_char c s' with
      | [] => [String a EmptyString]
      | h :: t =>
          if Ascii.eqb a c then EmptyString :: h :: t
          else String a h :: t
      end
  end.

(** The last component of a path, trailing slashes ignored. *)
Definition base (p : string) : string :=
  last (filter Js.truthy_str (split_char "/" p)) EmptyString.

(** What stands before the last dot of [s], if [s] has one. *)
Fixpoint before_last_dot (s : string) : option string :=
  match s with
  | EmptyString => None
  | String a s' =>
      match before_last_dot s' with
      | Some pre => Some (String a pre)
      | None => if Ascii.eqb a "." then Some EmptyString else None
      end
  end.

(** [path.parse(p).name]: the base without its extension; a base that
    starts with its only dot, and the base of two dots, have no
    extension. *)
Definition name (p : string) : string :=
  let b := base p in
  match before_last_dot b with
  | None => b
  | Some pre =>
      if negb (Js.truthy_str pre) || String.eqb b ".." then b else pre
  end.

End NodePath.

(* ------------------------------------------------------------------ *)
(** ** [helpers/monitored-app.ts]: class [LinuxWindowManager] *)

Module LinuxWindowManager.
Import Regex.

(** The double quote character. *)
Definition dquote : string := String (ascii_of_nat 34) EmptyString.

Local Open Scope re_scope.

(** [/_NET_WM_PID\(CARDINAL\) = (\d+)/] *)
Definition pid_re : re :=
  Lit "_NET_WM_PID(CARDINAL) = " ;; Group 1 (Plus Digit).

(** [/_NET_WM_NAME\((?:UTF8_STRING|STRING)\) = Q(N)Q/], where Q
    stands for the double quote and N for any run of other
    characters, the empty one too *)
Definition net_wm_name_re : re :=
  Lit "_NET_WM_NAME(" ;; Alt (Lit "UTF8_STRING") (Lit "STRING") ;;
  Lit ") = " ;; Lit dquote ;; Group 1 (Star (NotChar (ascii_of_nat 34))) ;;
  Lit dquote.

(** [/WM_CLASS\(STRING\) = (.+)/] *)
Definition wm_class_re : re :=
  Lit "WM_CLASS(STRING) = " ;; Group 1 (Plus Dot).

(** [/_GTK_APPLICATION_ID\((?:UTF8_STRING|STRING)\) = Q(N)Q/], N
    not empty here *)
Definition gtk_application_id_re : re :=
  Lit "_GTK_APPLICATION_ID(" ;; Alt (Lit "UTF8_STRING") (Lit "STRING") ;;
  Lit ") = " ;; Lit dquote ;; Group 1 (Plus (NotChar (ascii_of_nat 34))) ;;
  Lit dquote.

Local Close Scope re_scope.

Definition extractNumber (source : string) (regex : re) : option Z :=
  match exec regex source with
  | None => None
  | Some m => option_map Js.parseInt (group 1 m)
  end.

Definition extractString (source : string) (regex : re) : option string :=
  match exec regex source with
  | None => None
  | Some m => group 1 m
  end.

Fixpoint trim_start (s : string) : string :=
  match s with
  | EmptyString => EmptyString
  | String c s' => if Js.is_space c then trim_start s' else s
  end.

Fixpoint trim_end (s : string) : string :=
  match s with
  | EmptyString => EmptyString
  | String c s' =>
      match trim_end s' with
      | EmptyString =>
          if Js.is_space c then EmptyString else String c EmptyString
      | r => String c r
      end
  end.

(** [s.trim()] *)
Definition trim (s : string) : string := trim_end (trim_start s).

Fixpoint drop_last_quote (s : string) : string :=
  match s with
  | EmptyString => EmptyString
  | String c EmptyString =>
      if Ascii.eqb c (ascii_of_nat 34) then EmptyString else s
  | String c s' => String c (drop_last_quote s')
  end.

(** [s.replace(/^Q|Q$/g, empty)]: one double quote less at each end
    that has one. *)
Definition strip_quotes (s : string) : string :=
  drop_last_quote
    match s with
    | String c s' => if Ascii.eqb c (ascii_of_nat 34) then s' else s
    | EmptyString => s
    end.

Definition extractList (source : string) (regex : re)
  : option (list string) :=
  match exec regex source with
  | None => None
  | Some m =>
      option_map
        (fun g => filter Js.truthy_str
                         (map (fun part => strip_quotes (trim part))
                              (NodePath.split_char "," g)))
        (group 1 m)
  end.

(** [a ?? b] *)
Definition nullish {A : Type} (a b : option A) : option A :=
  match a with
  | Some x => Some x
  | None => b
  end.
Infix "??" := nullish (at level 72, left associativity).

(** [a || b] on strings that may be absent: the first truthy one. *)
Definition or_else (a b : option string) : option string :=
  match a with
  | Some x => if Js.truthy_str x then Some x else b
  | None => b
  end.

(** Is a value that may be absent truthy. *)
Definition truthy_opt (a : option string) : bool :=
  match a with
  | Some x => Js.truthy_str x
  | None => false
  end.

(** [pid ? v : null] on a number that may be absent: zero is falsy. *)
Definition truthy_pid (pid : option Z) : option Z :=
  match pid with
  | Some n => if (n =? 0)%Z then None else Some n
  | None => None
  end.

(** What [execFileAsync] gives for [xprop]. *)
Inductive xprop_outcome : Type :=
| Stdout (stdout : string)
| Fails.

Section BuildWindow.
(** [resolveProcessPath]: where [/proc/<pid>/exe] points, [None] when
    the link cannot be read. *)
Variable resolveProcessPath : Z -> option string.

(** [path.parse(processPath).name]; a [processPath] that is [null]
    makes [path.parse] throw. *)
Definition parse_name (processPath : option string)
  : completion string :=
  match processPath with
  | Some p => Returns (NodePath.name p)
  | None => Throws
  end.

(** The [try] block of [buildWindowFromId], after [xprop] answered. *)
Definition buildWindowFromId_try (stdout windowId : string)
           (pidFromWmctrl : option Z) (fallbackTitle : option string)
  : completion DesktopWindow.t :=
  let pid := extractNumber stdout pid_re ?? pidFromWmctrl in
  let title :=
    match or_else (or_else (extractString stdout net_wm_name_re)
                           fallbackTitle) (Some "") with
    | Some t => t
    | None => ""
    end in
  let wmClassRaw := extractList stdout wm_class_re in
  let gtkAppId := extractString stdout gtk_application_id_re in
  let processPath :=
    match truthy_pid pid with
    | Some n => resolveProcessPath n
    | None => None
    end in
  let execName :=
    if truthy_opt processPath
    then option_map NodePath.name processPath
    else match wmClassRaw with
         | Some l => hd_error l
         | None => None
         end in
  let appName :=
    if truthy_opt
         (match wmClassRaw with
          | Some l => last (map Some l) None
          | None => None
          end ?? gtkAppId ?? processPath)
    then parse_name processPath
    else Returns title in
  match appName with
  | Throws => Throws
  | Returns appName =>
      Returns
        {| DesktopWindow.id := windowId;
           DesktopWindow.title := title;
           DesktopWindow.url := None;
           DesktopWindow.info :=
             {| DesktopWindowInfo.processId := pid;
                DesktopWindowInfo.path := processPath;
                DesktopWindowInfo.name := appName;
                DesktopWindowInfo.execName := execName |} |}
  end.

(** The [catch] block of [buildWindowFromId]. *)
Definition buildWindowFromId_catch (windowId : string)
           (pidFromWmctrl : option Z) (fallbackTitle : option string)
  : option DesktopWindow.t :=
  match truthy_pid pidFromWmctrl with
  | None => None
  | Some pid =>
      let processPath := resolveProcessPath pid in
      if negb (truthy_opt processPath) then None
      else
        let execName :=
          match processPath with
          | Some p => NodePath.name p
          | None => ""
          end in
        Some {| DesktopWindow.id := windowId;
                DesktopWindow.title :=
                  match fallbackTitle with
                  | Some t => t
                  | None => execName
                  end;
                DesktopWindow.url := None;
                DesktopWindow.info :=
                  {| DesktopWindowInfo.processId := Some pid;
                     DesktopWindowInfo.path := processPath;
                     DesktopWindowInfo.name := execName;
                     DesktopWindowInfo.execName := Some execName |} |}
  end.

Definition buildWindowFromId (xprop : xprop_outcome) (windowId : string)
           (pidFromWmctrl : option Z) (fallbackTitle : option string)
  : option DesktopWindow.t :=
  match xprop with
  | Fails => buildWindowFromId_catch windowId pidFromWmctrl fallbackTitle
  | Stdout stdout =>
      match buildWindowFromId_try stdout windowId pidFromWmctrl
                                  fallbackTitle with
      | Returns w => Some w
      | Throws =>
          buildWindowFromId_catch windowId pidFromWmctrl fallbackTitle
      end
  end.
End BuildWindow.

End LinuxWindowManager.

(* ------------------------------------------------------------------ *)
(** ** The specification's own words

    Definitions written after the specification, to be compared with the
    code above. *)

Module Spec.

(** The title-blocked set as the specification describes it: browsers,
    notes apps, the IDE, terminal-class apps. *)
Definition browsers : list string :=
  ["arcbrowser"; "brave"; "chrome"; "firefox"; "safari"; "safaripreview";
   "microsoft_edge"].
Definition notes_apps : list string := ["notes"].
Definition the_ide : list string := ["xcode"].
Definition terminal_class : list string :=
  ["iterm2"; "mac_terminal"; "windows_terminal"; "powershell"].
Definition title_blocked : list string :=
  (browsers ++ notes_apps ++ the_ide ++ terminal_class)%list.

(** [project] as the specification words it: the patterns are tried in
    order, the first one that matches decides, and its capture is the
    result; null when none matches. *)
Definition matching (u : string) (p : MonitoredApp.pattern) : bool :=
  match Regex.exec (MonitoredApp.expression p) u with
  | Some _ => true
  | None => false
  end.

Definition project (url : option string) : option string :=
  match url with
  | None => None
  | Some u =>
      match find (matching u) MonitoredApp.patterns with
      | None => None
      | Some p =>
          match Regex.exec (MonitoredApp.expression p) u with
          | Some m => Regex.group (MonitoredApp.group p) m
          | None => None
          end
      end
  end.

(** The pre-dispatch gate: the executable path of the window is known
    and enabled for monitoring, and the window resolves to a display
    name that is not empty. *)
Definition gate (c : Wakatime.Collaborators) (p : Wakatime.props) : bool :=
  match DesktopWindowInfo.path (DesktopWindow.info (Wakatime.windowInfo p))
  with
  | None => false
  | Some windowPath =>
      Js.truthy_str windowPath && Wakatime.isMonitored c windowPath
      && match Wakatime.appName_of (Wakatime.appData p)
                                   (Some (Wakatime.windowInfo p)) with
         | Some n => Js.truthy_str n
         | None => false
         end
  end.

(** The documented precedence of the app name of a polled window:
    class, then GTK id, then process name, else title. *)
Definition appName (wmClassRaw : option (list string))
           (gtkAppId processPath : option string) (title : string)
  : string :=
  match wmClassRaw with
  | Some (c :: l) => last (c :: l) c
  | _ =>
      match gtkAppId with
      | Some g => g
      | None =>
          match processPath with
          | Some p => NodePath.name p
          | None => title
          end
      end
  end.

End Spec.

(* ------------------------------------------------------------------ *)
(** ** Sample inputs *)

Module Sample.

Definition window (title : string) (url : option string)
  : DesktopWindow.t :=
  {| DesktopWindow.id := "0x3a00007";
     DesktopWindow.title := title;
     DesktopWindow.url := url;
     DesktopWindow.info :=
       {| DesktopWindowInfo.processId := Some 4242%Z;
          DesktopWindowInfo.path := Some "/usr/bin/app";
          DesktopWindowInfo.name := "App";
          DesktopWindowInfo.execName := Some "app" |} |}.

Definition app (id : string) (isBrowser : bool) : AppData.t :=
  {| AppData.id := id;
     AppData.name := id;
     AppData.version := Some "1.0";
     AppData.isBrowser := isBrowser |}.

(** Every site allowed, the domain preference, the address parser. *)
Definition classifier : MonitoredApp.Collaborators :=
  {| MonitoredApp.filterBrowsedSites := fun _ => true;
     MonitoredApp.domainPreference := "domain";
     MonitoredApp.new_URL := Url.parse |}.

(** A packaged build with updates and the status bar enabled, on which
    every application is monitored or none is. *)
Definition dispatcher (monitored : bool) : Wakatime.Collaborators :=
  {| Wakatime.isMonitored := fun _ => monitored;
     Wakatime.showCodeTimeInStatusBar := true;
     Wakatime.autoUpdateEnabled := true;
     Wakatime.isDev := false;
     Wakatime.notificationIsSupported := true;
     Wakatime.cliPath := "/home/u/.wakatime/wakatime-cli" |}.

Definition fresh : Wakatime.state :=
  Wakatime.initial "linux-wakatime/1.0.0" None.

(** A keystroke sample in a chat window. *)
Definition keystroke : Wakatime.props :=
  {| Wakatime.appData := Some (app "slack" false);
     Wakatime.windowInfo := window "general - Slack" None;
     Wakatime.entity := "general";
     Wakatime.entityType := et_app;
     Wakatime.category := Some communicating;
     Wakatime.project := None;
     Wakatime.language := None;
     Wakatime.isWrite := false |}.

(** One instant, 2023-11-14T22:13:20Z, and a CLI that succeeds. *)
Definition calm : Wakatime.world :=
  {| Wakatime.now := 1700000000000%Z;
     Wakatime.heartbeat_cli := Wakatime.Resolved "" None;
     Wakatime.today_now := 1700000000000%Z;
     Wakatime.today_cli := Wakatime.Resolved "1 hr 2 mins" None;
     Wakatime.update_now := 1700000000000%Z |}.

Definition newline : string := String (ascii_of_nat 10) EmptyString.

(** What [xprop] prints for a browser window. *)
Definition xprop_firefox : string :=
  "_NET_WM_PID(CARDINAL) = 4242" ++ newline ++
  "_NET_WM_NAME(UTF8_STRING) = " ++ LinuxWindowManager.dquote ++
  "Mozilla Firefox" ++ LinuxWindowManager.dquote ++ newline ++
  "WM_CLASS(STRING) = " ++ LinuxWindowManager.dquote ++ "Navigator" ++
  LinuxWindowManager.dquote ++ ", " ++ LinuxWindowManager.dquote ++
  "firefox" ++ LinuxWindowManager.dquote ++ newline ++
  "_GTK_APPLICATION_ID:  not found." ++ newline.

(** What [xprop] prints for a window without a class and with a GTK
    application id. *)
Definition xprop_gtk : string :=
  "_NET_WM_PID(CARDINAL) = 977" ++ newline ++
  "_NET_WM_NAME(UTF8_STRING) = " ++ LinuxWindowManager.dquote ++
  "Files" ++ LinuxWindowManager.dquote ++ newline ++
  "WM_CLASS:  not found." ++ newline ++
  "_GTK_APPLICATION_ID(UTF8_STRING) = " ++ LinuxWindowManager.dquote ++
  "org.gnome.Nautilus" ++ LinuxWindowManager.dquote ++ newline.

End Sample.

(* ------------------------------------------------------------------ *)
(** ** Insertion-ordered maps

    A JavaScript [Map] with string keys, and the own string keys of a
    plain object: the entries in the order of their first insertion. *)

Module JsMap.
Section Values.
Context {V : Type}.

Definition t : Type := list (string * V).

(** [m.has(k)] *)
Definition has (k : string) (m : t) : bool :=
  existsb (fun kv => String.eqb (fst kv) k) m.

(** [m.get(k)], [o[k]] on an own key *)
Fixpoint get (k : string) (m : t) : option V :=
  match m with
  | [] => None
  | (k', v) :: m' => if String.eqb k' k then Some v else get k m'
  end.

(** [m.set(k, v)], [o[k] = v]: a known key keeps its place. *)
Fixpoint set (k : string) (v : V) (m : t) : t :=
  match m with
  | [] => [(k, v)]
  | (k', v') :: m' =>
      if String.eqb k' k then (k', v) :: m' else (k', v') :: set k v m'
  end.

(** [Object.keys(o)], [[...m.keys()]] *)
Definition keys (m : t) : list string := map fst m.

(** [[...m.values()]] *)
Definition values (m : t) : list V := map snd m.

End Values.
Arguments t V : clear implicits.
End JsMap.

(* ------------------------------------------------------------------ *)
(** ** [helpers/monitored-app.ts]: the rest of the window manager *)

Module WindowManager.

(** The loop shared by [dedupeWindowsById] and [dedupeByPath]: an entry
    is set only for a key the map does not have yet. *)
Definition dedupe_loop {A : Type} (key : A -> string) (l : list A)
           (m : JsMap.t A) : JsMap.t A :=
  fold_left (fun m x => if JsMap.has (key x) m then m
                        else JsMap.set (key x) x m)
            l m.

Definition dedupeWindowsById (windows : list DesktopWindow.t)
  : list DesktopWindow.t :=
  JsMap.values (dedupe_loop DesktopWindow.id windows []).

(** One run of [poll] in [subscribeActiveWindow]: what
    [fetchActiveWindow] gave (it throws when [xprop] fails), the window
    remembered before; the result is the window remembered after and the
    windows handed to the callback. *)
Definition poll (fetched : completion (option DesktopWindow.t))
           (lastActiveWindow : option DesktopWindow.t)
  : option DesktopWindow.t * list DesktopWindow.t :=
  match fetched with
  | Throws => (lastActiveWindow, [])
  | Returns None => (lastActiveWindow, [])
  | Returns (Some window) =>
      let changed :=
        negb match lastActiveWindow with
             | Some l => String.eqb (DesktopWindow.id l)
                                    (DesktopWindow.id window)
             | None => false
             end in
      (Some window, if changed then [window] else [])
  end.

(** The successive runs of [poll], one per tick of the timer. *)
Fixpoint poll_each (ticks : list (completion (option DesktopWindow.t)))
         (lastActiveWindow : option DesktopWindow.t)
  : option DesktopWindow.t * list DesktopWindow.t :=
  match ticks with
  | [] => (lastActiveWindow, [])
  | fetched :: ticks' =>
      let (last1, called) := poll fetched lastActiveWindow in
      let (last2, rest) := poll_each ticks' last1 in
      (last2, (called ++ rest)%list)
  end.

End WindowManager.

(* ------------------------------------------------------------------ *)
(** ** [watchers/watcher.ts]: class [Watcher] *)

Module Watcher.

(** The fields of the object that change; [wakatime] is threaded apart. *)
Record state : Type := {
  activeWindow : option DesktopWindow.t;
  isWatchingForKeyboardEvents : bool
}.

Definition initial : state :=
  {| activeWindow := None; isWatchingForKeyboardEvents := false |}.

(** The calls to the global key listener. *)
Inductive call : Type :=
| RemoveListener      (* [gkl.removeListener(globalKeyListener)] *)
| AddListener.        (* [gkl.addListener(globalKeyListener)] *)








(** [event.state] *)
Inductive key_state : Type := DOWN | UP.

(** [globalKeyListener]: [window] is what [windowManager.activeWindow()]
    answers, [getApp] is [AppsManager.instance().getApp]. *)
Definition globalKeyListener (mc : MonitoredApp.Collaborators)
           (wc : Wakatime.Collaborators)
           (getApp : string -> option AppData.t)
           (window : option DesktopWindow.t) (event_state : key_state)
           (w : Wakatime.world) (st : Wakatime.state)
  : Wakatime.state * list Wakatime.call :=
  match event_state with
  | UP => (st, [])
  | DOWN =>
      match window with
      | None => (st, [])
      | Some win =>
          match DesktopWindowInfo.path (DesktopWindow.info win) with
          | None => (st, [])
          | Some p =>
              if negb (Js.truthy_str p) then (st, [])
              else
                let app := getApp p in
                match MonitoredApp.heartbeatData mc win app with
                | Throws => (st, [])
                | Returns None => (st, [])
                | Returns (Some heartbeatData) =>
                    Wakatime.sendHeartbeat
                      wc w
                      {| Wakatime.appData := app;
                         Wakatime.windowInfo := win;
                         Wakatime.entity :=
                           HeartbeatData.entity heartbeatData;
                         Wakatime.entityType := et_app;
                         Wakatime.category :=
                           HeartbeatData.category heartbeatData;
                         Wakatime.project :=
                           HeartbeatData.project heartbeatData;
                         Wakatime.language :=
                           HeartbeatData.language heartbeatData;
                         Wakatime.isWrite := false |}
                      st
                end
          end
      end
  end.

End Watcher.

(* ------------------------------------------------------------------ *)
(** ** The Linux catalogue of installed applications
       ([getInstalledAppsLinux] and its helpers) *)

Module InstalledAppsLinux.

(** [s.toLowerCase()] on one-byte code units: the letters A to Z, and the
    capital letters of the upper half (all of 192 to 222 but 215). *)
Definition to_lower (c : ascii) : ascii :=
  let n := nat_of_ascii c in
  if (Nat.leb 65 n && Nat.leb n 90)
     || (Nat.leb 192 n && Nat.leb n 222 && negb (Nat.eqb n 215))
  then ascii_of_nat (n + 32) else c.

Fixpoint toLowerCase (s : string) : string :=
  match s with
  | EmptyString => EmptyString
  | String c s' => String (to_lower c) (toLowerCase s')
  end.

(** [[a-z0-9]] *)
Definition alnum (c : ascii) : bool :=
  let n := nat_of_ascii c in
  (Nat.leb 97 n && Nat.leb n 122) || (Nat.leb 48 n && Nat.leb n 57).

(** [s.replace(/[^a-z0-9]+/g, "_")]: each run of other characters
    becomes one underscore; [in_run] tells that the previous character
    was one of them. *)
Fixpoint replace_runs (in_run : bool) (s : string) : string :=
  match s with
  | EmptyString => EmptyString
  | String c s' =>
      if alnum c then String c (replace_runs false s')
      else if in_run then replace_runs true s'
      else String "_" (replace_runs true s')
  end.

Definition sanitizeId (name : string) : string :=
  replace_runs false (toLowerCase name).

(** [s.replace(EXEC_PLACEHOLDER, empty)] with [EXEC_PLACEHOLDER = /%.*/g]:
    from each percent sign to the end of its line; [skipping] tells that
    a percent sign was met on the line. *)
Fixpoint strip_placeholders (skipping : bool) (s : string) : string :=
  match s with
  | EmptyString => EmptyString
  | String c s' =>
      if Js.is_line_terminator c then String c (strip_placeholders false s')
      else if skipping then strip_placeholders true s'
      else if Ascii.eqb c "%" then strip_placeholders true s'
      else String c (strip_placeholders false s')
  end.

(** The three variables of the loop of [tokenizeExec]. *)
Record tokenizer : Type := {
  tokens : list string;
  current : string;
  quoteChar : option ascii
}.

Definition is_quote (c : ascii) : bool :=
  Ascii.eqb c "'" || Ascii.eqb c (ascii_of_nat 34).

(** The body of [for (const char of command)]. *)
Definition tokenize_char (st : tokenizer) (char : ascii) : tokenizer :=
  match quoteChar st with
  | Some q =>
      if Ascii.eqb char q
      then {| tokens := tokens st; current := current st;
              quoteChar := None |}
      else {| tokens := tokens st;
              current := current st ++ String char EmptyString;
              quoteChar := Some q |}
  | None =>
      if is_quote char
      then {| tokens := tokens st; current := current st;
              quoteChar := Some char |}
      else if Js.is_space char then
        if Js.truthy_str (current st)
        then {| tokens := (tokens st ++ [current st])%list;
                current := EmptyString; quoteChar := None |}
        else st
      else {| tokens := tokens st;
              current := current st ++ String char EmptyString;
              quoteChar := None |}
  end.

(** What is returned once the loop is over. *)
Definition tokenize_end (st : tokenizer) : list string :=
  if Js.truthy_str (current st) then (tokens st ++ [current st])%list
  else tokens st.

Definition tokenizeExec (command : string) : list string :=
  tokenize_end
    (fold_left tokenize_char (list_ascii_of_string command)
               {| tokens := []; current := EmptyString;
                  quoteChar := None |}).

(** [content.split(/\r?\n/)] *)
Fixpoint split_lines (s : string) : list string :=
  match s with
  | EmptyString => [EmptyString]
  | String c s' =>
      if Ascii.eqb c (ascii_of_nat 10) then EmptyString :: split_lines s'
      else
        match s' with
        | String d s'' =>
            if Ascii.eqb c (ascii_of_nat 13) && Ascii.eqb d (ascii_of_nat 10)
            then EmptyString :: split_lines s''
            else match split_lines s' with
                 | h :: t => String c h :: t
                 | [] => [String c EmptyString]
                 end
        | EmptyString => [String c EmptyString]
        end
  end.

(** [line.indexOf(c)], as the two slices around it: [line.slice(0, i)]
    and [line.slice(i + 1)]; [None] for [-1]. *)
Fixpoint cut_at (c : ascii) (line : string) : option (string * string) :=
  match line with
  | EmptyString => None
  | String a line' =>
      if Ascii.eqb a c then Some (EmptyString, line')
      else match cut_at c line' with
           | Some (before, after) => Some (String a before, after)
           | None => None
           end
  end.

(** [DesktopEntry]: a plain object from keys to strings. *)
Definition DesktopEntry : Type := JsMap.t string.

(** [data[key] = value] on a plain object: the key [__proto__] goes to
    the setter of the prototype, which drops a string. *)
Definition assign (key value : string) (data : DesktopEntry)
  : DesktopEntry :=
  if String.eqb key "__proto__" then data else JsMap.set key value data.

(** The two variables of the loop of [parseDesktopEntry]. *)
Record parser : Type := {
  withinDesktopEntry : bool;
  data : DesktopEntry
}.

(** The body of [for (const rawLine of lines)]. *)
Definition parse_line (st : parser) (rawLine : string) : parser :=
  let line := LinuxWindowManager.trim rawLine in
  if negb (Js.truthy_str line) || Js.starts_with "#" line then st
  else if Js.starts_with "[" line then
    {| withinDesktopEntry := String.eqb line "[Desktop Entry]";
       data := data st |}
  else if negb (withinDesktopEntry st) then st
  else
    match cut_at "=" line with
    | None => st
    | Some (before, after) =>
        let key := LinuxWindowManager.trim before in
        let value := LinuxWindowManager.trim after in
        if Js.truthy_str key
        then {| withinDesktopEntry := withinDesktopEntry st;
                data := assign key value (data st) |}
        else st
    end.

Definition parseDesktopEntry (content : string) : option DesktopEntry :=
  let st := fold_left parse_line (split_lines content)
                      {| withinDesktopEntry := false; data := [] |} in
  match JsMap.keys (data st) with
  | [] => None
  | _ :: _ => Some (data st)
  end.

(** [entry[key]] for one of [Object.keys(entry)] *)
Definition value_of (entry : DesktopEntry) (key : string) : string :=
  match JsMap.get key entry with
  | Some v => v
  | None => EmptyString
  end.

Definition getDesktopName (entry : DesktopEntry) : option string :=
  if LinuxWindowManager.truthy_opt (JsMap.get "Name" entry)
  then JsMap.get "Name" entry
  else
    find Js.truthy_str
         (map (value_of entry)
              (filter (Js.starts_with "Name[") (JsMap.keys entry))).

(** [LinuxAppMetadata]; a field is [None] where the object has none. *)
Record LinuxAppMetadata : Type := {
  id : option string;
  isBrowser : option bool;
  isDefaultEnabled : option bool;
  isElectronApp : option bool
}.

Definition browser (i : string) : LinuxAppMetadata :=
  {| id := Some i; isBrowser := Some true; isDefaultEnabled := None;
     isElectronApp := None |}.

Definition electron (i : string) : LinuxAppMetadata :=
  {| id := Some i; isBrowser := None; isDefaultEnabled := Some true;
     isElectronApp := Some true |}.

Definition LINUX_APP_METADATA : JsMap.t LinuxAppMetadata :=
  [ ("brave", browser "brave");
    ("brave-browser", browser "brave");
    ("google-chrome", browser "chrome");
    ("chrome", browser "chrome");
    ("chromium", browser "chrome");
    ("firefox", browser "firefox");
    ("microsoft-edge", browser "microsoft_edge");
    ("microsoft-edge-beta", browser "microsoft_edge");
    ("notion", electron "notion");
    ("notion-app", electron "notion");
    ("figma-linux", electron "figma");
    ("figma", electron "figma");
    ("slack", electron "slack");
    ("zoom", electron "zoom");
    ("zoom-original", electron "zoom");
    ("postman", electron "postman");
    ("linear", electron "linear");
    ("linear-linux", electron "linear") ].

(** What a plain object answers for a key it inherits: a value that is
    truthy and has none of the four fields. *)
Definition inherited (key : string) : option LinuxAppMetadata :=
  if String.eqb key "constructor" || String.eqb key "__proto__"
  then Some {| id := None; isBrowser := None; isDefaultEnabled := None;
               isElectronApp := None |}
  else None.

Section Host.
(** [allApps.find(app => app.linux?.execName?.toLowerCase() === l)] of
    [watchers/apps], reduced to the four fields that are copied. *)
Variable allApps_find : string -> option LinuxAppMetadata.
(** [resolveExecutablePath]: the executable a command names, if any. *)
Variable resolveExecutablePath : string -> option string.
(** [resolveIcon]: the icon of an [Icon] field, as a data address. *)
Variable resolveIcon : option string -> option string.

Definition getMetadataForExec (execName : string)
  : option LinuxAppMetadata :=
  let lowerExec := toLowerCase execName in
  match JsMap.get lowerExec LINUX_APP_METADATA with
  | Some m => Some m
  | None =>
      match inherited lowerExec with
      | Some m => Some m
      | None => allApps_find lowerExec
      end
  end.

(** [resolveExecCommand]: the pair of [command] and [execName], [None]
    where both are null. *)
Definition resolveExecCommand (execValue : string)
  : option (string * string) :=
  let tokens :=
    tokenizeExec
      (LinuxWindowManager.trim (strip_placeholders false execValue)) in
  match find (fun token => negb (Js.includes "=" token)
                           && negb (String.eqb token "env")) tokens with
  | None => None
  | Some commandToken =>
      if String.eqb commandToken "env" then None
      else
        match resolveExecutablePath commandToken with
        | None => None
        | Some resolved =>
            if Js.truthy_str resolved
            then Some (resolved, NodePath.name resolved)
            else None
        end
  end.

(** [AppData] as [buildAppData] fills it. *)
Record InstalledApp : Type := {
  app_path : string;
  app_icon : option string;
  app_name : string;
  app_bundleId : option string;
  app_id : string;
  app_isBrowser : bool;
  app_isDefaultEnabled : bool;
  app_isElectronApp : bool;
  app_version : option string;
  app_execName : string
}.

(** [m?.f ?? d] *)
Definition field_or {A : Type} (m : option LinuxAppMetadata)
           (f : LinuxAppMetadata -> option A) (d : A) : A :=
  match m with
  | Some x => match f x with Some v => v | None => d end
  | None => d
  end.

(** [buildAppData] on the text of a desktop file. *)
Definition buildAppData (content : string) : option InstalledApp :=
  match parseDesktopEntry content with
  | None => None
  | Some entry =>
      if negb match JsMap.get "Type" entry with
              | Some t => String.eqb t "Application"
              | None => false
              end
      then None
      else if match JsMap.get "NoDisplay" entry with
              | Some v => String.eqb v "true"
              | None => false
              end
              || match JsMap.get "Hidden" entry with
                 | Some v => String.eqb v "true"
                 | None => false
                 end
      then None
      else
        match getDesktopName entry with
        | None => None
        | Some name =>
            match LinuxWindowManager.or_else (JsMap.get "TryExec" entry)
                                             (JsMap.get "Exec" entry) with
            | None => None
            | Some execCommand =>
                if negb (Js.truthy_str execCommand) then None
                else
                  match resolveExecCommand execCommand with
                  | None => None
                  | Some (command, execName) =>
                      if negb (Js.truthy_str command)
                         || negb (Js.truthy_str execName)
                      then None
                      else
                        let metadata := getMetadataForExec execName in
                        Some
                          {| app_path := command;
                             app_icon :=
                               resolveIcon (JsMap.get "Icon" entry);
                             app_name := name;
                             app_bundleId :=
                               match LinuxWindowManager.or_else
                                       (JsMap.get "X-GNOME-Application-ID"
                                                  entry)
                                       (JsMap.get "DesktopId" entry) with
                               | Some b =>
                                   if Js.truthy_str b then Some b else None
                               | None => None
                               end;
                             app_id :=
                               field_or metadata id (sanitizeId name);
                             app_isBrowser :=
                               field_or metadata isBrowser false;
                             app_isDefaultEnabled :=
                               field_or metadata isDefaultEnabled false;
                             app_isElectronApp :=
                               field_or metadata isElectronApp false;
                             app_version := None;
                             app_execName := execName |}
                  end
            end
        end
  end.
End Host.

Definition dedupeByPath (apps : list InstalledApp) : list InstalledApp :=
  JsMap.values (WindowManager.dedupe_loop app_path apps []).

End InstalledAppsLinux.

(* ------------------------------------------------------------------ *)
(** ** [watchers/wakatime.ts]: [pluginString] on 16-bit code units *)

(** The strings of the other modules hold one-byte code units.  The last
    expression of [pluginString] reads its string by code points, so
    this module has the method on strings of 16-bit code units, where
    code points above U+FFFF exist. *)
Module Utf16.

(** A string: its UTF-16 code units. *)
Definition str : Type := list N.

(** A string of one-byte code units as a string of 16-bit ones. *)
Definition of_string (s : string) : str :=
  map N_of_ascii (list_ascii_of_string s).

(** [!!s] *)
Definition truthy (s : str) : bool :=
  match s with
  | [] => false
  | _ :: _ => true
  end.

(** The code units [\s] matches. *)
Definition is_space (u : N) : bool :=
  ((9 <=? u) && (u <=? 13) || (u =? 32) || (u =? 160) || (u =? 5760)
   || (8192 <=? u) && (u <=? 8202) || (u =? 8232) || (u =? 8233)
   || (u =? 8239) || (u =? 8287) || (u =? 12288) || (u =? 65279))%N.

(** [s.replace(/\s/g, empty)] *)
Definition strip_spaces (s : str) : str :=
  filter (fun u => negb (is_space u)) s.

(** The first and the second unit of a surrogate pair. *)
Definition is_high (u : N) : bool := ((55296 <=? u) && (u <=? 56319))%N.
Definition is_low (u : N) : bool := ((56320 <=? u) && (u <=? 57343))%N.

(** The code points from U+0080 to U+FFFF. *)
Definition in_class (u : N) : bool := ((128 <=? u) && (u <=? 65535))%N.

(** [s.replace(/[\u{0080}-\u{FFFF}]/gu, empty)].  With the flag [u] the
    string is read by code points: a high surrogate followed by a low
    one is one code point above U+FFFF, which the class does not hold
    and which therefore stays; any other unit is a code point of its
    own, a surrogate without its partner included. *)
Fixpoint strip_non_ascii (s : str) : str :=
  match s with
  | [] => []
  | u :: rest =>
      if is_high u then
        match rest with
        | v :: rest' =>
            if is_low v then u :: v :: strip_non_ascii rest'
            else strip_non_ascii rest
        | [] => []
        end
      else if in_class u then strip_non_ascii rest
      else u :: strip_non_ascii rest
  end.

(** Read by code points, [s] has none from U+0080 to U+FFFF. *)
Fixpoint clean (s : str) : bool :=
  match s with
  | [] => true
  | u :: rest =>
      if is_high u then
        match rest with
        | v :: rest' => is_low v && clean rest'
        | [] => false
        end
      else negb (in_class u) && clean rest
  end.

(** The fields of [AppData] that [pluginString] reads. *)
Record AppData : Type := {
  name : str;
  version : option str
}.

(** [windowInfo?.info.name || appData?.name]; [windowInfo] is the name
    in the info of the window, [None] without a window. *)
Definition appName_of (appData : option AppData) (windowInfo : option str)
  : option str :=
  match windowInfo with
  | Some n => if truthy n then Some n else option_map name appData
  | None => option_map name appData
  end.

(** [a || unknown] *)
Definition or_unknown (a : option str) : str :=
  match a with
  | Some s => if truthy s then s else of_string "unknown"
  | None => of_string "unknown"
  end.

(** [appData?.version?.replace(/\s/g, empty) || unknown] *)
Definition appVersion_of (appData : option AppData) : str :=
  or_unknown
    (match appData with
     | Some a => option_map strip_spaces (version a)
     | None => None
     end).

Definition pluginString (versionString : str) (appData : option AppData)
           (windowInfo : option str) : str :=
  match appName_of appData windowInfo with
  | None => versionString
  | Some appName =>
      if negb (truthy appName) then versionString
      else
        let appNameSafe := strip_spaces appName in
        let appVersion := appVersion_of appData in
        strip_non_ascii
          (appNameSafe ++ of_string "/" ++ appVersion ++ of_string " "
             ++ versionString)%list
  end.

(** The arguments of [Wakatime.pluginString] as this module has them. *)
Definition of_app (a : AppData.t) : AppData :=
  {| name := of_string (AppData.name a);
     version := option_map of_string (AppData.version a) |}.

Definition of_window (w : DesktopWindow.t) : str :=
  of_string (DesktopWindowInfo.name (DesktopWindow.info w)).

End Utf16.

(* ================================================================== *)
(** * Properties *)

(** ** Comparison helpers *)

Lemma Category_eqb_eq (a b : Category) : Category_eqb a b = true <-> a = b.
Proof. destruct a, b; simpl; split; congruence. Qed.

Lemma Category_eqb_neq (a b : Category) :
  Category_eqb a b = false <-> a <> b.
Proof.
  rewrite <- Category_eqb_eq. destruct (Category_eqb a b); split; congruence.
Qed.

Lemma Qltb_lt (a b : Q) : Qltb a b = true <-> (a < b)%Q.
Proof.
  unfold Qltb. rewrite negb_true_iff. split; intro H.
  - apply Qnot_le_lt. intro Hle. apply Qle_bool_iff in Hle. congruence.
  - destruct (Qle_bool b a) eqn:E; [|reflexivity].
    apply Qle_bool_iff in E. exfalso. exact (Qlt_not_le _ _ H E).
Qed.

Lemma Qltb_ge (a b : Q) : Qltb a b = false <-> (b <= a)%Q.
Proof. unfold Qltb. rewrite negb_false_iff. apply Qle_bool_iff. Qed.

Lemma truthy_str_true (s : string) : Js.truthy_str s = true <-> s <> "".
Proof. destruct s; simpl; split; congruence. Qed.

Lemma truthy_str_false (s : string) : Js.truthy_str s = false <-> s = "".
Proof. destruct s; simpl; split; congruence. Qed.

(* ------------------------------------------------------------------ *)
(** ** The heartbeat throttle *)

Section Throttle.
Import Wakatime.
Variable st : state.
Variables (entity : string) (time : Q) (isWrite : bool)
          (category : Category).

Lemma shouldSendHeartbeat_true_iff :
  shouldSendHeartbeat st entity time isWrite category = Js.JsTrue
  <-> (isWrite = true
       \/ category <> lastCategory st
       \/ (entity <> "" /\ entity <> lastEntitiy st)
       \/ (lastTime st + 120 < time)%Q).
Proof.
  unfold shouldSendHeartbeat.
  destruct isWrite; [tauto|].
  destruct (Category_eqb category (lastCategory st)) eqn:Ec; simpl;
    [apply Category_eqb_eq in Ec | apply Category_eqb_neq in Ec; tauto].
  destruct (Js.truthy_str entity) eqn:Ee; simpl;
    [apply truthy_str_true in Ee | apply truthy_str_false in Ee].
  - destruct (String.eqb (lastEntitiy st) entity) eqn:El; simpl;
      [apply String.eqb_eq in El | apply String.eqb_neq in El].
    + destruct (Qltb (lastTime st + 120) time) eqn:Et;
        [apply Qltb_lt in Et; tauto | apply Qltb_ge in Et].
      split; [discriminate|].
      intros [H|[H|[[_ H]|H]]]; try congruence.
      exfalso. exact (Qlt_not_le _ _ H Et).
    + split; [|reflexivity].
      intros _. right. right. left. split; congruence.
  - destruct (Qltb (lastTime st + 120) time) eqn:Et;
      [apply Qltb_lt in Et; tauto | apply Qltb_ge in Et].
    split; [discriminate|].
    intros [H|[H|[[H _]|H]]]; try congruence.
    exfalso. exact (Qlt_not_le _ _ H Et).
Qed.

Lemma shouldSendHeartbeat_truthy_iff :
  Js.truthy (shouldSendHeartbeat st entity time isWrite category) = true
  <-> shouldSendHeartbeat st entity time isWrite category = Js.JsTrue.
Proof.
  destruct (shouldSendHeartbeat st entity time isWrite category);
    simpl; split; congruence.
Qed.
End Throttle.

(** C1.  [shouldSendHeartbeat], evaluated against the stored throttle
    state, returns [true] if and only if the sample is a write, or its
    category differs from the stored one, or its entity is not empty and
    differs from the stored one, or its time exceeds the stored emission
    time by more than 120 seconds.  A sample that is no write, with the
    stored category and the stored entity, less than 120 seconds after
    the stored emission, is refused (the call ends without a value,
    which the caller's [!] reads as false); a write is always accepted. *)
Theorem shouldSendHeartbeat_decision :
  forall (st : Wakatime.state) (entity : string) (time : Q)
         (isWrite : bool) (category : Category),
    (Wakatime.shouldSendHeartbeat st entity time isWrite category
     = Js.JsTrue
     <-> (isWrite = true
          \/ category <> Wakatime.lastCategory st
          \/ (entity <> "" /\ entity <> Wakatime.lastEntitiy st)
          \/ (Wakatime.lastTime st + 120 < time)%Q))
    /\ (isWrite = false ->
        category = Wakatime.lastCategory st ->
        entity = Wakatime.lastEntitiy st ->
        (time - Wakatime.lastTime st < 120)%Q ->
        Js.truthy
          (Wakatime.shouldSendHeartbeat st entity time isWrite category)
        = false)
    /\ (isWrite = true ->
        Wakatime.shouldSendHeartbeat st entity time isWrite category
        = Js.JsTrue).
Proof.
  intros st entity time isWrite category. split; [|split].
  - apply shouldSendHeartbeat_true_iff.
  - intros Hw Hc He Ht.
    destruct (Js.truthy _) eqn:E; [|reflexivity].
    apply shouldSendHeartbeat_truthy_iff in E.
    apply shouldSendHeartbeat_true_iff in E.
    destruct E as [H|[H|[[_ H]|H]]]; try congruence.
    exfalso. lra.
  - intros Hw. apply shouldSendHeartbeat_true_iff. left. exact Hw.
Qed.

(** The refused case of C1 on a sample: the same chat channel, sixty
    seconds after the last heartbeat. *)
Lemma shouldSendHeartbeat_decision_witness :
  Js.truthy
    (Wakatime.shouldSendHeartbeat
       (Wakatime.set_throttle "general" communicating (1700000000 # 1)
                              Sample.fresh)
       "general" (1700000060 # 1) false communicating)
  = false.
Proof.
  apply (proj1 (proj2 (shouldSendHeartbeat_decision
                         (Wakatime.set_throttle "general" communicating
                                                (1700000000 # 1)
                                                Sample.fresh)
                         "general" (1700000060 # 1) false communicating))).
  - reflexivity.
  - reflexivity.
  - reflexivity.
  - vm_compute. reflexivity.
Defined.

(* ------------------------------------------------------------------ *)
(** ** The activity classifier: entity and title *)

Section SplitHead.
Variable sep : string.

(** The leading segment is a prefix of the title, and what follows it is
    nothing or starts with the separator. *)
Lemma split_head_prefix (s : string) :
  exists rest,
    s = Js.split_head sep s ++ rest
    /\ (rest = "" \/ Js.starts_with sep rest = true).
Proof.
  induction s as [|c s IH]; simpl.
  - destruct (Js.starts_with sep "") eqn:E.
    + exists "". split; [reflexivity|]. left. reflexivity.
    + exists "". split; [reflexivity|]. left. reflexivity.
  - destruct (Js.starts_with sep (String c s)) eqn:E.
    + exists (String c s). split; [reflexivity|]. right. exact E.
    + destruct IH as [rest [Hs Hr]].
      exists rest. split; [|exact Hr].
      simpl. f_equal. exact Hs.
Qed.

(** The separator does not occur at any position inside the leading
    segment: the split is at its first occurrence. *)
Lemma split_head_first (s : string) (n : nat) :
  n < String.length (Js.split_head sep s) ->
  Js.starts_with sep (Regex.drop n s) = false.
Proof.
  revert n. induction s as [|c s IH]; intros n Hn; simpl in Hn.
  - destruct (Js.starts_with sep ""); simpl in Hn; lia.
  - destruct (Js.starts_with sep (String c s)) eqn:E; simpl in Hn; [lia|].
    destruct n as [|n]; simpl; [exact E|].
    apply IH. lia.
Qed.

(** A title without the separator is its own leading segment. *)
Lemma split_head_none (s : string) :
  Js.includes sep s = false -> Js.split_head sep s = s.
Proof.
  induction s as [|c s IH]; simpl; intros H.
  - apply orb_false_iff in H. destruct H as [H _]. rewrite H. reflexivity.
  - apply orb_false_iff in H. destruct H as [H1 H2].
    rewrite H1. f_equal. exact (IH H2).
Qed.
End SplitHead.

Lemma one_of_In (labels : list string) (a : AppData.t) :
  MonitoredApp.one_of labels (Some a) = true <-> In (AppData.id a) labels.
Proof.
  unfold MonitoredApp.one_of. rewrite existsb_exists. split.
  - intros [x [Hin Heq]]. apply String.eqb_eq in Heq. congruence.
  - intros Hin. exists (AppData.id a). split; [exact Hin|].
    apply String.eqb_refl.
Qed.

(** A terminal, by design: the code does not block its title. *)
Lemma entity_of_terminal :
  MonitoredApp.entity Sample.classifier (Sample.window "vim - zsh" None)
                      (Some (Sample.app "iterm2" false))
  = Returns (Some "vim").
Proof. reflexivity. Qed.

(** The IDE: the blocked branch of [title] answers with its own message,
    which [entity] passes on as the entity. *)
Lemma entity_of_xcode :
  MonitoredApp.entity Sample.classifier
                      (Sample.window "Widgets - main.swift" None)
                      (Some (Sample.app "xcode" false))
  = Returns (Some "xcode should never use window title as entity").
Proof. reflexivity. Qed.

(** C2, as stated, does not hold: a terminal-class app is not a browser,
    the specification counts it among the title-blocked ids, and its
    entity is the leading segment of its title. *)
Lemma title_blocked_entity_not_null :
  ~ (forall (c : MonitoredApp.Collaborators) (w : DesktopWindow.t)
            (app : AppData.t),
        AppData.isBrowser app = false ->
        In (AppData.id app) Spec.title_blocked ->
        MonitoredApp.entity c w (Some app) = Returns None).
Proof.
  intros H.
  specialize (H Sample.classifier (Sample.window "vim - zsh" None)
                (Sample.app "iterm2" false) eq_refl).
  rewrite entity_of_terminal in H.
  assert (Hin : In (AppData.id (Sample.app "iterm2" false))
                   Spec.title_blocked).
  { simpl. do 9 right. left. reflexivity. }
  specialize (H Hin). discriminate H.
Qed.

(** C2, amended.  For an app that is not a browser and whose id is one of
    the labels of the blocked branch of [title], the entity does not
    depend on the window: the title is never used.  For [canva] and
    [notes], which [entity] stops itself, it is null.  A terminal-class
    app is not blocked: its entity is never null; it is the leading
    segment of the title of the window when the title is not empty, and
    the name of the process of the window when it is. *)
Theorem title_blocked_entity :
  forall (c : MonitoredApp.Collaborators) (w : DesktopWindow.t)
         (app : AppData.t),
    AppData.isBrowser app = false ->
    (In (AppData.id app)
        ["arcbrowser"; "brave"; "canva"; "chrome"; "firefox"; "notes";
         "safari"; "safaripreview"; "xcode"; "microsoft_edge"] ->
     (forall w' : DesktopWindow.t,
         MonitoredApp.entity c w' (Some app)
         = MonitoredApp.entity c w (Some app))
     /\ (AppData.id app = "canva" \/ AppData.id app = "notes" ->
         MonitoredApp.entity c w (Some app) = Returns None))
    /\ (In (AppData.id app)
           ["iterm2"; "mac_terminal"; "windows_terminal"; "powershell"] ->
        MonitoredApp.entity c w (Some app)
        = Returns
            (Some (if Js.truthy_str (DesktopWindow.title w)
                   then Js.split_head " - " (DesktopWindow.title w)
                   else DesktopWindowInfo.name (DesktopWindow.info w)))).
Proof.
  intros c w [i n v b] Hb. simpl in Hb. subst b. split; intros Hin;
    simpl in Hin; unfold MonitoredApp.entity, MonitoredApp.title; simpl.
  - repeat (destruct Hin as [<-|Hin]; [simpl; split; [reflexivity|] |]);
      try (intros [H|H]; first [reflexivity | discriminate H]).
    destruct Hin.
  - repeat (destruct Hin as [<-|Hin];
            [simpl; destruct (Js.truthy_str (DesktopWindow.title w));
             reflexivity |]).
    destruct Hin.
Qed.

(** C2, amended, on the notes app. *)
Lemma title_blocked_entity_witness :
  MonitoredApp.entity Sample.classifier (Sample.window "Shopping list" None)
                      (Some (Sample.app "notes" false))
  = Returns None.
Proof.
  apply (proj2 (proj1 (title_blocked_entity
                         Sample.classifier
                         (Sample.window "Shopping list" None)
                         (Sample.app "notes" false) eq_refl)
                      ltac:(simpl; tauto))).
  right. reflexivity.
Defined.

(** C5, as stated, does not hold: the leading segment of the title
    [Untitled - Figma] is [Untitled], which is none of the placeholders
    the code knows for [figma], so the entity is not null. *)
Lemma figma_untitled_not_null :
  MonitoredApp.entity Sample.classifier
                      (Sample.window "Untitled - Figma" None)
                      (Some (Sample.app "figma" false))
  <> Returns None.
Proof. vm_compute. discriminate. Qed.

Section Placeholders.
Variable c : MonitoredApp.Collaborators.
Variable w : DesktopWindow.t.
Variable app : AppData.t.
Hypothesis not_browser : AppData.isBrowser app = false.

Variable leading : string.
Hypothesis leading_segment :
  leading = Js.split_head " - " (DesktopWindow.title w).

(** An app with placeholder handling: null for an empty leading segment
    and for the placeholders, the leading segment otherwise. *)
Lemma entity_with_placeholders (i : string) (placeholders : list string) :
  AppData.id app = i ->
  MonitoredApp.entity c w (Some app)
  = Returns (if negb (Js.truthy_str leading)
                || existsb (String.eqb leading) placeholders
             then None else Some leading) ->
  (leading = "" \/ In leading placeholders ->
   MonitoredApp.entity c w (Some app) = Returns None)
  /\ (leading <> "" -> ~ In leading placeholders ->
      MonitoredApp.entity c w (Some app) = Returns (Some leading)).
Proof.
  intros _ ->. split.
  - intros [H|H].
    + apply truthy_str_false in H. rewrite H. reflexivity.
    + assert (E : existsb (String.eqb leading) placeholders = true).
      { apply existsb_exists. exists leading. split; [exact H|].
        apply String.eqb_refl. }
      rewrite E, orb_true_r. reflexivity.
  - intros H1 H2. apply truthy_str_true in H1. rewrite H1. simpl.
    destruct (existsb (String.eqb leading) placeholders) eqn:E;
      [|reflexivity].
    apply existsb_exists in E. destruct E as [x [Hin Heq]].
    apply String.eqb_eq in Heq. subst x. contradiction.
Qed.

Lemma entity_figma :
  AppData.id app = "figma" ->
  MonitoredApp.entity c w (Some app)
  = Returns (if negb (Js.truthy_str leading)
                || existsb (String.eqb leading) ["Figma"; "Drafts"]
             then None else Some leading).
Proof.
  destruct app as [i n v b]. simpl in not_browser. subst b.
  simpl. intros ->.
  unfold MonitoredApp.entity, MonitoredApp.title. simpl.
  rewrite <- leading_segment, orb_false_r, orb_assoc. reflexivity.
Qed.

Lemma entity_postman :
  AppData.id app = "postman" ->
  MonitoredApp.entity c w (Some app)
  = Returns (if negb (Js.truthy_str leading)
                || existsb (String.eqb leading) ["Postman"]
             then None else Some leading).
Proof.
  destruct app as [i n v b]. simpl in not_browser. subst b.
  simpl. intros ->.
  unfold MonitoredApp.entity, MonitoredApp.title. simpl.
  rewrite <- leading_segment, orb_false_r. reflexivity.
Qed.

Lemma entity_warp :
  AppData.id app = "warp" ->
  MonitoredApp.entity c w (Some app)
  = Returns (if negb (Js.truthy_str leading)
                || existsb (String.eqb leading) ["Wrap"]
             then None else Some leading).
Proof.
  destruct app as [i n v b]. simpl in not_browser. subst b.
  simpl. intros ->.
  unfold MonitoredApp.entity, MonitoredApp.title. simpl.
  rewrite <- leading_segment, orb_false_r. reflexivity.
Qed.
End Placeholders.

(** C5, amended.  For [figma] and [postman] the entity is the leading
    segment of the title, split at the first [ - ], unless that segment
    is empty or is a placeholder of the app ([Figma] and [Drafts] for
    [figma], [Postman] for [postman]), in which case it is null.  For
    [warp] an empty leading segment gives null, and a leading segment
    that is neither [Warp] nor [Wrap] is the entity.  The title
    [Untitled - Figma] of [figma] gives [Untitled], the title
    [Homepage Design - Figma] gives [Homepage Design], and [Drafts -
    Figma] gives null. *)
Theorem placeholder_title_entity :
  forall (c : MonitoredApp.Collaborators) (w : DesktopWindow.t)
         (app : AppData.t),
    AppData.isBrowser app = false ->
    let leading := Js.split_head " - " (DesktopWindow.title w) in
    let entity := MonitoredApp.entity c w (Some app) in
    (AppData.id app = "figma" ->
     (leading = "" \/ leading = "Figma" \/ leading = "Drafts" ->
      entity = Returns None)
     /\ (leading <> "" -> leading <> "Figma" -> leading <> "Drafts" ->
         entity = Returns (Some leading)))
    /\ (AppData.id app = "postman" ->
        (leading = "" \/ leading = "Postman" -> entity = Returns None)
        /\ (leading <> "" -> leading <> "Postman" ->
            entity = Returns (Some leading)))
    /\ (AppData.id app = "warp" ->
        (leading = "" -> entity = Returns None)
        /\ (leading <> "" -> leading <> "Warp" -> leading <> "Wrap" ->
            entity = Returns (Some leading)))
    /\ MonitoredApp.entity c (Sample.window "Untitled - Figma" None)
                           (Some (Sample.app "figma" false))
       = Returns (Some "Untitled")
    /\ MonitoredApp.entity c (Sample.window "Homepage Design - Figma" None)
                           (Some (Sample.app "figma" false))
       = Returns (Some "Homepage Design")
    /\ MonitoredApp.entity c (Sample.window "Drafts - Figma" None)
                           (Some (Sample.app "figma" false))
       = Returns None.
Proof.
  intros c w app Hb. cbv zeta.
  split; [|split; [|split; [|repeat split]]].
  - intros Hi.
    destruct (entity_with_placeholders c w app _ "figma" ["Figma"; "Drafts"]
                Hi (entity_figma c w app Hb _ eq_refl Hi)) as [H1 H2].
    split.
    + intros H. apply H1. simpl. intuition congruence.
    + intros Ha Hb' Hc. apply H2; [exact Ha|].
      simpl. intros [H|[H|[]]]; congruence.
  - intros Hi.
    destruct (entity_with_placeholders c w app _ "postman" ["Postman"]
                Hi (entity_postman c w app Hb _ eq_refl Hi)) as [H1 H2].
    split.
    + intros H. apply H1. simpl. intuition congruence.
    + intros Ha Hb'. apply H2; [exact Ha|].
      simpl. intros [H|[]]; congruence.
  - intros Hi.
    destruct (entity_with_placeholders c w app _ "warp" ["Wrap"]
                Hi (entity_warp c w app Hb _ eq_refl Hi)) as [H1 H2].
    split.
    + intros H. apply H1. left. exact H.
    + intros Ha _ Hc. apply H2; [exact Ha|].
      simpl. intros [H|[]]; congruence.
Qed.

(** C5, amended, on a design file. *)
Lemma placeholder_title_entity_witness :
  MonitoredApp.entity Sample.classifier
                      (Sample.window "Homepage Design - Figma" None)
                      (Some (Sample.app "figma" false))
  = Returns (Some "Homepage Design").
Proof.
  apply (proj2 (proj1 (placeholder_title_entity
                         Sample.classifier
                         (Sample.window "Homepage Design - Figma" None)
                         (Sample.app "figma" false) eq_refl)
                      eq_refl)).
  - vm_compute. discriminate.
  - vm_compute. discriminate.
  - vm_compute. discriminate.
Defined.

(* ------------------------------------------------------------------ *)
(** ** The activity classifier: browsers *)

Lemma search_nil (input : string) (r : Regex.re) :
  Regex.search input r "" = Regex.match_at input r "".
Proof. simpl. destruct (Regex.match_at input r ""); reflexivity. Qed.

Lemma search_cons (input : string) (r : Regex.re) (a : ascii) (s : string) :
  Regex.search input r (String a s)
  = match Regex.match_at input r (String a s) with
    | Some m => Some m
    | None => Regex.search input r s
    end.
Proof. reflexivity. Qed.

(** [/^www./] at one position. *)
Lemma match_at_www (input s : string) :
  Regex.match_at input MonitoredApp.www s
  = if Nat.eqb (String.length s) (String.length input) then
      match Regex.drop_prefix "www" s with
      | Some (String a rest) =>
          if negb (Js.is_line_terminator a)
          then Some {| Regex.index := String.length input - String.length s;
                       Regex.groups := [(0, Regex.consumed s rest)] |}
          else None
      | _ => None
      end
    else None.
Proof.
  unfold Regex.match_at, MonitoredApp.www.
  cbn [Regex.matches Regex.cclass_match].
  destruct (Nat.eqb (String.length s) (String.length input)); [|reflexivity].
  destruct (Regex.drop_prefix "www" s) as [[|a rest]|]; reflexivity.
Qed.

(** [/^www./] can only match where the host starts. *)
Lemma www_not_inside (input s : string) :
  String.length s < String.length input ->
  Regex.search input MonitoredApp.www s = None.
Proof.
  induction s as [|a s IH]; intros Hlen.
  - rewrite search_nil, match_at_www.
    replace (Nat.eqb (String.length "") (String.length input)) with false
      by (symmetry; apply Nat.eqb_neq; lia).
    reflexivity.
  - rewrite search_cons, match_at_www.
    replace (Nat.eqb (String.length (String a s)) (String.length input))
      with false
      by (symmetry; apply Nat.eqb_neq; lia).
    apply IH. simpl in Hlen. lia.
Qed.

Lemma drop_prefix_starts_with (p s : string) :
  Js.starts_with p s = false -> Regex.drop_prefix p s = None.
Proof.
  revert s. induction p as [|a p IH]; intros [|b s]; simpl;
    try discriminate; try reflexivity.
  destruct (Ascii.eqb a b); simpl; [apply IH | reflexivity].
Qed.

Lemma drop_prefix_app (p s : string) : Regex.drop_prefix p (p ++ s) = Some s.
Proof.
  induction p as [|a p IH]; simpl; [reflexivity|].
  rewrite Ascii.eqb_refl. exact IH.
Qed.

Lemma length_app (p s : string) :
  String.length (p ++ s) = String.length p + String.length s.
Proof. induction p as [|a p IH]; simpl; [reflexivity | now rewrite IH]. Qed.

Lemma append_assoc (a b c : string) : (a ++ b) ++ c = a ++ b ++ c.
Proof. induction a as [|x a IH]; simpl; [reflexivity | now rewrite IH]. Qed.

Lemma take_app (p s : string) : Regex.take (String.length p) (p ++ s) = p.
Proof.
  unfold Regex.take. induction p as [|a p IH]; simpl.
  - destruct s; reflexivity.
  - f_equal. exact IH.
Qed.

Lemma take_all_but (p s : string) :
  Regex.consumed (p ++ s) s = p.
Proof.
  unfold Regex.consumed. rewrite length_app.
  replace (String.length p + String.length s - String.length s)
    with (String.length p) by lia.
  apply take_app.
Qed.

Lemma drop_app (p s : string) : Regex.drop (String.length p) (p ++ s) = s.
Proof. induction p as [|a p IH]; simpl; [reflexivity | exact IH]. Qed.

(** A host that does not start with [www] is kept as it is. *)
Lemma replace_www_other (h : string) :
  Js.starts_with "www" h = false ->
  Regex.replace MonitoredApp.www "" h = h.
Proof.
  intros H. unfold Regex.replace, Regex.exec.
  assert (E : Regex.search h MonitoredApp.www h = None).
  { destruct h as [|a h].
    - reflexivity.
    - rewrite search_cons, match_at_www, Nat.eqb_refl.
      rewrite (drop_prefix_starts_with _ _ H).
      apply www_not_inside. simpl. lia. }
  rewrite E. reflexivity.
Qed.

(** A host that starts with [www] loses these three characters and the
    one that follows, whatever it is (a line terminator apart). *)
Lemma replace_www_any (x : ascii) (rest : string) :
  Js.is_line_terminator x = false ->
  Regex.replace MonitoredApp.www "" ("www" ++ String x rest) = rest.
Proof.
  intros H. unfold Regex.replace, Regex.exec.
  change ("www" ++ String x rest)
    with (String "w" ("ww" ++ String x rest)) at 2.
  rewrite search_cons, match_at_www, Nat.eqb_refl.
  change (String "w" ("ww" ++ String x rest))
    with ("www" ++ String x rest).
  rewrite drop_prefix_app, H. cbn [negb].
  unfold Regex.group. cbn [Regex.groups Regex.lookup Nat.eqb Regex.index].
  change ("www" ++ String x rest) with (("www" ++ String x "") ++ rest).
  rewrite take_all_but, Nat.sub_diag.
  change (0 + String.length ("www" ++ String x ""))
    with (String.length ("www" ++ String x "")).
  rewrite drop_app. reflexivity.
Qed.

(** Appending to [h] something that starts with a character foreign
    to [q] does not make it start with [q]. *)
Lemma starts_with_foreign (q h t : string) (x : ascii) :
  ~ In x (list_ascii_of_string q) ->
  Js.starts_with q h = false ->
  Js.starts_with q (h ++ String x t) = false.
Proof.
  revert h. induction q as [|a q IH]; intros h Hx H.
  - destruct h; discriminate H.
  - cbn [list_ascii_of_string In] in Hx.
    destruct h as [|b h]; cbn [append Js.starts_with] in *.
    + destruct (Ascii.eqb_spec a x) as [->|Hne]; [|reflexivity].
      exfalso. apply Hx. left. reflexivity.
    + destruct (Ascii.eqb a b); [|reflexivity].
      cbn [andb] in *. apply IH; [|exact H].
      intros Hin. apply Hx. right. exact Hin.
Qed.

(** What a colon follows does not start with [www] unless the host name
    does. *)
Lemma host_not_www (h p : string) :
  Js.starts_with "www" h = false ->
  Js.starts_with "www" (h ++ ":" ++ p) = false.
Proof.
  apply starts_with_foreign.
  cbn [list_ascii_of_string In].
  intros [H|[H|[H|[]]]]; discriminate H.
Qed.

(** With the default port the domain is the host name, less a leading
    [www.]. *)
Lemma domainFromUrl_default_port (c : MonitoredApp.Collaborators)
      (u : string) (parsed : Url.URL) :
  MonitoredApp.new_URL c u = Some parsed ->
  Url.port parsed = "" ->
  (Js.starts_with "www" (Url.hostname parsed) = false ->
   MonitoredApp.domainFromUrl c u = Returns (Url.hostname parsed))
  /\ (forall d, Url.hostname parsed = "www." ++ d ->
                MonitoredApp.domainFromUrl c u = Returns d).
Proof.
  intros Hp Hport. unfold MonitoredApp.domainFromUrl, Url.host.
  rewrite Hp, Hport. cbn [Js.truthy_str]. split.
  - intros Hw. rewrite (replace_www_other _ Hw). reflexivity.
  - intros d ->.
    change ("www." ++ d) with ("www" ++ String "." d).
    rewrite replace_www_any by reflexivity. reflexivity.
Qed.

(** The pattern takes any character after [www]: a host that merely
    starts with these letters loses four characters. *)
Lemma entity_www_any_character :
  MonitoredApp.entity
    Sample.classifier
    (Sample.window "News" (Some "https://wwwnews.example.com/today"))
    (Some (Sample.app "firefox" true))
  = Returns (Some "ews.example.com").
Proof. vm_compute. reflexivity. Qed.

(** For a browser there is no fall-back to the title: without an address,
    or with one the filter refuses, the entity is null. *)
Lemma entity_browser_no_fallback (c : MonitoredApp.Collaborators)
      (w : DesktopWindow.t) (app : AppData.t) :
  AppData.isBrowser app = true ->
  match DesktopWindow.url w with
  | None => True
  | Some u => u = "" \/ MonitoredApp.filterBrowsedSites c u = false
  end ->
  MonitoredApp.entity c w (Some app) = Returns None.
Proof.
  intros Hb Hu. unfold MonitoredApp.entity. simpl. rewrite Hb.
  destruct (DesktopWindow.url w) as [u|]; [|reflexivity].
  destruct Hu as [->|Hf]; [reflexivity|].
  rewrite Hf, andb_false_r. reflexivity.
Qed.

(** The example of the specification: the domain of a repository page. *)
Lemma entity_github :
  MonitoredApp.entity
    Sample.classifier
    (Sample.window "Pull request" (Some "https://github.com/acme/widgets/pull/9"))
    (Some (Sample.app "chrome" true))
  = Returns (Some "github.com").
Proof. reflexivity. Qed.

(** C3, the code at the failing inputs.  With the domain preference, for
    a browser whose address passes the filter and carries a port that is
    not the default one, the entity is the host name followed by the
    port twice: [host] already ends with the port, and [domainFromUrl]
    appends it once more. *)
Theorem domain_port_appended_twice :
  forall (c : MonitoredApp.Collaborators) (w : DesktopWindow.t)
         (app : AppData.t) (u : string) (parsed : Url.URL),
    AppData.isBrowser app = true ->
    DesktopWindow.url w = Some u ->
    u <> "" ->
    MonitoredApp.filterBrowsedSites c u = true ->
    MonitoredApp.domainPreference c = "domain" ->
    MonitoredApp.new_URL c u = Some parsed ->
    Url.port parsed <> "" ->
    Js.starts_with "www" (Url.hostname parsed) = false ->
    MonitoredApp.entity c w (Some app)
    = Returns (Some (Url.hostname parsed ++ ":" ++ Url.port parsed
                     ++ ":" ++ Url.port parsed)).
Proof.
  intros c w app u parsed Hb Hu Hne Hf Hd Hp Hport Hw.
  unfold MonitoredApp.entity. simpl. rewrite Hb, Hu.
  apply truthy_str_true in Hne. rewrite Hne, Hf, Hd. simpl.
  unfold MonitoredApp.domainFromUrl. rewrite Hp.
  apply truthy_str_true in Hport. unfold Url.host. rewrite Hport.
  rewrite replace_www_other by (apply host_not_www; exact Hw).
  rewrite append_assoc. reflexivity.
Qed.

(** C3 on a development server: [localhost:3000:3000]. *)
Lemma domain_port_appended_twice_witness :
  MonitoredApp.entity
    Sample.classifier
    (Sample.window "Dashboard" (Some "http://localhost:3000/app"))
    (Some (Sample.app "chrome" true))
  = Returns (Some "localhost:3000:3000").
Proof.
  apply (domain_port_appended_twice
           Sample.classifier
           (Sample.window "Dashboard" (Some "http://localhost:3000/app"))
           (Sample.app "chrome" true) "http://localhost:3000/app"
           {| Url.hostname := "localhost"; Url.port := "3000" |}).
  - reflexivity.
  - reflexivity.
  - discriminate.
  - reflexivity.
  - reflexivity.
  - reflexivity.
  - discriminate.
  - reflexivity.
Defined.

(* ------------------------------------------------------------------ *)
(** ** The matcher on text of a known shape *)

Section MatcherFacts.
Context {R : Type}.
Variable input : string.








End MatcherFacts.

Lemma append_empty (s : string) : s ++ "" = s.
Proof. induction s as [|a s IH]; simpl; [reflexivity | now rewrite IH]. Qed.





(* ------------------------------------------------------------------ *)
(** ** The activity classifier: project *)



(** The patterns, in the order of the source: three code hosts, then the
    two CI providers. *)
Lemma patterns_in_order :
  MonitoredApp.patterns
  = [ {| MonitoredApp.expression := MonitoredApp.owner_repo "github.com";
         MonitoredApp.group := 1 |};
      {| MonitoredApp.expression := MonitoredApp.owner_repo "gitlab.com";
         MonitoredApp.group := 1 |};
      {| MonitoredApp.expression := MonitoredApp.owner_repo "bitbucket.org";
         MonitoredApp.group := 1 |};
      {| MonitoredApp.expression := MonitoredApp.circleci;
         MonitoredApp.group := 2 |};
      {| MonitoredApp.expression := MonitoredApp.travis "app.travis-ci.com";
         MonitoredApp.group := 2 |};
      {| MonitoredApp.expression := MonitoredApp.travis "app.travis-ci.org";
         MonitoredApp.group := 2 |} ].
Proof. reflexivity. Qed.



(* ------------------------------------------------------------------ *)
(** ** The update coordinator *)

(** No method writes [lastCheckedForUpdates]. *)
Lemma checkForUpdates_state (c : Wakatime.Collaborators) (now : Z)
      (st : Wakatime.state) :
  fst (Wakatime.checkForUpdates c now st) = st.
Proof.
  unfold Wakatime.checkForUpdates.
  destruct (negb (Wakatime.autoUpdateEnabled c) || Wakatime.isDev c);
    [reflexivity|].
  destruct (Wakatime.lastCheckedForUpdates st + 600 * 1000 >? now)%Z;
    reflexivity.
Qed.

Lemma on_event_lastChecked (e : Wakatime.updater_event) (now : Z)
      (st : Wakatime.state) :
  Wakatime.lastCheckedForUpdates (fst (Wakatime.on_event e now st))
  = Wakatime.lastCheckedForUpdates st.
Proof.
  destruct e; simpl; try reflexivity;
    destruct (Wakatime.canPromptToUpdate st version now); reflexivity.
Qed.

Lemma fetchToday_lastChecked (c : Wakatime.Collaborators) (now : Z)
      (cli : Wakatime.exec_outcome) (st : Wakatime.state) :
  Wakatime.lastCheckedForUpdates (fst (Wakatime.fetchToday c now cli st))
  = Wakatime.lastCheckedForUpdates st.
Proof.
  unfold Wakatime.fetchToday.
  destruct (Wakatime.showCodeTimeInStatusBar c); simpl; [|reflexivity].
  destruct (Qltb _ _); simpl; [reflexivity|].
  destruct cli as [output [err|]|error]; reflexivity.
Qed.

Lemma sendHeartbeat_lastChecked (c : Wakatime.Collaborators)
      (w : Wakatime.world) (p : Wakatime.props) (st : Wakatime.state) :
  Wakatime.lastCheckedForUpdates (fst (Wakatime.sendHeartbeat c w p st))
  = Wakatime.lastCheckedForUpdates st.
Proof.
  unfold Wakatime.sendHeartbeat.
  destruct (Js.truthy _); cbn [negb]; [|reflexivity].
  destruct (DesktopWindowInfo.path _) as [windowPath|]; [|reflexivity].
  destruct (Js.truthy_str windowPath); cbn [negb]; [|reflexivity].
  destruct (Wakatime.isMonitored c windowPath); cbn [negb]; [|reflexivity].
  destruct (Wakatime.appName_of _ _) as [appName|]; [|reflexivity].
  destruct (Js.truthy_str appName); cbn [negb]; [|reflexivity].
  destruct (Wakatime.heartbeat_cli w) as [output [err|]|error];
    [destruct (Js.includes "ENOENT" err);
     [|destruct (Js.includes "EPERM" err)] | |];
    cbv iota beta;
    match goal with
    | |- context [Wakatime.fetchToday ?c ?n ?cli ?s] =>
        pose proof (fetchToday_lastChecked c n cli s) as H2;
        destruct (Wakatime.fetchToday c n cli s) as [st2 today]
    end;
    match goal with
    | |- context [Wakatime.checkForUpdates ?c ?n ?s] =>
        pose proof (checkForUpdates_state c n s) as H3;
        destruct (Wakatime.checkForUpdates c n s) as [st3 update]
    end;
    cbn [fst] in *; subst st3; exact H2.
Qed.

(** A check is made whenever updates are enabled, the build is packaged
    and the clock is past the stored time of the last check by 600
    seconds. *)
Lemma checkForUpdates_calls (c : Wakatime.Collaborators) (now : Z)
      (st : Wakatime.state) :
  Wakatime.autoUpdateEnabled c = true ->
  Wakatime.isDev c = false ->
  (Wakatime.lastCheckedForUpdates st + 600000 <= now)%Z ->
  Wakatime.checkForUpdates c now st
  = (st, [Wakatime.CheckForUpdatesAndNotify]).
Proof.
  intros Ha Hd Hn. unfold Wakatime.checkForUpdates.
  rewrite Ha, Hd. simpl negb. cbn [orb].
  replace (Wakatime.lastCheckedForUpdates st + 600 * 1000 >? now)%Z
    with false; [reflexivity|].
  symmetry. rewrite Z.gtb_ltb. apply Z.ltb_ge. lia.
Qed.

(** C4, the code at the failing inputs.  With updates enabled on a
    packaged build, two calls of [checkForUpdates], however close, both
    ask the feed client to check: the time of the last check is read but
    never stored, so the guard of 600 seconds compares the clock with
    the initial value. *)
Theorem checkForUpdates_twice_checks_twice :
  forall (c : Wakatime.Collaborators) (st : Wakatime.state)
         (now1 now2 : Z),
    Wakatime.autoUpdateEnabled c = true ->
    Wakatime.isDev c = false ->
    (Wakatime.lastCheckedForUpdates st + 600000 <= now1)%Z ->
    (now1 <= now2 < now1 + 600000)%Z ->
    Wakatime.checkForUpdates_each c [now1; now2] st
    = (st, [Wakatime.CheckForUpdatesAndNotify;
            Wakatime.CheckForUpdatesAndNotify]).
Proof.
  intros c st now1 now2 Ha Hd H1 H2.
  cbn [Wakatime.checkForUpdates_each].
  rewrite (checkForUpdates_calls c now1 st Ha Hd H1).
  rewrite (checkForUpdates_calls c now2 st Ha Hd) by lia.
  reflexivity.
Qed.

(** C4 on a fresh object: two calls one second apart. *)
Lemma checkForUpdates_twice_checks_twice_witness :
  Wakatime.checkForUpdates_each (Sample.dispatcher true)
                                [1700000000000; 1700000001000]%Z
                                Sample.fresh
  = (Sample.fresh, [Wakatime.CheckForUpdatesAndNotify;
                    Wakatime.CheckForUpdatesAndNotify]).
Proof.
  apply (checkForUpdates_twice_checks_twice
           (Sample.dispatcher true) Sample.fresh
           1700000000000%Z 1700000001000%Z).
  - reflexivity.
  - reflexivity.
  - vm_compute. discriminate.
  - split; [vm_compute; discriminate | vm_compute; reflexivity].
Defined.

(** [canPromptToUpdate] in logical form. *)
Lemma canPromptToUpdate_true (st : Wakatime.state) (v : string) (now : Z) :
  Wakatime.canPromptToUpdate st v now = true
  <-> ((Wakatime.lastPromptedToUpdateAt st + 604800000 < now)%Z
       \/ Wakatime.lastPromptedToUpdateVersion st <> v).
Proof.
  unfold Wakatime.canPromptToUpdate.
  change (604800 * 1000)%Z with 604800000%Z.
  destruct (Z.ltb_spec (Wakatime.lastPromptedToUpdateAt st + 604800000)
                       now) as [Hlt|Hge].
  - split; auto.
  - destruct (String.eqb_spec (Wakatime.lastPromptedToUpdateVersion st) v)
      as [He|Hne]; simpl.
    + split; [discriminate|]. intros [H|H]; [lia | contradiction].
    + split; auto.
Qed.

(** An [update-available] event leaves every field as it is. *)
Lemma update_available_state (v : string) (now : Z) (st : Wakatime.state) :
  fst (Wakatime.on_event (Wakatime.update_available v) now st) = st.
Proof.
  simpl. destruct (Wakatime.canPromptToUpdate st v now); reflexivity.
Qed.

(** C6, as stated, does not hold: on a fresh object, the second of two
    [update-available] events for the same version, a millisecond after
    the first, starts a download as the first did. *)
Lemma second_available_downloads_again :
  snd (Wakatime.on_events
         [(Wakatime.update_available "1.2.0", 1700000000000%Z);
          (Wakatime.update_available "1.2.0", 1700000000001%Z);
          (Wakatime.update_available "1.3.0", 1700000000002%Z)]
         Sample.fresh)
  = [[Wakatime.DownloadUpdate]; [Wakatime.DownloadUpdate];
     [Wakatime.DownloadUpdate]].
Proof. reflexivity. Qed.

(** C6, amended.  Starting from the initial state, an [update-available]
    event for a version starts a download, and so does a second one for
    the same version when no [update-downloaded] event came between: the
    prompt is recorded by [update-downloaded] only.  Once
    [update-downloaded] has recorded the version, an [update-available]
    event for it within 604800 seconds is suppressed, while one for a
    different version is not. *)
Theorem prompted_version_suppressed_for_a_week :
  forall (version : string) (tray : option Wakatime.Tray)
         (v v' : string) (t0 t1 t2 t3 : Z),
    v <> v' ->
    (604800000 < t0 <= t1)%Z ->
    (t1 <= t2 <= t1 + 604800000)%Z ->
    (t2 <= t3)%Z ->
    snd (Wakatime.on_events
           [(Wakatime.update_available v, t0);
            (Wakatime.update_available v, t1)]
           (Wakatime.initial version tray))
    = [[Wakatime.DownloadUpdate]; [Wakatime.DownloadUpdate]]
    /\ snd (Wakatime.on_events
              [(Wakatime.update_available v, t0);
               (Wakatime.update_downloaded v, t1);
               (Wakatime.update_available v, t2);
               (Wakatime.update_available v', t3)]
              (Wakatime.initial version tray))
       = [[Wakatime.DownloadUpdate]; [Wakatime.QuitAndInstall]; [];
          [Wakatime.DownloadUpdate]].
Proof.
  intros version tray v v' t0 t1 t2 t3 Hv H0 H2 H3.
  set (st := Wakatime.initial version tray).
  assert (C0 : Wakatime.canPromptToUpdate st v t0 = true).
  { apply canPromptToUpdate_true. left. simpl. lia. }
  assert (C1 : Wakatime.canPromptToUpdate st v t1 = true).
  { apply canPromptToUpdate_true. left. simpl. lia. }
  assert (C2 : Wakatime.canPromptToUpdate
                 (Wakatime.set_prompted v t1 st) v t2 = false).
  { destruct (Wakatime.canPromptToUpdate _ v t2) eqn:E; [|reflexivity].
    apply canPromptToUpdate_true in E. simpl in E.
    destruct E as [E|E]; [lia | congruence]. }
  assert (C3 : Wakatime.canPromptToUpdate
                 (Wakatime.set_prompted v t1 st) v' t3 = true).
  { apply canPromptToUpdate_true. right. simpl. exact Hv. }
  split.
  - cbn [Wakatime.on_events Wakatime.on_event].
    rewrite C0. cbn [negb]. rewrite C1. reflexivity.
  - cbn [Wakatime.on_events Wakatime.on_event].
    rewrite C0. cbn [negb]. rewrite C1. cbn [negb].
    rewrite C2. cbn [negb]. rewrite C3. reflexivity.
Qed.

(** C6, amended, on the versions of the specification: the download of
    1.2.0 ends a minute after it was announced, the same version is
    announced again an hour later, and 1.3.0 a day later. *)
Lemma prompted_version_suppressed_for_a_week_witness :
  snd (Wakatime.on_events
         [(Wakatime.update_available "1.2.0", 1700000000000%Z);
          (Wakatime.update_downloaded "1.2.0", 1700000060000%Z);
          (Wakatime.update_available "1.2.0", 1700003600000%Z);
          (Wakatime.update_available "1.3.0", 1700086400000%Z)]
         Sample.fresh)
  = [[Wakatime.DownloadUpdate]; [Wakatime.QuitAndInstall]; [];
     [Wakatime.DownloadUpdate]].
Proof.
  refine (proj2 (prompted_version_suppressed_for_a_week
                   "linux-wakatime/1.0.0" None "1.2.0" "1.3.0"
                   1700000000000%Z 1700000060000%Z 1700003600000%Z
                   1700086400000%Z _ _ _ _)).
  - discriminate.
  - lia.
  - lia.
  - lia.
Defined.

(* ------------------------------------------------------------------ *)
(** ** The pre-dispatch gate *)

(** A sample the throttle refuses ends the call at once: nothing is
    asked of the monitoring toggle. *)
Lemma sendHeartbeat_refused (c : Wakatime.Collaborators)
      (w : Wakatime.world) (p : Wakatime.props) (st : Wakatime.state) :
  Js.truthy
    (Wakatime.shouldSendHeartbeat
       st (Wakatime.entity p) (Wakatime.seconds (Wakatime.now w))
       (Wakatime.isWrite p)
       (match Wakatime.category p with Some k => k | None => coding end))
  = false ->
  Wakatime.sendHeartbeat c w p st = (st, []).
Proof.
  intros H. unfold Wakatime.sendHeartbeat. rewrite H. reflexivity.
Qed.

(** When the gate fails, the call returns the state it was given, and it
    called nothing but, at most, the monitoring toggle. *)
Lemma sendHeartbeat_gate_fails (c : Wakatime.Collaborators)
      (w : Wakatime.world) (p : Wakatime.props) (st : Wakatime.state) :
  Spec.gate c p = false ->
  Wakatime.sendHeartbeat c w p st = (st, [])
  \/ exists windowPath,
      DesktopWindowInfo.path (DesktopWindow.info (Wakatime.windowInfo p))
      = Some windowPath
      /\ Wakatime.sendHeartbeat c w p st
         = (st, [Wakatime.IsMonitored windowPath]).
Proof.
  unfold Spec.gate, Wakatime.sendHeartbeat. intros G.
  destruct (Js.truthy _); cbn [negb]; [|left; reflexivity].
  destruct (DesktopWindowInfo.path _) as [windowPath|];
    [|left; reflexivity].
  destruct (Js.truthy_str windowPath); cbn [negb andb] in *;
    [|left; reflexivity].
  right. exists windowPath. split; [reflexivity|].
  destruct (Wakatime.isMonitored c windowPath); cbn [negb andb] in *;
    [|reflexivity].
  destruct (Wakatime.appName_of _ _) as [n|]; [|reflexivity].
  rewrite G. reflexivity.
Qed.

(** The same keystroke on a window that is not monitored, against two
    throttle states: a fresh one, which accepts it, and one that has just
    emitted the same entity and category, which refuses it. *)
Lemma toggle_asked_only_when_accepted :
  Wakatime.sendHeartbeat (Sample.dispatcher false) Sample.calm
                         Sample.keystroke Sample.fresh
  = (Sample.fresh, [Wakatime.IsMonitored "/usr/bin/app"])
  /\ Wakatime.sendHeartbeat
       (Sample.dispatcher false) Sample.calm Sample.keystroke
       (Wakatime.set_throttle "general" communicating
                              (Wakatime.seconds 1700000000000) Sample.fresh)
     = (Wakatime.set_throttle "general" communicating
                              (Wakatime.seconds 1700000000000) Sample.fresh,
        []).
Proof. split; vm_compute; reflexivity. Qed.

(** C8, as stated, does not hold.  Were the gate decided before the
    throttle state is consulted, what a call does when the gate fails
    could not depend on that state.  It does: on a window that is not
    monitored, the monitoring toggle is asked when the throttle accepts
    the sample, and is not asked at all when the throttle refuses it. *)
Lemma gate_after_throttle :
  ~ (forall (c : Wakatime.Collaborators) (w : Wakatime.world)
            (p : Wakatime.props) (st st' : Wakatime.state),
        Spec.gate c p = false ->
        snd (Wakatime.sendHeartbeat c w p st)
        = snd (Wakatime.sendHeartbeat c w p st')).
Proof.
  intros H.
  specialize (H (Sample.dispatcher false) Sample.calm Sample.keystroke
                Sample.fresh
                (Wakatime.set_throttle
                   "general" communicating
                   (Wakatime.seconds 1700000000000) Sample.fresh)
                eq_refl).
  vm_compute in H. discriminate H.
Qed.

(** C8, amended.  When the gate fails, [sendHeartbeat] returns without
    dispatching and leaves the state, the throttle fields among it, as it
    was.  The throttle is consulted first: if it refuses the sample the
    call ends there, and the gate is evaluated, asking the monitoring
    toggle at most, only for a sample the throttle accepts. *)
Theorem gate_failure_leaves_state :
  forall (c : Wakatime.Collaborators) (w : Wakatime.world)
         (p : Wakatime.props) (st : Wakatime.state),
    Spec.gate c p = false ->
    let after := Wakatime.sendHeartbeat c w p st in
    fst after = st
    /\ Wakatime.throttle (fst after) = Wakatime.throttle st
    /\ existsb Wakatime.is_exec (snd after) = false
    /\ (forall k, In k (snd after) -> exists q, k = Wakatime.IsMonitored q)
    /\ (Js.truthy
          (Wakatime.shouldSendHeartbeat
             st (Wakatime.entity p) (Wakatime.seconds (Wakatime.now w))
             (Wakatime.isWrite p)
             (match Wakatime.category p with
              | Some k => k
              | None => coding
              end))
        = false ->
        snd after = []).
Proof.
  intros c w p st G. cbv zeta.
  destruct (sendHeartbeat_gate_fails c w p st G) as [E|[q [_ E]]];
    rewrite E; simpl; repeat split; try reflexivity.
  - intros k [].
  - intros k [<-|[]]. exists q. reflexivity.
  - intros R. rewrite (sendHeartbeat_refused c w p st R) in E.
    discriminate E.
Qed.

(** C8, amended, on a window that is not monitored. *)
Lemma gate_failure_leaves_state_witness :
  fst (Wakatime.sendHeartbeat (Sample.dispatcher false) Sample.calm
                              Sample.keystroke Sample.fresh)
  = Sample.fresh.
Proof.
  apply (proj1 (gate_failure_leaves_state
                  (Sample.dispatcher false) Sample.calm Sample.keystroke
                  Sample.fresh eq_refl)).
Defined.

(* ------------------------------------------------------------------ *)
(** ** The today-summary cache *)

(** One call of [fetchToday]: either the CLI is not spawned and the time
    of the last fetch stays, or it is spawned, 120 seconds or more after
    the last fetch, and the time of the call is stored, whatever the
    outcome of the CLI. *)
Lemma fetchToday_step (c : Wakatime.Collaborators) (now : Z)
      (cli : Wakatime.exec_outcome) (st : Wakatime.state) :
  let (st1, calls) := Wakatime.fetchToday c now cli st in
  (existsb Wakatime.is_exec calls = false
   /\ Wakatime.lastCodeTimeFetched st1 = Wakatime.lastCodeTimeFetched st)
  \/ (existsb Wakatime.is_exec calls = true
      /\ (Wakatime.lastCodeTimeFetched st + 120 <= Wakatime.seconds now)%Q
      /\ Wakatime.lastCodeTimeFetched st1 = Wakatime.seconds now).
Proof.
  unfold Wakatime.fetchToday.
  destruct (Wakatime.showCodeTimeInStatusBar c); cbn [negb];
    [|left; split; reflexivity].
  destruct (Qltb (Wakatime.seconds now)
                 (Wakatime.lastCodeTimeFetched st + 120)) eqn:E;
    [left; split; reflexivity|].
  apply Qltb_ge in E.
  destruct cli as [output [err|]|error]; right; repeat split; assumption.
Qed.

(** Spawn times are 120 seconds apart, the first one 120 seconds after
    the stored time of the last fetch. *)
Lemma fetchToday_each_spaced (cs : list (Wakatime.Collaborators * Z
                                         * Wakatime.exec_outcome))
      (st : Wakatime.state) :
  StronglySorted (fun a b => (a + 120 <= b)%Q)
                 (snd (Wakatime.fetchToday_each cs st))
  /\ Forall (fun t => (Wakatime.lastCodeTimeFetched st + 120 <= t)%Q)
            (snd (Wakatime.fetchToday_each cs st)).
Proof.
  revert st. induction cs as [|[[c now] cli] cs IH]; intros st.
  - simpl. split; constructor.
  - cbn [Wakatime.fetchToday_each].
    pose proof (fetchToday_step c now cli st) as Hstep.
    destruct (Wakatime.fetchToday c now cli st) as [st1 calls].
    specialize (IH st1).
    destruct (Wakatime.fetchToday_each cs st1) as [st2 times].
    cbn [snd] in *. destruct IH as [Hs Hf].
    destruct Hstep as [[Hn Hl]|[Hy [Hge Hl]]].
    + rewrite Hn. rewrite Hl in Hf. split; assumption.
    + rewrite Hy. rewrite Hl in Hf. split.
      * constructor; assumption.
      * constructor; [exact Hge|].
        eapply Forall_impl; [|exact Hf].
        intros t Ht. cbv beta in Ht. lra.
Qed.

(** Of times that are 120 seconds apart, a window of 120 seconds holds
    one at most. *)
Lemma spaced_window (times : list Q) (from : Q) :
  StronglySorted (fun a b => (a + 120 <= b)%Q) times ->
  List.length (filter (Wakatime.in_window from) times) <= 1.
Proof.
  induction 1 as [|t times Hs IH Hall]; simpl; [lia|].
  destruct (Wakatime.in_window from t) eqn:E; [|exact IH].
  assert (Hnone : filter (Wakatime.in_window from) times = []).
  { clear IH Hs. induction Hall as [|t' times Ht Hall IH]; simpl;
      [reflexivity|].
    replace (Wakatime.in_window from t') with false; [exact IH|].
    symmetry. unfold Wakatime.in_window in *.
    apply andb_true_iff in E. destruct E as [E1 E2].
    apply Qle_bool_iff in E1. apply Qltb_lt in E2.
    apply andb_false_iff. right. apply Qltb_ge. lra. }
  rewrite Hnone. simpl. lia.
Qed.

(** C9.  Across any sequence of [fetchToday] calls, whatever the
    settings, the clock and the outcome of the CLI at each call, the
    times at which the summary CLI is spawned are 120 seconds apart, so
    that any window of 120 seconds holds at most one of them.  Within 120
    seconds of the last fetch, a call spawns nothing and shows the cached
    text.  A fetch that fails leaves the cached text, and what the tray
    shows, as they were. *)
Theorem fetchToday_once_per_120_seconds :
  (forall (cs : list (Wakatime.Collaborators * Z * Wakatime.exec_outcome))
          (st : Wakatime.state),
      StronglySorted (fun a b => (a + 120 <= b)%Q)
                     (snd (Wakatime.fetchToday_each cs st))
      /\ forall from : Q,
          List.length (filter (Wakatime.in_window from)
                         (snd (Wakatime.fetchToday_each cs st))) <= 1)
  /\ (forall (c : Wakatime.Collaborators) (now : Z)
             (cli : Wakatime.exec_outcome) (st : Wakatime.state),
         Wakatime.showCodeTimeInStatusBar c = true ->
         (Wakatime.seconds now < Wakatime.lastCodeTimeFetched st + 120)%Q ->
         Wakatime.fetchToday c now cli st
         = (Wakatime.setTitleAndToolTip
              (" " ++ Wakatime.lastCodeTimeText st)
              (" " ++ Wakatime.lastCodeTimeText st) st, []))
  /\ (forall (c : Wakatime.Collaborators) (now : Z)
             (cli : Wakatime.exec_outcome) (st : Wakatime.state),
         Wakatime.showCodeTimeInStatusBar c = true ->
         (match cli with
          | Wakatime.Resolved _ (Some _) | Wakatime.Rejected _ => True
          | Wakatime.Resolved _ None => False
          end) ->
         Wakatime.lastCodeTimeText (fst (Wakatime.fetchToday c now cli st))
         = Wakatime.lastCodeTimeText st
         /\ Wakatime.tray (fst (Wakatime.fetchToday c now cli st))
            = match Wakatime.tray st with
              | Some t =>
                  if Qltb (Wakatime.seconds now)
                          (Wakatime.lastCodeTimeFetched st + 120)
                  then Some {| Wakatime.trayTitle :=
                                 " " ++ Wakatime.lastCodeTimeText st;
                               Wakatime.trayToolTip :=
                                 " " ++ Wakatime.lastCodeTimeText st;
                               Wakatime.trayImage := Wakatime.trayImage t |}
                  else Some t
              | None => None
              end).
Proof.
  split; [|split].
  - intros cs st. destruct (fetchToday_each_spaced cs st) as [Hs _].
    split; [exact Hs|].
    intros from. apply spaced_window. exact Hs.
  - intros c now cli st Hshow Hlt.
    unfold Wakatime.fetchToday. rewrite Hshow. cbn [negb].
    apply Qltb_lt in Hlt. rewrite Hlt. reflexivity.
  - intros c now cli st Hshow Hfail.
    unfold Wakatime.fetchToday. rewrite Hshow. cbn [negb].
    destruct (Qltb (Wakatime.seconds now)
                   (Wakatime.lastCodeTimeFetched st + 120)).
    + destruct (Wakatime.tray st) eqn:T; simpl; rewrite T; split;
        reflexivity.
    + destruct cli as [output [err|]|error]; try contradiction;
        simpl; destruct (Wakatime.tray st); split; reflexivity.
Qed.

(** C9 on a cache that was filled a minute ago: the cached text is shown
    and nothing is spawned. *)
Lemma fetchToday_once_per_120_seconds_witness :
  snd (Wakatime.fetchToday
         (Sample.dispatcher true) 1700000060000%Z
         (Wakatime.Resolved "2 hrs" None)
         (Wakatime.set_lastCodeTimeFetched
            (Wakatime.seconds 1700000000000) Sample.fresh))
  = [].
Proof.
  rewrite (proj1 (proj2 fetchToday_once_per_120_seconds)
                 (Sample.dispatcher true) 1700000060000%Z
                 (Wakatime.Resolved "2 hrs" None)
                 (Wakatime.set_lastCodeTimeFetched
                    (Wakatime.seconds 1700000000000) Sample.fresh)).
  - reflexivity.
  - reflexivity.
  - vm_compute. reflexivity.
Defined.

(* ------------------------------------------------------------------ *)
(** ** The app name of a polled window *)

(** What [extractList] returns holds no empty string. *)
Lemma extractList_truthy (source : string) (regex : Regex.re)
      (l : list string) :
  LinuxWindowManager.extractList source regex = Some l ->
  Forall (fun x => Js.truthy_str x = true) l.
Proof.
  unfold LinuxWindowManager.extractList.
  destruct (Regex.exec regex source) as [m|]; [|discriminate].
  destruct (Regex.group 1 m) as [g|]; [|discriminate].
  intros [= <-]. apply Forall_forall. intros x Hx.
  apply filter_In in Hx. tauto.
Qed.

(** The last element of a list that is not empty. *)
Lemma last_of_nonempty {A : Type} (x : A) (l : list A) :
  exists a, In a (x :: l)
            /\ last (map Some (x :: l)) None = Some a
            /\ forall d, last (x :: l) d = a.
Proof.
  destruct (exists_last (l := x :: l)) as [l' [a E]]; [discriminate|].
  exists a. rewrite E. repeat split.
  - apply in_or_app. right. left. reflexivity.
  - rewrite map_app. apply last_last.
  - intros d. apply last_last.
Qed.

Section BuildWindowFacts.
Import LinuxWindowManager.
Variable resolveProcessPath : Z -> option string.
Variables (stdout windowId : string).
Variables (pidFromWmctrl : option Z) (fallbackTitle : option string).

(** With a class and a process path, the name is that of the process. *)
Lemma buildWindowFromId_class_and_path (x : string) (l : list string)
      (n : Z) (p : string) :
  extractList stdout wm_class_re = Some (x :: l) ->
  truthy_pid (nullish (extractNumber stdout pid_re) pidFromWmctrl)
  = Some n ->
  resolveProcessPath n = Some p ->
  exists w,
    buildWindowFromId resolveProcessPath (Stdout stdout) windowId
                      pidFromWmctrl fallbackTitle = Some w
    /\ DesktopWindowInfo.name (DesktopWindow.info w) = NodePath.name p.
Proof.
  intros Hc Hpid Hp.
  unfold buildWindowFromId, buildWindowFromId_try.
  rewrite Hc, Hpid, Hp.
  destruct (last_of_nonempty x l) as [a [Hin [Hlast _]]].
  rewrite Hlast. cbn [nullish truthy_opt].
  pose proof (extractList_truthy _ _ _ Hc) as Hall.
  rewrite Forall_forall in Hall. rewrite (Hall a Hin).
  cbn [parse_name]. eexists. split; reflexivity.
Qed.

(** With a class but no process path, building the name throws, and the
    window is what the [catch] block makes of it. *)
Lemma buildWindowFromId_class_no_path (x : string) (l : list string) :
  extractList stdout wm_class_re = Some (x :: l) ->
  match truthy_pid (nullish (extractNumber stdout pid_re) pidFromWmctrl)
  with
  | Some n => resolveProcessPath n = None
  | None => True
  end ->
  buildWindowFromId resolveProcessPath (Stdout stdout) windowId
                    pidFromWmctrl fallbackTitle
  = buildWindowFromId_catch resolveProcessPath windowId pidFromWmctrl
                            fallbackTitle.
Proof.
  intros Hc Hpid.
  unfold buildWindowFromId, buildWindowFromId_try.
  rewrite Hc.
  destruct (last_of_nonempty x l) as [a [Hin [Hlast _]]].
  rewrite Hlast. cbn [nullish truthy_opt].
  pose proof (extractList_truthy _ _ _ Hc) as Hall.
  rewrite Forall_forall in Hall. rewrite (Hall a Hin).
  destruct (truthy_pid _) as [n|]; [rewrite Hpid|]; reflexivity.
Qed.
End BuildWindowFacts.

(** The documented precedence on the browser window of the samples: the
    last element of the class. *)
Lemma documented_appName_firefox :
  Spec.appName
    (LinuxWindowManager.extractList Sample.xprop_firefox
                                    LinuxWindowManager.wm_class_re)
    (LinuxWindowManager.extractString
       Sample.xprop_firefox LinuxWindowManager.gtk_application_id_re)
    (Some "/usr/lib/firefox/firefox-bin") "Mozilla Firefox"
  = "firefox".
Proof. vm_compute. reflexivity. Qed.

(** A window with a GTK application id and no class: the documented
    precedence names it by the id, the code by its executable. *)
Lemma appName_gtk_sample :
  Spec.appName
    (LinuxWindowManager.extractList Sample.xprop_gtk
                                    LinuxWindowManager.wm_class_re)
    (LinuxWindowManager.extractString
       Sample.xprop_gtk LinuxWindowManager.gtk_application_id_re)
    (Some "/usr/bin/nautilus") "Files"
  = "org.gnome.Nautilus"
  /\ option_map
       (fun w => DesktopWindowInfo.name (DesktopWindow.info w))
       (LinuxWindowManager.buildWindowFromId
          (fun _ => Some "/usr/bin/nautilus")
          (LinuxWindowManager.Stdout Sample.xprop_gtk) "0x2e00004"
          None None)
     = Some "nautilus".
Proof. split; vm_compute; reflexivity. Qed.

(** Without class and GTK id the code follows the documented
    precedence: the process name when the path resolves, the title
    otherwise. *)
Lemma appName_process_else_title :
  option_map
    (fun w => DesktopWindowInfo.name (DesktopWindow.info w))
    (LinuxWindowManager.buildWindowFromId
       (fun _ => Some "/usr/bin/xterm")
       (LinuxWindowManager.Stdout "_NET_WM_PID(CARDINAL) = 51")
       "0x1c00003" None (Some "shell"))
  = Some "xterm"
  /\ option_map
       (fun w => DesktopWindowInfo.name (DesktopWindow.info w))
       (LinuxWindowManager.buildWindowFromId
          (fun _ => None)
          (LinuxWindowManager.Stdout "_NET_WM_PID(CARDINAL) = 51")
          "0x1c00003" None (Some "shell"))
     = Some "shell".
Proof. split; vm_compute; reflexivity. Qed.

(** C10, the code at the failing inputs.  When [xprop] reports a class
    for the window and the path of its process resolves, the app name
    [buildWindowFromId] reports is the base name of the executable, not
    the last element of the class: the conditional takes the whole
    [??] chain as its test. *)
Theorem appName_prefers_process_path :
  forall (resolveProcessPath : Z -> option string)
         (stdout windowId : string) (pidFromWmctrl : option Z)
         (fallbackTitle : option string)
         (class : list string) (n : Z) (p : string),
    LinuxWindowManager.extractList stdout LinuxWindowManager.wm_class_re
    = Some class ->
    class <> [] ->
    LinuxWindowManager.truthy_pid
      (LinuxWindowManager.nullish
         (LinuxWindowManager.extractNumber stdout LinuxWindowManager.pid_re)
         pidFromWmctrl)
    = Some n ->
    resolveProcessPath n = Some p ->
    exists w,
      LinuxWindowManager.buildWindowFromId
        resolveProcessPath (LinuxWindowManager.Stdout stdout) windowId
        pidFromWmctrl fallbackTitle = Some w
      /\ DesktopWindowInfo.name (DesktopWindow.info w) = NodePath.name p.
Proof.
  intros resolve stdout windowId pidw fb class n p Hc Hne Hpid Hp.
  destruct class as [|x l]; [contradiction|].
  exact (buildWindowFromId_class_and_path
           resolve stdout windowId pidw fb x l n p Hc Hpid Hp).
Qed.

(** C10 on the browser window of the samples: the class ends with
    [firefox], the name reported is [firefox-bin]. *)
Lemma appName_prefers_process_path_witness :
  exists w,
    LinuxWindowManager.buildWindowFromId
      (fun _ => Some "/usr/lib/firefox/firefox-bin")
      (LinuxWindowManager.Stdout Sample.xprop_firefox) "0x3a00007"
      None None = Some w
    /\ DesktopWindowInfo.name (DesktopWindow.info w)
       = NodePath.name "/usr/lib/firefox/firefox-bin".
Proof.
  apply (appName_prefers_process_path
           (fun _ => Some "/usr/lib/firefox/firefox-bin")
           Sample.xprop_firefox "0x3a00007" None None
           ["Navigator"; "firefox"] 4242%Z
           "/usr/lib/firefox/firefox-bin").
  - vm_compute. reflexivity.
  - discriminate.
  - vm_compute. reflexivity.
  - reflexivity.
Defined.

(** The same window when the path of its process cannot be read: no
    window at all is reported. *)
Lemma window_dropped_without_path :
  LinuxWindowManager.buildWindowFromId
    (fun _ => None) (LinuxWindowManager.Stdout Sample.xprop_firefox)
    "0x3a00007" None None
  = None.
Proof. vm_compute. reflexivity. Qed.

(* ================================================================== *)
(** * Further properties of the code *)

(* ------------------------------------------------------------------ *)
(** ** Removing duplicates *)

Section Dedupe.
Context {A : Type}.
Variable key : A -> string.

Lemma has_app (k : string) (m m' : JsMap.t A) :
  JsMap.has k (m ++ m')%list = JsMap.has k m || JsMap.has k m'.
Proof. unfold JsMap.has. apply existsb_app. Qed.

(** Setting a key the map does not have appends the entry. *)
Lemma set_new (k : string) (v : A) (m : JsMap.t A) :
  JsMap.has k m = false -> JsMap.set k v m = (m ++ [(k, v)])%list.
Proof.
  induction m as [|[k' v'] m IH]; intros H; [reflexivity|].
  cbn [JsMap.has existsb fst] in H. apply orb_false_iff in H.
  destruct H as [H1 H2]. cbn [JsMap.set]. rewrite H1.
  cbn [app]. f_equal. apply IH. exact H2.
Qed.

Lemma has_values (x : A) (m : JsMap.t A) :
  Forall (fun kv => key (snd kv) = fst kv) m ->
  In x (JsMap.values m) -> JsMap.has (key x) m = true.
Proof.
  intros Hk Hin. unfold JsMap.values in Hin. apply in_map_iff in Hin.
  destruct Hin as [[k v] [<- Hin]]. rewrite Forall_forall in Hk.
  apply existsb_exists. exists (k, v). split; [exact Hin|].
  pose proof (Hk _ Hin) as E. cbn [fst snd] in *. rewrite E.
  apply String.eqb_refl.
Qed.

Lemma dedupe_loop_values (l : list A) (m : JsMap.t A) :
  Forall (fun kv => key (snd kv) = fst kv) m ->
  NoDup (JsMap.keys m) ->
  let r := WindowManager.dedupe_loop key l m in
  Forall (fun kv => key (snd kv) = fst kv) r
  /\ NoDup (JsMap.keys r)
  /\ forall x, In x (JsMap.values r)
               <-> In x (JsMap.values m)
                   \/ (JsMap.has (key x) m = false
                       /\ find (fun y => String.eqb (key y) (key x)) l = Some x).
Proof.
  revert m. induction l as [|a l IH]; intros m Hk Hn; cbv zeta.
  - cbn. repeat split; try assumption; [tauto|].
    intros [H|[_ H]]; [exact H | discriminate H].
  - unfold WindowManager.dedupe_loop. cbn [fold_left].
    fold (WindowManager.dedupe_loop key l).
    destruct (JsMap.has (key a) m) eqn:Ha.
    + destruct (IH m Hk Hn) as [R1 [R2 R3]].
      split; [exact R1|]. split; [exact R2|].
      intros x. rewrite R3. cbn [find].
      destruct (String.eqb_spec (key a) (key x)) as [E|E]; [|tauto].
      rewrite <- E, Ha. split; intros [H|[H _]]; auto; discriminate H.
    + rewrite (set_new _ _ _ Ha).
      assert (Hk' : Forall (fun kv => key (snd kv) = fst kv)
                           (m ++ [(key a, a)])%list).
      { apply Forall_app. split; [exact Hk|]. constructor; [reflexivity|].
        constructor. }
      assert (Hn' : NoDup (JsMap.keys (m ++ [(key a, a)])%list)).
      { unfold JsMap.keys. rewrite map_app. cbn [map fst].
        apply NoDup_app; [exact Hn | constructor; [intros [] | constructor] |].
        intros k Hin [<-|[]]. unfold JsMap.keys in Hin.
        apply in_map_iff in Hin. destruct Hin as [[k' v'] [E Hin]].
        cbn [fst] in E. subst k'.
        assert (JsMap.has (key a) m = true).
        { apply existsb_exists. exists (key a, v'). split; [exact Hin|].
          apply String.eqb_refl. }
        congruence. }
      destruct (IH _ Hk' Hn') as [R1 [R2 R3]].
      split; [exact R1|]. split; [exact R2|].
      intros x. rewrite R3. unfold JsMap.values at 1.
      rewrite map_app, in_app_iff. cbn [map snd In].
      rewrite has_app. cbn [JsMap.has existsb fst orb].
      cbn [find].
      destruct (String.eqb_spec (key a) (key x)) as [E|E].
      * rewrite orb_true_r. rewrite <- E, Ha.
        split.
        -- intros [[H|[H|[]]]|[H _]]; try discriminate H.
           ++ left. exact H.
           ++ right. split; [reflexivity | congruence].
        -- intros [H|[_ H]]; [left; left; exact H|].
           left. right. left. congruence.
      * rewrite orb_false_r. split.
        -- intros [[H|[H|[]]]|H]; [tauto | | tauto].
           subst x. congruence.
        -- tauto.
Qed.

(** What is left holds one element per key, the first of the list. *)
Lemma dedupe_first (l : list A) :
  let r := JsMap.values (WindowManager.dedupe_loop key l []) in
  NoDup (map key r)
  /\ forall x, In x r <-> find (fun y => String.eqb (key y) (key x)) l = Some x.
Proof.
  cbv zeta.
  destruct (dedupe_loop_values l [] (Forall_nil _) (NoDup_nil _))
    as [R1 [R2 R3]].
  split.
  - replace (map key (JsMap.values (WindowManager.dedupe_loop key l [])))
      with (JsMap.keys (WindowManager.dedupe_loop key l [])); [exact R2|].
    unfold JsMap.keys, JsMap.values. rewrite map_map.
    apply map_ext_in. intros kv Hin. rewrite Forall_forall in R1.
    symmetry. exact (R1 kv Hin).
  - intros x. rewrite R3. cbn. split.
    + intros [[]|[_ H]]. exact H.
    + intros H. right. split; [reflexivity | exact H].
Qed.
End Dedupe.

(** Of the windows [wmctrl] lists, [dedupeWindowsById] keeps one per
    window id, the first listed; of the apps found, [dedupeByPath] keeps
    one per executable path, the first found. *)
Theorem dedupe_keeps_first :
  (forall windows : list DesktopWindow.t,
      NoDup (map DesktopWindow.id (WindowManager.dedupeWindowsById windows))
      /\ forall w,
          In w (WindowManager.dedupeWindowsById windows)
          <-> find (fun y => String.eqb (DesktopWindow.id y)
                                        (DesktopWindow.id w)) windows
              = Some w)
  /\ (forall apps : list InstalledAppsLinux.InstalledApp,
         NoDup (map InstalledAppsLinux.app_path
                    (InstalledAppsLinux.dedupeByPath apps))
         /\ forall a,
             In a (InstalledAppsLinux.dedupeByPath apps)
             <-> find (fun y => String.eqb (InstalledAppsLinux.app_path y)
                                           (InstalledAppsLinux.app_path a))
                      apps
                 = Some a).
Proof.
  split; intros l.
  - exact (dedupe_first DesktopWindow.id l).
  - exact (dedupe_first InstalledAppsLinux.app_path l).
Qed.

(* ------------------------------------------------------------------ *)
(** ** Polling for the active window *)

(** The windows that were fetched, in order. *)
Lemma poll_last (fetched : completion (option DesktopWindow.t))
      (last : option DesktopWindow.t) :
  fst (WindowManager.poll fetched last)
  = match fetched with
    | Returns (Some w) => Some w
    | _ => last
    end.
Proof. destruct fetched as [[w|]|]; reflexivity. Qed.

Lemma poll_each_chain (ticks : list (completion (option DesktopWindow.t)))
      (last : option DesktopWindow.t) :
  let called := snd (WindowManager.poll_each ticks last) in
  Sorted (fun a b => DesktopWindow.id a <> DesktopWindow.id b) called
  /\ HdRel (fun a b => DesktopWindow.id a <> DesktopWindow.id b)
           (match last with
            | Some l => l
            | None => hd (Sample.window "" None) called
            end)
           (match last with
            | Some _ => called
            | None => []
            end)
  /\ Forall (fun w => In (Returns (Some w)) ticks) called.
Proof.
  revert last. induction ticks as [|fetched ticks IH]; intros last;
    cbv zeta.
  - cbn. repeat split; try constructor. destruct last; constructor.
  - cbn [WindowManager.poll_each].
    destruct (WindowManager.poll fetched last) as [last1 now_called] eqn:P.
    specialize (IH last1). cbv zeta in IH.
    destruct (WindowManager.poll_each ticks last1) as [last2 rest].
    cbn [snd] in *. destruct IH as [S1 [H1 F1]].
    assert (F1' : Forall (fun w => In (Returns (Some w)) (fetched :: ticks))
                         rest).
    { eapply Forall_impl; [|exact F1]. intros w Hw. right. exact Hw. }
    unfold WindowManager.poll in P.
    destruct fetched as [[w|]|]; inversion P; subst; clear P;
      cbn [app]; try (repeat split; assumption).
    destruct last as [l|]; cbn [negb].
    + destruct (String.eqb_spec (DesktopWindow.id l) (DesktopWindow.id w))
        as [E|E]; cbn [negb app].
      * repeat split; [exact S1 | | exact F1'].
        destruct rest as [|r rest]; constructor.
        inversion H1; subst. congruence.
      * repeat split.
        -- constructor; assumption.
        -- constructor. exact E.
        -- constructor; [left; reflexivity | exact F1'].
    + cbn [negb app]. repeat split.
      * constructor; assumption.
      * constructor.
      * constructor; [left; reflexivity | exact F1'].
Qed.

(** Whatever [xprop] answers at each tick, failures included, the
    callback of a subscription is never called twice in a row with the
    same window id, is first called with an id other than that of the
    window remembered before, and is only ever given a window that was
    fetched. *)
Theorem poll_reports_changes_only :
  forall (ticks : list (completion (option DesktopWindow.t)))
         (last : option DesktopWindow.t),
    let called := snd (WindowManager.poll_each ticks last) in
    Sorted (fun a b => DesktopWindow.id a <> DesktopWindow.id b) called
    /\ match last, called with
       | Some l, first :: _ => DesktopWindow.id l <> DesktopWindow.id first
       | _, _ => True
       end
    /\ Forall (fun w => In (Returns (Some w)) ticks) called.
Proof.
  intros ticks last. cbv zeta.
  destruct (poll_each_chain ticks last) as [S [H F]].
  repeat split; [exact S | | exact F].
  destruct last as [l|]; [|exact I].
  destruct (snd (WindowManager.poll_each ticks (Some l))) as [|c cs];
    [exact I|].
  inversion H; subst. assumption.
Qed.

(* ------------------------------------------------------------------ *)
(** ** The key listener of the watcher *)

Section Listener.
Variable isMonitored : string -> bool.






End Listener.







(* ------------------------------------------------------------------ *)
(** ** Dispatching a heartbeat *)

Lemma fetchToday_throttle (c : Wakatime.Collaborators) (now : Z)
      (cli : Wakatime.exec_outcome) (st : Wakatime.state) :
  Wakatime.throttle (fst (Wakatime.fetchToday c now cli st))
  = Wakatime.throttle st
  /\ option_map Wakatime.trayImage
                (Wakatime.tray (fst (Wakatime.fetchToday c now cli st)))
     = option_map Wakatime.trayImage (Wakatime.tray st).
Proof.
  unfold Wakatime.fetchToday.
  destruct (Wakatime.showCodeTimeInStatusBar c); cbn [negb];
    [|split; [reflexivity | cbn; destruct (Wakatime.tray st); reflexivity]].
  destruct (Qltb _ _);
    [split; [reflexivity | cbn; destruct (Wakatime.tray st); reflexivity]|].
  destruct cli as [output [err|]|error]; split; try reflexivity;
    cbn; destruct (Wakatime.tray st); reflexivity.
Qed.

(** What the tray image becomes after the heartbeat CLI has run. *)
Lemma sendHeartbeat_outcome (c : Wakatime.Collaborators)
      (w : Wakatime.world) (p : Wakatime.props) (st : Wakatime.state) :
  let category :=
    match Wakatime.category p with Some k => k | None => coding end in
  let after := Wakatime.sendHeartbeat c w p st in
  (existsb Wakatime.is_exec (snd after) = false /\ fst after = st)
  \/ (Js.truthy
        (Wakatime.shouldSendHeartbeat
           st (Wakatime.entity p) (Wakatime.seconds (Wakatime.now w))
           (Wakatime.isWrite p) category) = true
      /\ Spec.gate c p = true
      /\ (exists args rest,
             snd after
             = Wakatime.IsMonitored
                 (match DesktopWindowInfo.path
                          (DesktopWindow.info (Wakatime.windowInfo p)) with
                  | Some x => x
                  | None => ""
                  end)
               :: Wakatime.Exec (Wakatime.cliPath c)
                                ("--entity" :: Wakatime.entity p :: args)
               :: rest)
      /\ Wakatime.throttle (fst after)
         = (Wakatime.entity p, category,
            Wakatime.seconds (Wakatime.now w))
      /\ option_map Wakatime.trayImage (Wakatime.tray (fst after))
         = option_map
             (fun t =>
                match Wakatime.heartbeat_cli w with
                | Wakatime.Resolved _ None => Wakatime.trayIcon
                | Wakatime.Resolved _ (Some err) =>
                    if Js.includes "ENOENT" err || Js.includes "EPERM" err
                    then Wakatime.trayIconRed
                    else Wakatime.trayImage t
                | Wakatime.Rejected _ => Wakatime.trayImage t
                end)
             (Wakatime.tray st)).
Proof.
  cbv zeta. unfold Wakatime.sendHeartbeat, Spec.gate.
  destruct (Js.truthy _) eqn:T; cbn [negb]; [|left; split; reflexivity].
  destruct (DesktopWindowInfo.path _) as [windowPath|];
    [|left; split; reflexivity].
  destruct (Js.truthy_str windowPath); cbn [negb andb];
    [|left; split; reflexivity].
  destruct (Wakatime.isMonitored c windowPath); cbn [negb andb];
    [|left; split; reflexivity].
  destruct (Wakatime.appName_of _ _) as [appName|];
    [|left; split; reflexivity].
  destruct (Js.truthy_str appName); cbn [negb];
    [|left; split; reflexivity].
  right. split; [reflexivity|]. split; [reflexivity|].
  destruct (Wakatime.heartbeat_cli w) as [output [err|]|error];
    [destruct (Js.includes "ENOENT" err);
     [|destruct (Js.includes "EPERM" err)] | |];
    cbv iota beta; cbn [orb];
    match goal with
    | |- context [Wakatime.fetchToday ?c ?n ?cli ?s] =>
        destruct (fetchToday_throttle c n cli s) as [H1 H2];
        destruct (Wakatime.fetchToday c n cli s) as [st2 today]
    end;
    match goal with
    | |- context [Wakatime.checkForUpdates ?c ?n ?s] =>
        pose proof (checkForUpdates_state c n s) as H3;
        destruct (Wakatime.checkForUpdates c n s) as [st3 update]
    end;
    cbn [fst snd] in *; subst st3;
    (split; [eexists; eexists; cbn [app]; reflexivity|]);
    (split; [exact H1|]);
    rewrite H2; cbn; destruct (Wakatime.tray st); reflexivity.
Qed.

(** After a dispatch the throttle refuses the same sample for 120
    seconds. *)
Lemma sendHeartbeat_then_refused (c c' : Wakatime.Collaborators)
      (w w' : Wakatime.world) (p p' : Wakatime.props)
      (st : Wakatime.state) :
  existsb Wakatime.is_exec (snd (Wakatime.sendHeartbeat c w p st)) = true ->
  Wakatime.isWrite p' = false ->
  Wakatime.entity p' = Wakatime.entity p ->
  match Wakatime.category p' with Some k => k | None => coding end
  = match Wakatime.category p with Some k => k | None => coding end ->
  (Wakatime.seconds (Wakatime.now w')
   <= Wakatime.seconds (Wakatime.now w) + 120)%Q ->
  Wakatime.sendHeartbeat c' w' p' (fst (Wakatime.sendHeartbeat c w p st))
  = (fst (Wakatime.sendHeartbeat c w p st), []).
Proof.
  intros Hexec Hw He Hc Ht.
  destruct (sendHeartbeat_outcome c w p st) as [[Hn _]|[_ [_ [_ [Hth _]]]]];
    [congruence|].
  apply sendHeartbeat_refused.
  destruct (Js.truthy _) eqn:T; [|reflexivity].
  apply shouldSendHeartbeat_truthy_iff, shouldSendHeartbeat_true_iff in T.
  unfold Wakatime.throttle in Hth. injection Hth as H1 H2 H3.
  rewrite H1, H2, H3 in T.
  destruct T as [T|[T|[[_ T]|T]]]; try congruence.
  exfalso. exact (Qlt_not_le _ _ T Ht).
Qed.

(** Once a heartbeat has been dispatched, whether the CLI succeeded,
    failed or could not be started, a sample that is no write and has the
    same entity and category is dropped without any call for the next
    120 seconds: the throttle is set before the CLI runs. *)
Theorem heartbeat_coalesced_after_dispatch :
  forall (c c' : Wakatime.Collaborators) (w w' : Wakatime.world)
         (p p' : Wakatime.props) (st : Wakatime.state),
    existsb Wakatime.is_exec (snd (Wakatime.sendHeartbeat c w p st))
    = true ->
    Wakatime.isWrite p' = false ->
    Wakatime.entity p' = Wakatime.entity p ->
    match Wakatime.category p' with Some k => k | None => coding end
    = match Wakatime.category p with Some k => k | None => coding end ->
    (Wakatime.seconds (Wakatime.now w')
     <= Wakatime.seconds (Wakatime.now w) + 120)%Q ->
    Wakatime.sendHeartbeat c' w' p' (fst (Wakatime.sendHeartbeat c w p st))
    = (fst (Wakatime.sendHeartbeat c w p st), []).
Proof.
  intros c c' w w' p p' st. apply sendHeartbeat_then_refused.
Qed.

(** The same chat line typed twice, a minute apart, with a CLI that
    fails: the second sample calls nothing. *)
Lemma heartbeat_coalesced_after_dispatch_witness :
  Wakatime.sendHeartbeat
    (Sample.dispatcher true)
    {| Wakatime.now := 1700000060000%Z;
       Wakatime.heartbeat_cli := Wakatime.Resolved "" None;
       Wakatime.today_now := 1700000060000%Z;
       Wakatime.today_cli := Wakatime.Resolved "1 hr 3 mins" None;
       Wakatime.update_now := 1700000060000%Z |}
    Sample.keystroke
    (fst (Wakatime.sendHeartbeat
            (Sample.dispatcher true)
            {| Wakatime.now := 1700000000000%Z;
               Wakatime.heartbeat_cli :=
                 Wakatime.Resolved "" (Some "spawn wakatime-cli ENOENT");
               Wakatime.today_now := 1700000000000%Z;
               Wakatime.today_cli := Wakatime.Rejected "ENOENT";
               Wakatime.update_now := 1700000000000%Z |}
            Sample.keystroke Sample.fresh))
  = (fst (Wakatime.sendHeartbeat
            (Sample.dispatcher true)
            {| Wakatime.now := 1700000000000%Z;
               Wakatime.heartbeat_cli :=
                 Wakatime.Resolved "" (Some "spawn wakatime-cli ENOENT");
               Wakatime.today_now := 1700000000000%Z;
               Wakatime.today_cli := Wakatime.Rejected "ENOENT";
               Wakatime.update_now := 1700000000000%Z |}
            Sample.keystroke Sample.fresh), []).
Proof.
  apply heartbeat_coalesced_after_dispatch.
  - vm_compute. reflexivity.
  - reflexivity.
  - reflexivity.
  - reflexivity.
  - vm_compute. discriminate.
Defined.

Lemma fetchToday_quiet (c : Wakatime.Collaborators) (now : Z)
      (cli : Wakatime.exec_outcome) (st : Wakatime.state) :
  existsb (fun k => match k with
                    | Wakatime.NotificationShow _ => true
                    | _ => false
                    end)
          (snd (Wakatime.fetchToday c now cli st)) = false.
Proof.
  unfold Wakatime.fetchToday.
  destruct (Wakatime.showCodeTimeInStatusBar c); cbn [negb]; [|reflexivity].
  destruct (Qltb _ _); [reflexivity|].
  destruct cli as [output [err|]|error]; reflexivity.
Qed.

Lemma checkForUpdates_quiet (c : Wakatime.Collaborators) (now : Z)
      (st : Wakatime.state) :
  existsb (fun k => match k with
                    | Wakatime.NotificationShow _ => true
                    | _ => false
                    end)
          (snd (Wakatime.checkForUpdates c now st)) = false.
Proof.
  unfold Wakatime.checkForUpdates.
  destruct (negb (Wakatime.autoUpdateEnabled c) || Wakatime.isDev c);
    [reflexivity|].
  destruct (Wakatime.lastCheckedForUpdates st + 600 * 1000 >? now)%Z;
    reflexivity.
Qed.

(** After a dispatched heartbeat the tray image tells the outcome of the
    CLI: normal when it reported no error, red when the error text holds
    ENOENT or EPERM, unchanged for any other error and when the CLI could
    not be started; a notification is shown for ENOENT and EPERM exactly
    when the platform supports notifications. *)
Theorem tray_image_tells_cli_outcome :
  forall (c : Wakatime.Collaborators) (w : Wakatime.world)
         (p : Wakatime.props) (st : Wakatime.state) (t : Wakatime.Tray),
    existsb Wakatime.is_exec (snd (Wakatime.sendHeartbeat c w p st))
    = true ->
    Wakatime.tray st = Some t ->
    let after := Wakatime.sendHeartbeat c w p st in
    option_map Wakatime.trayImage (Wakatime.tray (fst after))
    = Some match Wakatime.heartbeat_cli w with
           | Wakatime.Resolved _ None => Wakatime.trayIcon
           | Wakatime.Resolved _ (Some err) =>
               if Js.includes "ENOENT" err || Js.includes "EPERM" err
               then Wakatime.trayIconRed
               else Wakatime.trayImage t
           | Wakatime.Rejected _ => Wakatime.trayImage t
           end
    /\ (existsb (fun k => match k with
                          | Wakatime.NotificationShow _ => true
                          | _ => false
                          end) (snd after)
        = match Wakatime.heartbeat_cli w with
          | Wakatime.Resolved _ (Some err) =>
              (Js.includes "ENOENT" err || Js.includes "EPERM" err)
              && Wakatime.notificationIsSupported c
          | _ => false
          end).
Proof.
  intros c w p st t Hexec Ht. cbv zeta.
  revert Hexec. unfold Wakatime.sendHeartbeat.
  destruct (Js.truthy _); cbn [negb]; [|discriminate].
  destruct (DesktopWindowInfo.path _) as [windowPath|]; [|discriminate].
  destruct (Js.truthy_str windowPath); cbn [negb]; [|discriminate].
  destruct (Wakatime.isMonitored c windowPath); cbn [negb];
    [|discriminate].
  destruct (Wakatime.appName_of _ _) as [appName|]; [|discriminate].
  destruct (Js.truthy_str appName); cbn [negb]; [|discriminate].
  intros _. unfold Wakatime.displayBalloon, Wakatime.notify.
  cbn [Wakatime.tray Wakatime.set_throttle]. rewrite Ht.
  destruct (Wakatime.heartbeat_cli w) as [output [err|]|error];
    [destruct (Js.includes "ENOENT" err);
     [|destruct (Js.includes "EPERM" err)] | |];
    cbv iota beta; cbn [orb andb];
    match goal with
    | |- context [Wakatime.fetchToday ?c ?n ?cli ?s] =>
        destruct (fetchToday_throttle c n cli s) as [_ H2];
        pose proof (fetchToday_quiet c n cli s) as Q2;
        destruct (Wakatime.fetchToday c n cli s) as [st2 today]
    end;
    match goal with
    | |- context [Wakatime.checkForUpdates ?c ?n ?s] =>
        pose proof (checkForUpdates_state c n s) as H3;
        pose proof (checkForUpdates_quiet c n s) as Q3;
        destruct (Wakatime.checkForUpdates c n s) as [st3 update]
    end;
    cbn [fst snd] in *; subst st3;
    (split; [rewrite H2; cbn; rewrite Ht; reflexivity|]);
    cbn [existsb orb]; rewrite ?existsb_app, Q2, Q3, ?orb_false_r;
    destruct (Wakatime.notificationIsSupported c); reflexivity.
Qed.

(** A CLI that is missing, on a tray that shows the normal image. *)
Lemma tray_image_tells_cli_outcome_witness :
  option_map
    Wakatime.trayImage
    (Wakatime.tray
       (fst (Wakatime.sendHeartbeat
               (Sample.dispatcher true)
               {| Wakatime.now := 1700000000000%Z;
                  Wakatime.heartbeat_cli :=
                    Wakatime.Resolved "" (Some "spawn wakatime-cli ENOENT");
                  Wakatime.today_now := 1700000000000%Z;
                  Wakatime.today_cli := Wakatime.Rejected "ENOENT";
                  Wakatime.update_now := 1700000000000%Z |}
               Sample.keystroke
               (Wakatime.initial
                  "linux-wakatime/1.0.0"
                  (Some {| Wakatime.trayTitle := "";
                           Wakatime.trayToolTip := "";
                           Wakatime.trayImage := Wakatime.trayIcon |})))))
  = Some Wakatime.trayIconRed.
Proof.
  apply (proj1 (tray_image_tells_cli_outcome
                  (Sample.dispatcher true)
                  {| Wakatime.now := 1700000000000%Z;
                     Wakatime.heartbeat_cli :=
                       Wakatime.Resolved "" (Some "spawn wakatime-cli ENOENT");
                     Wakatime.today_now := 1700000000000%Z;
                     Wakatime.today_cli := Wakatime.Rejected "ENOENT";
                     Wakatime.update_now := 1700000000000%Z |}
                  Sample.keystroke
                  (Wakatime.initial
                     "linux-wakatime/1.0.0"
                     (Some {| Wakatime.trayTitle := "";
                              Wakatime.trayToolTip := "";
                              Wakatime.trayImage := Wakatime.trayIcon |}))
                  {| Wakatime.trayTitle := "";
                     Wakatime.trayToolTip := "";
                     Wakatime.trayImage := Wakatime.trayIcon |}
                  ltac:(vm_compute; reflexivity) eq_refl)).
Defined.

(** A key pressed again within 120 seconds in a window that has not
    changed, after a key press that sent a heartbeat, calls nothing: key
    presses are never writes, and the window gives the same entity and
    category. *)
Theorem key_presses_coalesced :
  forall (mc : MonitoredApp.Collaborators) (wc : Wakatime.Collaborators)
         (getApp : string -> option AppData.t)
         (window : option DesktopWindow.t) (w w' : Wakatime.world)
         (st : Wakatime.state),
    existsb Wakatime.is_exec
            (snd (Watcher.globalKeyListener mc wc getApp window Watcher.DOWN
                                            w st))
    = true ->
    (Wakatime.seconds (Wakatime.now w')
     <= Wakatime.seconds (Wakatime.now w) + 120)%Q ->
    Watcher.globalKeyListener
      mc wc getApp window Watcher.DOWN w'
      (fst (Watcher.globalKeyListener mc wc getApp window Watcher.DOWN w st))
    = (fst (Watcher.globalKeyListener mc wc getApp window Watcher.DOWN w st),
       []).
Proof.
  intros mc wc getApp window w w' st. unfold Watcher.globalKeyListener.
  destruct window as [win|]; [|discriminate].
  destruct (DesktopWindowInfo.path (DesktopWindow.info win)) as [p|];
    [|discriminate].
  destruct (Js.truthy_str p); cbn [negb]; [|discriminate].
  destruct (MonitoredApp.heartbeatData mc win (getApp p)) as [[h|]|];
    try discriminate.
  intros Hexec Ht.
  apply (sendHeartbeat_then_refused wc wc w w' _ _ st Hexec);
    try reflexivity.
  exact Ht.
Qed.

(** Two key presses a minute apart in the same chat window. *)
Lemma key_presses_coalesced_witness :
  Watcher.globalKeyListener
    Sample.classifier (Sample.dispatcher true)
    (fun _ => Some (Sample.app "slack" false))
    (Some (Sample.window "general - Slack" None)) Watcher.DOWN
    {| Wakatime.now := 1700000060000%Z;
       Wakatime.heartbeat_cli := Wakatime.Resolved "" None;
       Wakatime.today_now := 1700000060000%Z;
       Wakatime.today_cli := Wakatime.Resolved "1 hr 3 mins" None;
       Wakatime.update_now := 1700000060000%Z |}
    (fst (Watcher.globalKeyListener
            Sample.classifier (Sample.dispatcher true)
            (fun _ => Some (Sample.app "slack" false))
            (Some (Sample.window "general - Slack" None)) Watcher.DOWN
            Sample.calm Sample.fresh))
  = (fst (Watcher.globalKeyListener
            Sample.classifier (Sample.dispatcher true)
            (fun _ => Some (Sample.app "slack" false))
            (Some (Sample.window "general - Slack" None)) Watcher.DOWN
            Sample.calm Sample.fresh), []).
Proof.
  apply key_presses_coalesced.
  - vm_compute. reflexivity.
  - vm_compute. discriminate.
Defined.

(* ------------------------------------------------------------------ *)
(** ** The classifier as a whole *)

(** [heartbeatData] throws in one case only: a browser, with an address
    the site filter accepts, under the domain preference, when the
    platform cannot parse the address.  When it answers with a record,
    the entity of the record is not empty and is the one [entity] gave,
    and the other fields are those of [category], [language] and
    [project]. *)
Theorem heartbeatData_signal :
  forall (c : MonitoredApp.Collaborators) (w : DesktopWindow.t)
         (app : option AppData.t),
    (MonitoredApp.heartbeatData c w app = Throws
     <-> exists a u,
        app = Some a /\ AppData.isBrowser a = true
        /\ DesktopWindow.url w = Some u /\ u <> ""
        /\ MonitoredApp.filterBrowsedSites c u = true
        /\ MonitoredApp.domainPreference c = "domain"
        /\ MonitoredApp.new_URL c u = None)
    /\ (forall h,
           MonitoredApp.heartbeatData c w app = Returns (Some h) ->
           HeartbeatData.entity h <> ""
           /\ MonitoredApp.entity c w app
              = Returns (Some (HeartbeatData.entity h))
           /\ HeartbeatData.category h = MonitoredApp.category app
           /\ HeartbeatData.language h = MonitoredApp.language app
           /\ HeartbeatData.project h = MonitoredApp.project w).
Proof.
  intros c w app. split.
  - unfold MonitoredApp.heartbeatData, MonitoredApp.entity,
      MonitoredApp.domainFromUrl.
    split.
    + destruct app as [a|]; cbn [MonitoredApp.is_browser].
      * destruct (AppData.isBrowser a) eqn:B.
        -- destruct (DesktopWindow.url w) as [u|];
             [|discriminate].
           destruct (Js.truthy_str u) eqn:Tu; cbn [andb]; [|discriminate].
           destruct (MonitoredApp.filterBrowsedSites c u) eqn:F;
             [|discriminate].
           destruct (String.eqb_spec (MonitoredApp.domainPreference c)
                                     "domain") as [D|D].
           ++ destruct (MonitoredApp.new_URL c u) as [parsed|] eqn:P.
              ** destruct (Js.truthy_str (Url.port parsed));
                   match goal with
                   | |- context [Js.truthy_str ?e] =>
                       destruct (Js.truthy_str e)
                   end; discriminate.
              ** intros _. exists a, u.
                 apply truthy_str_true in Tu. tauto.
           ++ destruct (Js.truthy_str u); discriminate.
        -- destruct (MonitoredApp.one_of ["canva"] (Some a));
             [discriminate|].
           destruct (MonitoredApp.one_of ["notes"] (Some a));
             [discriminate|].
           destruct (MonitoredApp.title w (Some a)) as [e|];
             [destruct (Js.truthy_str e)|]; discriminate.
      * cbn [MonitoredApp.one_of].
        destruct (MonitoredApp.title w None) as [e|];
          [destruct (Js.truthy_str e)|]; discriminate.
    + intros [a [u [-> [B [U [Hu [F [D P]]]]]]]].
      cbn [MonitoredApp.is_browser]. rewrite B, U.
      apply truthy_str_true in Hu. rewrite Hu, F, D, P. reflexivity.
  - intros h. unfold MonitoredApp.heartbeatData.
    destruct (MonitoredApp.entity c w app) as [[e|]|]; try discriminate.
    destruct (Js.truthy_str e) eqn:Te; cbn [negb]; [|discriminate].
    intros [= <-]. cbn. apply truthy_str_true in Te. tauto.
Qed.

(** A design file: the record carries the title, the category and the
    language hint of the app. *)
Lemma heartbeatData_signal_witness :
  HeartbeatData.entity
    {| HeartbeatData.entity := "Homepage Design";
       HeartbeatData.category := Some designing;
       HeartbeatData.language := Some "Image (svg)";
       HeartbeatData.project := None |}
  <> "".
Proof.
  refine (proj1 (proj2 (heartbeatData_signal
                          Sample.classifier
                          (Sample.window "Homepage Design - Figma" None)
                          (Some (Sample.app "figma" false))) _ _)).
  vm_compute. reflexivity.
Defined.

(* ------------------------------------------------------------------ *)
(** ** The plugin string *)

Lemma filter_str_app (f : ascii -> bool) (a b : string) :
  Js.filter_str f (a ++ b) = Js.filter_str f a ++ Js.filter_str f b.
Proof.
  induction a as [|x a IH]; cbn; [reflexivity|].
  destruct (f x); cbn; rewrite IH; reflexivity.
Qed.

Lemma every_app (f : ascii -> bool) (a b : string) :
  Js.every f (a ++ b) = Js.every f a && Js.every f b.
Proof.
  induction a as [|x a IH]; cbn; [reflexivity|].
  rewrite IH. apply andb_assoc.
Qed.

(** What a filter keeps satisfies the test, and whatever holds of every
    character before holds after. *)
Lemma every_filter_str (f g : ascii -> bool) (s : string) :
  Js.every f (Js.filter_str f s) = true
  /\ (Js.every g s = true -> Js.every g (Js.filter_str f s) = true).
Proof.
  induction s as [|x s [IH1 IH2]]; cbn; [split; reflexivity|].
  destruct (f x) eqn:E; cbn.
  - rewrite E, IH1. split; [reflexivity|].
    intros H. apply andb_true_iff in H. destruct H as [H1 H2].
    rewrite H1. exact (IH2 H2).
  - split; [exact IH1|]. intros H. apply andb_true_iff in H.
    apply IH2. tauto.
Qed.

(* ------------------------------------------------------------------ *)
(** ** The plugin string on 16-bit code units *)

Section Surrogates.
Import Utf16.

Lemma strip_non_ascii_pair (u v : N) (rest : str) :
  strip_non_ascii (u :: v :: rest)
  = if is_high u
    then if is_low v then u :: v :: strip_non_ascii rest
         else strip_non_ascii (v :: rest)
    else if in_class u then strip_non_ascii (v :: rest)
         else u :: strip_non_ascii (v :: rest).
Proof. reflexivity. Qed.

Lemma strip_non_ascii_one (u : N) :
  strip_non_ascii [u]
  = if is_high u then [] else if in_class u then [] else [u].
Proof. reflexivity. Qed.

Lemma strip_non_ascii_cons (u : N) (rest : str) :
  is_high u = false ->
  strip_non_ascii (u :: rest)
  = if in_class u then strip_non_ascii rest else u :: strip_non_ascii rest.
Proof. intros H. cbn [strip_non_ascii]. rewrite H. reflexivity. Qed.

Lemma clean_pair (u v : N) (rest : str) :
  clean (u :: v :: rest)
  = if is_high u then is_low v && clean rest
    else negb (in_class u) && clean (v :: rest).
Proof. reflexivity. Qed.

Lemma clean_cons (u : N) (rest : str) :
  is_high u = false ->
  clean (u :: rest) = negb (in_class u) && clean rest.
Proof. intros H. cbn [clean]. rewrite H. reflexivity. Qed.

(** Induction along the way the string is read: by one unit or by two. *)
Lemma pairs_ind (P : str -> Prop) :
  P [] ->
  (forall u rest,
      P rest -> (forall v rest', rest = v :: rest' -> P rest') ->
      P (u :: rest)) ->
  forall s, P s.
Proof.
  intros H0 H1 s.
  assert (G : P s /\ match s with
                     | _ :: r => P r
                     | [] => True
                     end).
  { induction s as [|u s [IH1 IH2]]; [split; [exact H0 | exact I]|].
    split; [|exact IH1].
    apply H1; [exact IH1|]. intros v rest' ->. exact IH2. }
  apply G.
Qed.

(** A low surrogate is not a high one. *)
Lemma is_low_not_high (u : N) : is_low u = true -> is_high u = false.
Proof.
  unfold is_low, is_high. intros H. apply andb_true_iff in H.
  destruct H as [H _]. apply N.leb_le in H.
  apply andb_false_iff. right. apply N.leb_gt. lia.
Qed.

Lemma is_high_in_class (u : N) : is_high u = true -> in_class u = true.
Proof.
  unfold is_high, in_class. intros H. apply andb_true_iff in H.
  destruct H as [H1 H2]. apply N.leb_le in H1, H2.
  apply andb_true_iff. split; apply N.leb_le; lia.
Qed.

Lemma is_low_in_class (u : N) : is_low u = true -> in_class u = true.
Proof.
  unfold is_low, in_class. intros H. apply andb_true_iff in H.
  destruct H as [H1 H2]. apply N.leb_le in H1, H2.
  apply andb_true_iff. split; apply N.leb_le; lia.
Qed.

(** What is left holds no code point of the class. *)
Lemma strip_non_ascii_clean (s : str) : clean (strip_non_ascii s) = true.
Proof.
  induction s as [|u rest IH1 IH2] using pairs_ind; [reflexivity|].
  destruct rest as [|v rest'].
  - rewrite strip_non_ascii_one.
    destruct (is_high u) eqn:Hh; [reflexivity|].
    destruct (in_class u) eqn:Hc; [reflexivity|].
    rewrite clean_cons, Hc by exact Hh. reflexivity.
  - rewrite strip_non_ascii_pair.
    destruct (is_high u) eqn:Hh.
    + destruct (is_low v) eqn:Hl; [|exact IH1].
      rewrite clean_pair, Hh, Hl. exact (IH2 v rest' eq_refl).
    + destruct (in_class u) eqn:Hc; [exact IH1|].
      rewrite clean_cons, Hc, IH1 by exact Hh. reflexivity.
Qed.

(** Nothing is added: what holds of every unit before holds after. *)
Lemma strip_non_ascii_Forall (P : N -> Prop) (s : str) :
  Forall P s -> Forall P (strip_non_ascii s).
Proof.
  induction s as [|u rest IH1 IH2] using pairs_ind; [intros _; constructor|].
  intros F. inversion F as [|x l Pu Fr]; subst.
  destruct rest as [|v rest'].
  - rewrite strip_non_ascii_one.
    destruct (is_high u); [constructor|].
    destruct (in_class u); [constructor | exact F].
  - inversion Fr as [|x l Pv Fr']; subst. rewrite strip_non_ascii_pair.
    destruct (is_high u).
    + destruct (is_low v); [|exact (IH1 Fr)].
      constructor; [exact Pu|]. constructor; [exact Pv|].
      exact (IH2 v rest' eq_refl Fr').
    + destruct (in_class u); [exact (IH1 Fr)|].
      constructor; [exact Pu | exact (IH1 Fr)].
Qed.

(** The replacement goes through a concatenation whose second part does
    not start with a low surrogate. *)
Lemma strip_non_ascii_app (a b : str) :
  match b with
  | v :: _ => is_low v = false
  | [] => True
  end ->
  strip_non_ascii (a ++ b)%list
  = (strip_non_ascii a ++ strip_non_ascii b)%list.
Proof.
  intros Hb. induction a as [|u rest IH1 IH2] using pairs_ind;
    [reflexivity|].
  destruct rest as [|v rest'].
  - cbn [app]. rewrite strip_non_ascii_one. destruct b as [|w b'].
    + rewrite strip_non_ascii_one.
      destruct (is_high u); [reflexivity|].
      destruct (in_class u); reflexivity.
    + rewrite strip_non_ascii_pair, Hb.
      destruct (is_high u); [reflexivity|].
      destruct (in_class u); reflexivity.
  - cbn [app]. rewrite !strip_non_ascii_pair.
    destruct (is_high u).
    + destruct (is_low v); [|exact IH1].
      rewrite (IH2 v rest' eq_refl). reflexivity.
    + cbn [app] in IH1. destruct (in_class u); [exact IH1|].
      rewrite IH1. reflexivity.
Qed.

(** Without high surrogates the replacement is a filter. *)
Lemma strip_non_ascii_filter (s : str) :
  Forall (fun u => is_high u = false) s ->
  strip_non_ascii s = filter (fun u => negb (in_class u)) s.
Proof.
  induction s as [|u s IH]; intros F; [reflexivity|].
  inversion F as [|x l Hu Fs]; subst.
  rewrite strip_non_ascii_cons by exact Hu. cbn [filter].
  rewrite (IH Fs). destruct (in_class u); reflexivity.
Qed.

Lemma filter_Forall_kept {A : Type} (f : A -> bool) (l : list A) :
  Forall (fun x => f x = true) (filter f l).
Proof.
  apply Forall_forall. intros x H. apply filter_In in H. tauto.
Qed.

Lemma filter_Forall_keeps {A : Type} (f : A -> bool) (P : A -> Prop)
      (l : list A) :
  Forall P l -> Forall P (filter f l).
Proof.
  rewrite !Forall_forall. intros H x Hx. apply filter_In in Hx.
  apply H. tauto.
Qed.

Lemma appVersion_of_no_space (appData : option AppData) :
  Forall (fun u => is_space u = false) (appVersion_of appData).
Proof.
  assert (U : Forall (fun u => is_space u = false) (of_string "unknown"))
    by (repeat constructor).
  unfold appVersion_of, or_unknown.
  destruct appData as [a|]; [|exact U].
  destruct (version a) as [v|]; [|exact U]. cbn [option_map].
  destruct (truthy (strip_spaces v)); [|exact U].
  unfold strip_spaces.
  apply (Forall_impl _ (fun u H => proj1 (negb_true_iff _) H)).
  apply filter_Forall_kept.
Qed.

(** On one-byte code units. *)
Lemma of_string_app (a b : string) :
  of_string (a ++ b) = (of_string a ++ of_string b)%list.
Proof.
  unfold of_string. induction a as [|c a IH]; [reflexivity|].
  cbn [append list_ascii_of_string map app]. rewrite IH. reflexivity.
Qed.

Lemma of_string_filter (f : ascii -> bool) (g : N -> bool) (s : string) :
  (forall c, f c = g (N_of_ascii c)) ->
  of_string (Js.filter_str f s) = filter g (of_string s).
Proof.
  intros H. unfold of_string. induction s as [|c s IH]; [reflexivity|].
  cbn [Js.filter_str list_ascii_of_string map filter]. rewrite <- H.
  destruct (f c); cbn [list_ascii_of_string map]; rewrite IH; reflexivity.
Qed.

Lemma is_space_one_byte (c : ascii) :
  negb (Js.is_space c) = negb (is_space (N_of_ascii c)).
Proof. destruct c as [[] [] [] [] [] [] [] []]; reflexivity. Qed.

Lemma in_class_one_byte (c : ascii) :
  Nat.ltb (nat_of_ascii c) 128 = negb (in_class (N_of_ascii c)).
Proof. destruct c as [[] [] [] [] [] [] [] []]; reflexivity. Qed.

Lemma is_high_one_byte (s : string) :
  Forall (fun u => is_high u = false) (of_string s).
Proof.
  unfold of_string. induction s as [|c s IH]; [constructor|].
  cbn [list_ascii_of_string map]. constructor; [|exact IH].
  destruct c as [[] [] [] [] [] [] [] []]; reflexivity.
Qed.

Lemma strip_spaces_one_byte (s : string) :
  of_string (Js.strip_spaces s) = strip_spaces (of_string s).
Proof. apply of_string_filter, is_space_one_byte. Qed.

Lemma strip_non_ascii_one_byte (s : string) :
  of_string (Js.strip_non_ascii s) = strip_non_ascii (of_string s).
Proof.
  rewrite strip_non_ascii_filter by apply is_high_one_byte.
  apply of_string_filter, in_class_one_byte.
Qed.

Lemma truthy_one_byte (s : string) : truthy (of_string s) = Js.truthy_str s.
Proof. destruct s; reflexivity. Qed.

Lemma appName_of_one_byte (appData : option AppData.t)
      (windowInfo : option DesktopWindow.t) :
  appName_of (option_map of_app appData) (option_map of_window windowInfo)
  = option_map of_string (Wakatime.appName_of appData windowInfo).
Proof.
  unfold appName_of, Wakatime.appName_of, Js.or_str.
  destruct windowInfo as [w|]; cbn [option_map].
  - unfold of_window. rewrite truthy_one_byte.
    destruct (Js.truthy_str _); [reflexivity|].
    destruct appData; reflexivity.
  - destruct appData; reflexivity.
Qed.

Lemma appVersion_of_one_byte (appData : option AppData.t) :
  appVersion_of (option_map of_app appData)
  = of_string
      (Wakatime.or_unknown
         (match appData with
          | Some a => option_map Js.strip_spaces (AppData.version a)
          | None => None
          end)).
Proof.
  unfold appVersion_of, or_unknown, Wakatime.or_unknown.
  destruct appData as [a|]; [|reflexivity]. cbn [option_map of_app version].
  destruct (AppData.version a) as [v|]; [|reflexivity]. cbn [option_map].
  rewrite <- strip_spaces_one_byte, truthy_one_byte.
  destruct (Js.truthy_str _); reflexivity.
Qed.

(** On strings of one-byte code units [Wakatime.pluginString] is this
    method. *)
Lemma pluginString_one_byte (st : Wakatime.state)
      (appData : option AppData.t) (windowInfo : option DesktopWindow.t) :
  pluginString (of_string (Wakatime.versionString st))
               (option_map of_app appData)
               (option_map of_window windowInfo)
  = of_string (Wakatime.pluginString st appData windowInfo).
Proof.
  unfold pluginString, Wakatime.pluginString.
  rewrite appName_of_one_byte.
  destruct (Wakatime.appName_of appData windowInfo) as [appName|];
    [|reflexivity].
  cbn [option_map]. rewrite truthy_one_byte.
  destruct (Js.truthy_str appName); [|reflexivity]. cbn [negb].
  rewrite strip_non_ascii_one_byte, !of_string_app.
  rewrite strip_spaces_one_byte, appVersion_of_one_byte. reflexivity.
Qed.
End Surrogates.

(** When the window or the app has a name, the plugin string is the
    name, a slash, the version of the app or [unknown], a space and the
    version string of the host, the name and the version without their
    white space and each part without its code points from U+0080 to
    U+FFFF.  What comes before the space holds no white space.  Read by
    code points, the result holds none from U+0080 to U+FFFF: a code
    point above U+FFFF stays; and where no part holds a high surrogate,
    every unit of the result is below U+0080.  On strings of one-byte
    code units the method is [Wakatime.pluginString]. *)
Theorem pluginString_shape :
  (forall (versionString : Utf16.str) (appData : option Utf16.AppData)
          (windowInfo : option Utf16.str) (appName : Utf16.str),
      Utf16.appName_of appData windowInfo = Some appName ->
      appName <> [] ->
      Utf16.pluginString versionString appData windowInfo
      = (Utf16.strip_non_ascii (Utf16.strip_spaces appName)
           ++ [47%N]
           ++ Utf16.strip_non_ascii (Utf16.appVersion_of appData)
           ++ [32%N]
           ++ Utf16.strip_non_ascii versionString)%list
      /\ Forall (fun u => Utf16.is_space u = false)
                (Utf16.strip_non_ascii (Utf16.strip_spaces appName)
                   ++ [47%N]
                   ++ Utf16.strip_non_ascii (Utf16.appVersion_of appData))%list
      /\ Utf16.clean (Utf16.pluginString versionString appData windowInfo)
         = true
      /\ (Forall (fun u => Utf16.is_high u = false)
                 (appName ++ Utf16.appVersion_of appData
                    ++ versionString)%list
          -> Forall (fun u => Utf16.in_class u = false)
                    (Utf16.pluginString versionString appData windowInfo)))
  /\ (forall (st : Wakatime.state) (appData : option AppData.t)
             (windowInfo : option DesktopWindow.t),
         Utf16.pluginString
           (Utf16.of_string (Wakatime.versionString st))
           (option_map Utf16.of_app appData)
           (option_map Utf16.of_window windowInfo)
         = Utf16.of_string (Wakatime.pluginString st appData windowInfo)).
Proof.
  split; [|exact pluginString_one_byte].
  intros versionString appData windowInfo appName Hn Hne.
  unfold Utf16.pluginString. rewrite Hn.
  destruct appName as [|u0 appName0] eqn:Ea; [congruence|].
  rewrite <- Ea in *. replace (Utf16.truthy appName) with true
    by (rewrite Ea; reflexivity).
  cbn [negb]. cbv zeta.
  split; [|split; [|split]].
  - change (Utf16.of_string "/") with [47%N].
    change (Utf16.of_string " ") with [32%N].
    rewrite strip_non_ascii_app by reflexivity.
    cbn [app]. rewrite (strip_non_ascii_cons 47) by reflexivity.
    change (Utf16.in_class 47) with false. cbv iota.
    rewrite strip_non_ascii_app by reflexivity.
    rewrite (strip_non_ascii_cons 32) by reflexivity.
    reflexivity.
  - apply Forall_app. split; [|apply Forall_app; split].
    + apply strip_non_ascii_Forall. unfold Utf16.strip_spaces.
      apply (Forall_impl _ (fun u H => proj1 (negb_true_iff _) H)).
      apply filter_Forall_kept.
    + repeat constructor.
    + apply strip_non_ascii_Forall, appVersion_of_no_space.
  - apply strip_non_ascii_clean.
  - intros F. apply Forall_app in F. destruct F as [F1 F].
    apply Forall_app in F. destruct F as [F2 F3].
    rewrite strip_non_ascii_filter.
    + apply (Forall_impl _ (fun u H => proj1 (negb_true_iff _) H)).
      apply filter_Forall_kept.
    + apply Forall_app. split;
        [unfold Utf16.strip_spaces; apply filter_Forall_keeps; exact F1|].
      apply Forall_app. split; [repeat constructor|].
      apply Forall_app. split; [exact F2|].
      apply Forall_app. split; [repeat constructor | exact F3].
Qed.

(** A chat window whose name ends in an emoji, a code point above
    U+FFFF, and an accented letter: the emoji stays, the letter goes. *)
Lemma pluginString_shape_witness :
  Utf16.pluginString
    (Utf16.of_string "linux-6.8 desktop-wakatime/1.0")
    (Some {| Utf16.name := Utf16.of_string "Slack";
             Utf16.version := Some (Utf16.of_string "4.36 beta") |})
    (Some (Utf16.of_string "Slack " ++ [55357; 56832; 233])%N%list)
  = (Utf16.of_string "Slack" ++ [55357; 56832]
       ++ Utf16.of_string "/4.36beta linux-6.8 desktop-wakatime/1.0")%N%list.
Proof.
  refine (eq_trans
            (proj1 (proj1 pluginString_shape
                      (Utf16.of_string "linux-6.8 desktop-wakatime/1.0")
                      (Some {| Utf16.name := Utf16.of_string "Slack";
                               Utf16.version :=
                                 Some (Utf16.of_string "4.36 beta") |})
                      (Some (Utf16.of_string "Slack "
                               ++ [55357; 56832; 233])%N%list)
                      (Utf16.of_string "Slack " ++ [55357; 56832; 233])%N%list
                      _ _))
            _).
  - reflexivity.
  - discriminate.
  - vm_compute. reflexivity.
Defined.

(* ------------------------------------------------------------------ *)
(** ** Installing an update *)

(** Only [update-downloaded] changes the state. *)
Lemma on_event_other (e : Wakatime.updater_event) (now : Z)
      (st : Wakatime.state) :
  match e with
  | Wakatime.update_downloaded _ => False
  | _ => True
  end ->
  fst (Wakatime.on_event e now st) = st.
Proof.
  destruct e; cbn; try reflexivity; [|contradiction].
  intros _. destruct (Wakatime.canPromptToUpdate st version now);
    reflexivity.
Qed.

Lemma on_events_other (es : list (Wakatime.updater_event * Z))
      (st : Wakatime.state) :
  Forall (fun e => match fst e with
                   | Wakatime.update_downloaded _ => False
                   | _ => True
                   end) es ->
  fst (Wakatime.on_events es st) = st.
Proof.
  revert st. induction es as [|[e now] es IH]; intros st H;
    [reflexivity|].
  inversion H as [|? ? He Hes]; subst. cbn [Wakatime.on_events].
  pose proof (on_event_other e now st He) as H1.
  destruct (Wakatime.on_event e now st) as [st1 calls].
  cbn [fst] in H1. subst st1.
  specialize (IH st Hes).
  destruct (Wakatime.on_events es st) as [st2 rest]. exact IH.
Qed.

(** Once the install of a downloaded version has been started, no other
    feed event changes what is remembered of it, and a second
    [update-downloaded] event for the same version within 604800 seconds
    does not start the install again. *)
Theorem install_started_once_a_week :
  forall (st : Wakatime.state) (v : string) (t1 t2 : Z)
         (es : list (Wakatime.updater_event * Z)),
    Wakatime.canPromptToUpdate st v t1 = true ->
    Forall (fun e => match fst e with
                     | Wakatime.update_downloaded _ => False
                     | _ => True
                     end) es ->
    (t2 <= t1 + 604800000)%Z ->
    snd (Wakatime.on_events
           ((Wakatime.update_downloaded v, t1)
              :: es ++ [(Wakatime.update_downloaded v, t2)])%list st)
    = ([Wakatime.QuitAndInstall]
         :: snd (Wakatime.on_events es (Wakatime.set_prompted v t1 st))
         ++ [[]])%list
    /\ fst (Wakatime.on_events
              ((Wakatime.update_downloaded v, t1)
                 :: es ++ [(Wakatime.update_downloaded v, t2)])%list st)
       = Wakatime.set_prompted v t1 st.
Proof.
  intros st v t1 t2 es Hc Hes Ht.
  cbn [Wakatime.on_events Wakatime.on_event]. rewrite Hc. cbn [negb].
  set (st1 := Wakatime.set_prompted v t1 st).
  assert (C2 : Wakatime.canPromptToUpdate st1 v t2 = false).
  { destruct (Wakatime.canPromptToUpdate st1 v t2) eqn:E; [|reflexivity].
    apply canPromptToUpdate_true in E. cbn in E.
    destruct E as [E|E]; [lia | congruence]. }
  assert (G : forall l s,
             fst (Wakatime.on_events l s) = st1 ->
             Wakatime.on_events
               (l ++ [(Wakatime.update_downloaded v, t2)])%list s
             = (st1, (snd (Wakatime.on_events l s) ++ [[]])%list)).
  { clear Hes. induction l as [|[e now] l IH]; intros s Hs.
    - cbn in Hs. subst s. cbn. rewrite C2. reflexivity.
    - cbn [app Wakatime.on_events] in *.
      destruct (Wakatime.on_event e now s) as [s1 calls].
      specialize (IH s1).
      destruct (Wakatime.on_events l s1) as [s2 rest].
      cbn [fst snd] in *. rewrite (IH Hs). reflexivity. }
  rewrite (G es st1 (on_events_other es st1 Hes)). split; reflexivity.
Qed.

(** Version 1.2.0 downloaded, announced again an hour later, and
    reported as downloaded again a day later. *)
Lemma install_started_once_a_week_witness :
  snd (Wakatime.on_events
         [(Wakatime.update_downloaded "1.2.0", 1700000000000%Z);
          (Wakatime.update_available "1.2.0", 1700003600000%Z);
          (Wakatime.update_downloaded "1.2.0", 1700086400000%Z)]
         Sample.fresh)
  = [[Wakatime.QuitAndInstall]; []; []].
Proof.
  refine (proj1 (install_started_once_a_week
                   Sample.fresh "1.2.0" 1700000000000%Z 1700086400000%Z
                   [(Wakatime.update_available "1.2.0", 1700003600000%Z)]
                   _ _ _)).
  - reflexivity.
  - repeat constructor.
  - lia.
Defined.

(* ------------------------------------------------------------------ *)
(** ** The time of the last heartbeat *)

(** As long as the clock does not run behind the time of the last
    heartbeat, [sendHeartbeat] never moves that time back, and never
    ahead of the clock. *)
Theorem last_heartbeat_time_monotone :
  forall (c : Wakatime.Collaborators) (w : Wakatime.world)
         (p : Wakatime.props) (st : Wakatime.state),
    (Wakatime.lastTime st <= Wakatime.seconds (Wakatime.now w))%Q ->
    (Wakatime.lastTime st
     <= Wakatime.lastTime (fst (Wakatime.sendHeartbeat c w p st)))%Q
    /\ (Wakatime.lastTime (fst (Wakatime.sendHeartbeat c w p st))
        <= Wakatime.seconds (Wakatime.now w))%Q.
Proof.
  intros c w p st H.
  destruct (sendHeartbeat_outcome c w p st)
    as [[_ E]|[_ [_ [_ [Hth _]]]]].
  - rewrite E. split; [apply Qle_refl | exact H].
  - unfold Wakatime.throttle in Hth. injection Hth as _ _ E.
    rewrite E. split; [exact H | apply Qle_refl].
Qed.

(** A first heartbeat on a fresh object. *)
Lemma last_heartbeat_time_monotone_witness :
  (Wakatime.lastTime Sample.fresh
   <= Wakatime.lastTime
        (fst (Wakatime.sendHeartbeat (Sample.dispatcher true) Sample.calm
                                     Sample.keystroke Sample.fresh)))%Q.
Proof.
  refine (proj1 (last_heartbeat_time_monotone
                   (Sample.dispatcher true) Sample.calm Sample.keystroke
                   Sample.fresh _)).
  vm_compute. discriminate.
Defined.

(* ------------------------------------------------------------------ *)
(** ** Identifiers made from names *)

Lemma replace_runs_alphabet (b : bool) (s : string) :
  Js.every (fun c => InstalledAppsLinux.alnum c || Ascii.eqb c "_")
           (InstalledAppsLinux.replace_runs b s) = true.
Proof.
  revert b. induction s as [|c s IH]; intros b; [reflexivity|].
  cbn [InstalledAppsLinux.replace_runs].
  destruct (InstalledAppsLinux.alnum c) eqn:E.
  - cbn [Js.every]. rewrite E, IH. reflexivity.
  - destruct b; [apply IH|]. cbn [Js.every]. rewrite IH. reflexivity.
Qed.

Lemma replace_runs_again (s : string) :
  (forall b, InstalledAppsLinux.replace_runs
               false (InstalledAppsLinux.replace_runs b s)
             = InstalledAppsLinux.replace_runs b s)
  /\ InstalledAppsLinux.replace_runs
       true (InstalledAppsLinux.replace_runs true s)
     = InstalledAppsLinux.replace_runs true s.
Proof.
  induction s as [|c s [IH1 IH2]]; [split; [intros b|]; reflexivity|].
  cbn [InstalledAppsLinux.replace_runs].
  destruct (InstalledAppsLinux.alnum c) eqn:E.
  - split; [intros b|]; cbn [InstalledAppsLinux.replace_runs];
      rewrite E, IH1; reflexivity.
  - split; [intros [|]|]; try exact (IH1 true); try exact IH2.
    cbn [InstalledAppsLinux.replace_runs].
    change (InstalledAppsLinux.alnum "_") with false.
    cbv iota. rewrite IH2. reflexivity.
Qed.

(** Lower-case letters, digits and the underscore are their own
    lower-case form. *)
Lemma to_lower_fixed (c : ascii) :
  InstalledAppsLinux.alnum c || Ascii.eqb c "_" = true ->
  InstalledAppsLinux.to_lower c = c.
Proof.
  destruct c as [[] [] [] [] [] [] [] []]; intros H;
    first [reflexivity | discriminate H].
Qed.

Lemma toLowerCase_fixed (s : string) :
  Js.every (fun c => InstalledAppsLinux.alnum c || Ascii.eqb c "_") s
  = true ->
  InstalledAppsLinux.toLowerCase s = s.
Proof.
  induction s as [|c s IH]; [reflexivity|].
  cbn [Js.every InstalledAppsLinux.toLowerCase]. intros H.
  apply andb_true_iff in H. destruct H as [H1 H2].
  rewrite (to_lower_fixed c H1), (IH H2). reflexivity.
Qed.

Lemma replace_runs_nonempty (s : string) :
  s <> "" -> InstalledAppsLinux.replace_runs false s <> "".
Proof.
  destruct s as [|c s]; [congruence|]. intros _.
  cbn [InstalledAppsLinux.replace_runs].
  destruct (InstalledAppsLinux.alnum c); discriminate.
Qed.

(** An identifier made by [sanitizeId] holds only lower-case letters,
    digits and underscores, is empty only for the empty name, and is its
    own identifier: sanitising twice changes nothing. *)
Theorem sanitizeId_normal_form :
  forall name : string,
    Js.every (fun c => InstalledAppsLinux.alnum c || Ascii.eqb c "_")
             (InstalledAppsLinux.sanitizeId name) = true
    /\ (InstalledAppsLinux.sanitizeId name = "" <-> name = "")
    /\ InstalledAppsLinux.sanitizeId (InstalledAppsLinux.sanitizeId name)
       = InstalledAppsLinux.sanitizeId name.
Proof.
  intros name. unfold InstalledAppsLinux.sanitizeId.
  split; [apply replace_runs_alphabet|]. split.
  - split.
    + intros H. destruct name as [|c name]; [reflexivity|].
      exfalso. revert H. apply replace_runs_nonempty. discriminate.
    + intros ->. reflexivity.
  - rewrite (toLowerCase_fixed _ (replace_runs_alphabet false _)).
    apply (proj1 (replace_runs_again _)).
Qed.

(* ------------------------------------------------------------------ *)
(** ** Splitting a command line *)

Section Tokens.
Import InstalledAppsLinux.

Lemma concat_cons (sep a b : string) (l : list string) :
  String.concat sep (a :: b :: l) = a ++ sep ++ String.concat sep (b :: l).
Proof. reflexivity. Qed.

Lemma fold_tokenize_app (a b : list ascii) (st : tokenizer) :
  fold_left tokenize_char (a ++ b)%list st
  = fold_left tokenize_char b (fold_left tokenize_char a st).
Proof. apply fold_left_app. Qed.

Lemma list_ascii_app (a b : string) :
  list_ascii_of_string (a ++ b)
  = (list_ascii_of_string a ++ list_ascii_of_string b)%list.
Proof.
  induction a as [|x a IH]; cbn; [reflexivity | now rewrite IH].
Qed.

(** Outside quotes, a plain word is added to the current token. *)
Lemma tokenize_plain (word : string) (ts : list string) (cur : string) :
  Js.every (fun c => negb (Js.is_space c) && negb (is_quote c)) word
  = true ->
  fold_left tokenize_char (list_ascii_of_string word)
            {| tokens := ts; current := cur; quoteChar := None |}
  = {| tokens := ts; current := cur ++ word; quoteChar := None |}.
Proof.
  revert cur. induction word as [|c word IH]; intros cur H.
  - cbn. rewrite append_empty. reflexivity.
  - cbn [Js.every] in H. apply andb_true_iff in H. destruct H as [Hc H].
    apply andb_true_iff in Hc. destruct Hc as [Hs Hq].
    apply negb_true_iff in Hs, Hq.
    cbn [list_ascii_of_string fold_left].
    unfold tokenize_char at 2.
    cbn [quoteChar tokens current]. rewrite Hq, Hs.
    rewrite (IH _ H), append_assoc. reflexivity.
Qed.

(** Inside quotes, everything but the closing quote is added to the
    current token. *)
Lemma tokenize_quoted (q : ascii) (text : string) (ts : list string)
      (cur : string) :
  Js.every (fun c => negb (Ascii.eqb c q)) text = true ->
  fold_left tokenize_char (list_ascii_of_string text)
            {| tokens := ts; current := cur; quoteChar := Some q |}
  = {| tokens := ts; current := cur ++ text; quoteChar := Some q |}.
Proof.
  revert cur. induction text as [|c text IH]; intros cur H.
  - cbn. rewrite append_empty. reflexivity.
  - cbn [Js.every] in H. apply andb_true_iff in H. destruct H as [Hc H].
    apply negb_true_iff in Hc.
    cbn [list_ascii_of_string fold_left].
    unfold tokenize_char at 2.
    cbn [quoteChar tokens current]. rewrite Hc.
    rewrite (IH _ H), append_assoc. reflexivity.
Qed.

(** No token of the loop is ever empty. *)
Lemma tokenize_char_nonempty (st : tokenizer) (c : ascii) :
  Forall (fun t => t <> "") (tokens st) ->
  Forall (fun t => t <> "") (tokens (tokenize_char st c)).
Proof.
  intros H. unfold tokenize_char.
  destruct (quoteChar st) as [q|].
  - destruct (Ascii.eqb c q); exact H.
  - destruct (is_quote c); [exact H|].
    destruct (Js.is_space c); [|exact H].
    destruct (Js.truthy_str (current st)) eqn:E; [|exact H].
    cbn [tokens]. apply Forall_app. split; [exact H|].
    constructor; [|constructor]. apply truthy_str_true. exact E.
Qed.

Lemma tokenizeExec_nonempty (command : string) :
  Forall (fun t => t <> "") (tokenizeExec command).
Proof.
  unfold tokenizeExec.
  assert (G : forall l st,
             Forall (fun t => t <> "") (tokens st) ->
             Forall (fun t => t <> "")
                    (tokens (fold_left tokenize_char l st))).
  { induction l as [|c l IH]; intros st H; [exact H|].
    cbn [fold_left]. apply IH, tokenize_char_nonempty, H. }
  specialize (G (list_ascii_of_string command)
                {| tokens := []; current := ""; quoteChar := None |}
                (Forall_nil _)).
  unfold tokenize_end.
  destruct (Js.truthy_str (current _)) eqn:E; [|exact G].
  apply Forall_app. split; [exact G|].
  constructor; [|constructor]. apply truthy_str_true. exact E.
Qed.

(** Plain words joined by single spaces, read after the tokens [ts]. *)
Lemma tokenize_words (words : list string) (ts : list string) :
  Forall (fun t => t <> "" /\ Js.every (fun c => negb (Js.is_space c)
                                             && negb (is_quote c)) t = true) words ->
  tokenize_end
    (fold_left tokenize_char
               (list_ascii_of_string (String.concat " " words))
               {| tokens := ts; current := ""; quoteChar := None |})
  = (ts ++ words)%list.
Proof.
  revert ts. induction words as [|word words IH]; intros ts H.
  - cbn. rewrite app_nil_r. reflexivity.
  - inversion H as [|? ? [Hne Hp] Hrest]; subst.
    destruct words as [|next words].
    + cbn [String.concat]. rewrite (tokenize_plain word ts "" Hp).
      unfold tokenize_end. cbn [current tokens append].
      apply truthy_str_true in Hne. rewrite Hne. reflexivity.
    + rewrite concat_cons, list_ascii_app, fold_tokenize_app.
      rewrite (tokenize_plain word ts "" Hp).
      cbn [append]. cbn [list_ascii_of_string fold_left].
      unfold tokenize_char at 2. cbn [quoteChar current tokens].
      change (is_quote " ") with false. change (Js.is_space " ") with true.
      cbv iota. apply truthy_str_true in Hne. rewrite Hne.
      rewrite (IH (ts ++ [word])%list Hrest).
      rewrite <- app_assoc. reflexivity.
Qed.
End Tokens.

(** [tokenizeExec] never gives an empty token; it gives back the words
    of a command made of plain words (no white space, no quote) joined by
    single spaces; and a text between two double quotes or two
    apostrophes, spaces included, is one token. *)
Theorem tokenizeExec_words :
  (forall command : string,
      Forall (fun t => t <> "") (InstalledAppsLinux.tokenizeExec command))
  /\ (forall words : list string,
         Forall (fun t =>
                   t <> ""
                   /\ Js.every (fun c => negb (Js.is_space c)
                                         && negb (InstalledAppsLinux.is_quote
                                                    c)) t
                      = true) words ->
         InstalledAppsLinux.tokenizeExec (String.concat " " words) = words)
  /\ (forall (q : ascii) (text : string),
         InstalledAppsLinux.is_quote q = true ->
         text <> "" ->
         Js.every (fun c => negb (Ascii.eqb c q)) text = true ->
         InstalledAppsLinux.tokenizeExec
           (String q text ++ String q EmptyString)
         = [text]).
Proof.
  split; [exact tokenizeExec_nonempty|]. split.
  - intros words H. unfold InstalledAppsLinux.tokenizeExec.
    exact (tokenize_words words [] H).
  - intros q text Hq Hne Ht. unfold InstalledAppsLinux.tokenizeExec.
    cbn [append list_ascii_of_string fold_left].
    unfold InstalledAppsLinux.tokenize_char at 2.
    cbn [InstalledAppsLinux.quoteChar InstalledAppsLinux.tokens
         InstalledAppsLinux.current]. rewrite Hq.
    rewrite list_ascii_app, fold_left_app.
    rewrite (tokenize_quoted q text [] "" Ht).
    cbn [list_ascii_of_string fold_left].
    unfold InstalledAppsLinux.tokenize_char.
    cbn [InstalledAppsLinux.quoteChar InstalledAppsLinux.tokens
         InstalledAppsLinux.current append].
    rewrite Ascii.eqb_refl. unfold InstalledAppsLinux.tokenize_end.
    cbn [InstalledAppsLinux.current InstalledAppsLinux.tokens].
    apply truthy_str_true in Hne. rewrite Hne. reflexivity.
Qed.

(** The [Exec] line of a browser, and a quoted path with a space. *)
Lemma tokenizeExec_words_witness :
  InstalledAppsLinux.tokenizeExec
    (String.concat " " ["env"; "MOZ_ENABLE_WAYLAND=1"; "/usr/bin/firefox"])
  = ["env"; "MOZ_ENABLE_WAYLAND=1"; "/usr/bin/firefox"].
Proof.
  apply (proj1 (proj2 tokenizeExec_words)).
  repeat constructor; discriminate.
Defined.

(* ------------------------------------------------------------------ *)
(** ** Reading a desktop file *)

Section Trim.
Variable f : ascii -> bool.

Lemma trim_start_every (s : string) :
  Js.every f s = true -> Js.every f (LinuxWindowManager.trim_start s) = true.
Proof.
  induction s as [|c s IH]; intros H; [reflexivity|].
  cbn [LinuxWindowManager.trim_start].
  destruct (Js.is_space c); [|exact H].
  cbn [Js.every] in H. apply andb_true_iff in H. apply IH. tauto.
Qed.

Lemma trim_end_every (s : string) :
  Js.every f s = true -> Js.every f (LinuxWindowManager.trim_end s) = true.
Proof.
  induction s as [|c s IH]; intros H; [reflexivity|].
  cbn [Js.every] in H. apply andb_true_iff in H. destruct H as [H1 H2].
  cbn [LinuxWindowManager.trim_end].
  specialize (IH H2).
  destruct (LinuxWindowManager.trim_end s) as [|d r].
  - destruct (Js.is_space c); [reflexivity|].
    cbn [Js.every]. rewrite H1. reflexivity.
  - cbn [Js.every] in *. rewrite H1. exact IH.
Qed.

Lemma trim_every (s : string) :
  Js.every f s = true -> Js.every f (LinuxWindowManager.trim s) = true.
Proof.
  intros H. unfold LinuxWindowManager.trim.
  apply trim_end_every, trim_start_every, H.
Qed.
End Trim.

Lemma cut_at_before (c : ascii) (line before after : string) :
  InstalledAppsLinux.cut_at c line = Some (before, after) ->
  Js.every (fun x => negb (Ascii.eqb x c)) before = true
  /\ line = before ++ String c after.
Proof.
  revert before. induction line as [|a line IH]; intros before H;
    [discriminate|].
  cbn [InstalledAppsLinux.cut_at] in H.
  destruct (Ascii.eqb_spec a c) as [E|E].
  - injection H as <- <-. subst a. split; reflexivity.
  - destruct (InstalledAppsLinux.cut_at c line) as [[b' a']|];
      [|discriminate].
    injection H as <- <-. destruct (IH b' eq_refl) as [H1 H2].
    split.
    + cbn [Js.every]. rewrite H1.
      apply Ascii.eqb_neq in E. rewrite E. reflexivity.
    + cbn [append]. rewrite <- H2. reflexivity.
Qed.

Section Entries.
Import InstalledAppsLinux.

Lemma set_keys {V : Type} (k : string) (v : V) (m : JsMap.t V) :
  JsMap.keys (JsMap.set k v m)
  = if JsMap.has k m then JsMap.keys m else (JsMap.keys m ++ [k])%list.
Proof.
  induction m as [|[k' v'] m IH]; [reflexivity|].
  cbn [JsMap.set JsMap.has existsb fst].
  destruct (String.eqb_spec k' k) as [E|E]; cbn [orb].
  - reflexivity.
  - fold (JsMap.has k m). cbn [JsMap.keys map fst].
    fold (JsMap.keys (JsMap.set k v m)). rewrite IH.
    destruct (JsMap.has k m); reflexivity.
Qed.

Lemma has_keys {V : Type} (k : string) (m : JsMap.t V) :
  JsMap.has k m = true <-> In k (JsMap.keys m).
Proof.
  unfold JsMap.has, JsMap.keys. rewrite existsb_exists, in_map_iff.
  split.
  - intros [kv [Hin E]]. apply String.eqb_eq in E. exists kv. tauto.
  - intros [kv [E Hin]]. exists kv. split; [exact Hin|].
    apply String.eqb_eq. exact E.
Qed.

(** What the loop keeps true of the keys read so far. *)
Lemma parse_line_keys (st : parser) (rawLine : string) :
  (NoDup (JsMap.keys (data st))
   /\ Forall (fun k => k <> "" /\ k <> "__proto__"
                       /\ Js.every (fun x => negb (Ascii.eqb x "=")) k
                          = true)
             (JsMap.keys (data st))) ->
  (NoDup (JsMap.keys (data (parse_line st rawLine)))
   /\ Forall (fun k => k <> "" /\ k <> "__proto__"
                       /\ Js.every (fun x => negb (Ascii.eqb x "=")) k
                          = true)
             (JsMap.keys (data (parse_line st rawLine)))).
Proof.
  intros [Hn Hf]. unfold parse_line.
  destruct (negb _ || _); [split; assumption|].
  destruct (Js.starts_with "[" _); [split; assumption|].
  destruct (negb (withinDesktopEntry st)); [split; assumption|].
  destruct (cut_at "=" _) as [[before after]|] eqn:C; [|split; assumption].
  destruct (Js.truthy_str _) eqn:T; [|split; assumption].
  cbn [data]. unfold assign.
  destruct (String.eqb_spec (LinuxWindowManager.trim before) "__proto__")
    as [E|E]; [split; assumption|].
  rewrite set_keys.
  destruct (JsMap.has _ (data st)) eqn:H; [split; assumption|].
  split.
  - apply NoDup_app; [exact Hn | constructor; [intros [] | constructor] |].
    intros k Hin [<-|[]]. apply has_keys in Hin. congruence.
  - apply Forall_app. split; [exact Hf|]. constructor; [|constructor].
    split; [apply truthy_str_true; exact T|]. split; [exact E|].
    apply trim_every. exact (proj1 (cut_at_before _ _ _ _ C)).
Qed.

(** A line that is not the header of the group leaves a parser that is
    outside the group as it is. *)
Lemma parse_line_outside (st : parser) (rawLine : string) :
  withinDesktopEntry st = false ->
  LinuxWindowManager.trim rawLine <> "[Desktop Entry]" ->
  parse_line st rawLine = st.
Proof.
  intros Hw Hl. unfold parse_line.
  destruct (negb _ || _); [reflexivity|].
  destruct (Js.starts_with "[" _).
  - apply String.eqb_neq in Hl. rewrite Hl. destruct st; cbn in *.
    subst. reflexivity.
  - rewrite Hw. reflexivity.
Qed.
End Entries.

(** A desktop file without a line that reads [[Desktop Entry]] gives no
    entry at all, whatever else it holds.  When [parseDesktopEntry]
    gives an entry, the entry is not empty, no key occurs twice, and a
    key is never empty, never [__proto__] and never holds an equals
    sign. *)
Theorem parseDesktopEntry_keys :
  (forall content : string,
      Forall (fun line => LinuxWindowManager.trim line <> "[Desktop Entry]")
             (InstalledAppsLinux.split_lines content) ->
      InstalledAppsLinux.parseDesktopEntry content = None)
  /\ (forall (content : string) (entry : InstalledAppsLinux.DesktopEntry),
         InstalledAppsLinux.parseDesktopEntry content = Some entry ->
         entry <> []
         /\ NoDup (JsMap.keys entry)
         /\ Forall (fun k => k <> "" /\ k <> "__proto__"
                             /\ Js.every (fun x => negb (Ascii.eqb x "=")) k
                                = true)
                   (JsMap.keys entry)).
Proof.
  split.
  - intros content H. unfold InstalledAppsLinux.parseDesktopEntry.
    assert (G : forall lines st,
               InstalledAppsLinux.withinDesktopEntry st = false ->
               Forall (fun line => LinuxWindowManager.trim line
                                   <> "[Desktop Entry]") lines ->
               fold_left InstalledAppsLinux.parse_line lines st = st).
    { induction lines as [|l lines IH]; intros st Hw Hl; [reflexivity|].
      inversion Hl; subst. cbn [fold_left].
      rewrite parse_line_outside by assumption. apply IH; assumption. }
    rewrite G by (try assumption; reflexivity). reflexivity.
  - intros content entry. unfold InstalledAppsLinux.parseDesktopEntry.
    assert (G : forall lines st,
               (NoDup (JsMap.keys (InstalledAppsLinux.data st))
                /\ Forall (fun k => k <> "" /\ k <> "__proto__"
                                    /\ Js.every
                                         (fun x => negb (Ascii.eqb x "=")) k
                                       = true)
                          (JsMap.keys (InstalledAppsLinux.data st))) ->
               NoDup (JsMap.keys
                        (InstalledAppsLinux.data
                           (fold_left InstalledAppsLinux.parse_line lines
                                      st)))
               /\ Forall (fun k => k <> "" /\ k <> "__proto__"
                                   /\ Js.every
                                        (fun x => negb (Ascii.eqb x "=")) k
                                      = true)
                         (JsMap.keys
                            (InstalledAppsLinux.data
                               (fold_left InstalledAppsLinux.parse_line
                                          lines st)))).
    { induction lines as [|l lines IH]; intros st H; [exact H|].
      cbn [fold_left]. apply IH, parse_line_keys, H. }
    specialize (G (InstalledAppsLinux.split_lines content)
                  {| InstalledAppsLinux.withinDesktopEntry := false;
                     InstalledAppsLinux.data := [] |}
                  (conj (NoDup_nil _) (Forall_nil _))).
    destruct (JsMap.keys _) eqn:K; [discriminate|].
    intros [= <-]. rewrite K. split; [|exact G].
    intros E. rewrite E in K. discriminate K.
Qed.

(** A file whose only group is an action group. *)
Lemma parseDesktopEntry_keys_witness :
  InstalledAppsLinux.parseDesktopEntry
    ("[Desktop Action new-window]" ++ Sample.newline ++ "Name=New Window"
       ++ Sample.newline ++ "Exec=firefox --new-window")
  = None.
Proof.
  apply (proj1 parseDesktopEntry_keys).
  replace (InstalledAppsLinux.split_lines
             ("[Desktop Action new-window]" ++ Sample.newline
                ++ "Name=New Window" ++ Sample.newline
                ++ "Exec=firefox --new-window"))
    with ["[Desktop Action new-window]"; "Name=New Window";
          "Exec=firefox --new-window"]
    by (vm_compute; reflexivity).
  constructor; [vm_compute; discriminate|].
  constructor; [vm_compute; discriminate|].
  constructor; [vm_compute; discriminate|].
  constructor.
Defined.

(* ------------------------------------------------------------------ *)
(** ** From a desktop file to an app *)

Lemma strip_placeholders_none (b : bool) (s : string) :
  Js.every (fun x => negb (Ascii.eqb x "%"))
           (InstalledAppsLinux.strip_placeholders b s) = true.
Proof.
  revert b. induction s as [|c s IH]; intros b; [reflexivity|].
  cbn [InstalledAppsLinux.strip_placeholders].
  destruct (Js.is_line_terminator c) eqn:L.
  - cbn [Js.every]. rewrite IH, andb_true_r.
    destruct c as [[] [] [] [] [] [] [] []];
      first [reflexivity | discriminate L].
  - destruct b; [apply IH|].
    destruct (Ascii.eqb c "%") eqn:E; [apply IH|].
    cbn [Js.every]. rewrite E, IH. reflexivity.
Qed.

Lemma every_append_one (f : ascii -> bool) (s : string) (c : ascii) :
  Js.every f s = true -> f c = true ->
  Js.every f (s ++ String c EmptyString) = true.
Proof.
  intros H1 H2. rewrite every_app, H1. cbn. rewrite H2. reflexivity.
Qed.

(** The characters of the tokens are characters of the command. *)
Lemma tokenizeExec_every (f : ascii -> bool) (command : string) :
  Js.every f command = true ->
  Forall (fun t => Js.every f t = true)
         (InstalledAppsLinux.tokenizeExec command).
Proof.
  intros H. unfold InstalledAppsLinux.tokenizeExec.
  assert (G : forall s st,
             Js.every f s = true ->
             Forall (fun t => Js.every f t = true)
                    (InstalledAppsLinux.tokens st) ->
             Js.every f (InstalledAppsLinux.current st) = true ->
             Forall (fun t => Js.every f t = true)
                    (InstalledAppsLinux.tokens
                       (fold_left InstalledAppsLinux.tokenize_char
                                  (list_ascii_of_string s) st))
             /\ Js.every f (InstalledAppsLinux.current
                              (fold_left InstalledAppsLinux.tokenize_char
                                         (list_ascii_of_string s) st))
                = true).
  { induction s as [|c s IH]; intros st Hs Ht Hc; [split; assumption|].
    cbn [Js.every] in Hs. apply andb_true_iff in Hs.
    destruct Hs as [Hf Hs].
    cbn [list_ascii_of_string fold_left]. apply (IH _ Hs);
      unfold InstalledAppsLinux.tokenize_char;
      destruct (InstalledAppsLinux.quoteChar st) as [q|];
      repeat match goal with
             | |- context [if ?b then _ else _] => destruct b
             end;
      cbn [InstalledAppsLinux.tokens InstalledAppsLinux.current];
      try assumption; try reflexivity;
      try (apply every_append_one; assumption).
    apply Forall_app. split; [assumption|]. constructor; [assumption|].
    constructor. }
  destruct (G command
              {| InstalledAppsLinux.tokens := [];
                 InstalledAppsLinux.current := "";
                 InstalledAppsLinux.quoteChar := None |}
              H (Forall_nil _) eq_refl) as [G1 G2].
  unfold InstalledAppsLinux.tokenize_end.
  destruct (Js.truthy_str _); [|exact G1].
  apply Forall_app. split; [exact G1|]. constructor; [exact G2|].
  constructor.
Qed.

Lemma resolveExecCommand_found :
  forall (resolveExecutablePath : string -> option string)
         (execValue command execName : string),
    InstalledAppsLinux.resolveExecCommand resolveExecutablePath execValue
    = Some (command, execName) ->
    command <> ""
    /\ execName = NodePath.name command
    /\ exists word,
        resolveExecutablePath word = Some command
        /\ word <> "" /\ word <> "env"
        /\ Js.includes "=" word = false
        /\ Js.every (fun x => negb (Ascii.eqb x "%")) word = true.
Proof.
  intros resolve execValue command execName.
  unfold InstalledAppsLinux.resolveExecCommand.
  set (tokens := InstalledAppsLinux.tokenizeExec _).
  destruct (find _ tokens) as [word|] eqn:F; [|discriminate].
  apply find_some in F. destruct F as [Hin Hp].
  apply andb_true_iff in Hp. destruct Hp as [Heq Henv].
  apply negb_true_iff in Heq, Henv. rewrite Henv.
  destruct (resolve word) as [resolved|] eqn:R; [|discriminate].
  destruct (Js.truthy_str resolved) eqn:T; [|discriminate].
  intros [= <- <-]. split; [apply truthy_str_true; exact T|].
  split; [reflexivity|]. exists word. split; [exact R|].
  assert (Hne : Forall (fun t => t <> "") tokens)
    by apply tokenizeExec_nonempty.
  assert (Hpc : Forall (fun t => Js.every (fun x => negb (Ascii.eqb x "%"))
                                          t = true) tokens).
  { apply tokenizeExec_every, trim_every, strip_placeholders_none. }
  rewrite Forall_forall in Hne, Hpc.
  split; [exact (Hne _ Hin)|]. split; [apply String.eqb_neq; exact Henv|].
  split; [exact Heq | exact (Hpc _ Hin)].
Qed.

(** [find] gives the first element that passes the test. *)
Lemma find_first_iff {A : Type} (p : A -> bool) (l : list A) (x : A) :
  find p l = Some x
  <-> exists before after,
      l = (before ++ x :: after)%list
      /\ Forall (fun y => p y = false) before
      /\ p x = true.
Proof.
  induction l as [|y l IH]; cbn [find].
  - split; [discriminate|].
    intros [before [after [E _]]]. destruct before; discriminate E.
  - destruct (p y) eqn:Py.
    + split.
      * intros [= ->]. exists [], l. repeat split; [constructor | exact Py].
      * intros [before [after [E [F Px]]]].
        destruct before as [|z before]; cbn [app] in E.
        -- congruence.
        -- injection E as -> _. inversion F; congruence.
    + rewrite IH. split.
      * intros [before [after [-> [F Px]]]].
        exists (y :: before), after.
        repeat split; [constructor; assumption | exact Px].
      * intros [before [after [E [F Px]]]].
        destruct before as [|z before]; cbn [app] in E.
        -- congruence.
        -- injection E as -> ->. inversion F; subst.
           exists before, after. repeat split; assumption.
Qed.

(** What is left after the field codes are cut off was there before. *)
Lemma strip_placeholders_every (f : ascii -> bool) (b : bool) (s : string) :
  Js.every f s = true ->
  Js.every f (InstalledAppsLinux.strip_placeholders b s) = true.
Proof.
  revert b. induction s as [|c s IH]; intros b H; [reflexivity|].
  cbn [Js.every] in H. apply andb_true_iff in H. destruct H as [H1 H2].
  cbn [InstalledAppsLinux.strip_placeholders].
  destruct (Js.is_line_terminator c);
    [cbn [Js.every]; rewrite H1; exact (IH _ H2)|].
  destruct b; [exact (IH _ H2)|].
  destruct (Ascii.eqb c "%"); [exact (IH _ H2)|].
  cbn [Js.every]. rewrite H1. exact (IH _ H2).
Qed.

(** [resolveExecCommand] finds a command exactly when the [Exec] value,
    its field codes cut off and split into words, has a first word that
    is neither an assignment nor [env], and that word resolves to an
    executable; the command is then that executable and the name of the
    executable is its base name.  Every word of the split is not empty,
    holds no percent sign and is made of characters of the [Exec]
    value. *)
Theorem resolveExecCommand_word :
  forall (resolveExecutablePath : string -> option string)
         (execValue command execName : string),
    (InstalledAppsLinux.resolveExecCommand resolveExecutablePath execValue
     = Some (command, execName)
     <-> exists before word after,
         InstalledAppsLinux.tokenizeExec
           (LinuxWindowManager.trim
              (InstalledAppsLinux.strip_placeholders false execValue))
         = (before ++ word :: after)%list
         /\ Forall (fun t => Js.includes "=" t = true \/ t = "env") before
         /\ Js.includes "=" word = false
         /\ word <> "env"
         /\ resolveExecutablePath word = Some command
         /\ command <> ""
         /\ execName = NodePath.name command)
    /\ forall word,
        In word (InstalledAppsLinux.tokenizeExec
                   (LinuxWindowManager.trim
                      (InstalledAppsLinux.strip_placeholders
                         false execValue))) ->
        word <> ""
        /\ Js.every (fun x => negb (Ascii.eqb x "%")) word = true
        /\ forall f : ascii -> bool,
            Js.every f execValue = true -> Js.every f word = true.
Proof.
  intros resolve execValue command execName.
  unfold InstalledAppsLinux.resolveExecCommand.
  set (tokens := InstalledAppsLinux.tokenizeExec _).
  assert (P : forall t,
             negb (Js.includes "=" t) && negb (String.eqb t "env") = false
             <-> Js.includes "=" t = true \/ t = "env").
  { intros t. rewrite andb_false_iff, !negb_false_iff, String.eqb_eq.
    reflexivity. }
  split; [split|].
  - destruct (find _ tokens) as [word|] eqn:F; [|discriminate].
    apply find_first_iff in F. destruct F as [before [after [E [Fb Hp]]]].
    apply andb_true_iff in Hp. destruct Hp as [Heq Henv].
    apply negb_true_iff in Heq, Henv. rewrite Henv.
    destruct (resolve word) as [resolved|] eqn:R; [|discriminate].
    destruct (Js.truthy_str resolved) eqn:T; [|discriminate].
    intros [= <- <-]. exists before, word, after.
    split; [exact E|]. split.
    { apply (Forall_impl _ (fun t H => proj1 (P t) H)). exact Fb. }
    split; [exact Heq|]. split; [apply String.eqb_neq; exact Henv|].
    split; [exact R|]. split; [apply truthy_str_true; exact T|].
    reflexivity.
  - intros [before [word [after [E [Fb [Heq [Henv [R [T ->]]]]]]]]].
    assert (F : find (fun token => negb (Js.includes "=" token)
                                   && negb (String.eqb token "env")) tokens
                = Some word).
    { apply find_first_iff. exists before, after. split; [exact E|]. split.
      - apply (Forall_impl _ (fun t H => proj2 (P t) H)). exact Fb.
      - apply String.eqb_neq in Henv. rewrite Heq, Henv. reflexivity. }
    rewrite F. apply String.eqb_neq in Henv. rewrite Henv, R.
    apply truthy_str_true in T. rewrite T. reflexivity.
  - intros word Hin.
    pose proof (tokenizeExec_nonempty
                  (LinuxWindowManager.trim
                     (InstalledAppsLinux.strip_placeholders
                        false execValue))) as Hne.
    rewrite Forall_forall in Hne. split; [exact (Hne _ Hin)|].
    assert (G : forall f : ascii -> bool,
               Js.every f (LinuxWindowManager.trim
                             (InstalledAppsLinux.strip_placeholders
                                false execValue)) = true ->
               Js.every f word = true).
    { intros f H. pose proof (tokenizeExec_every f _ H) as Hf.
      rewrite Forall_forall in Hf. exact (Hf _ Hin). }
    split.
    + apply G, trim_every, strip_placeholders_none.
    + intros f H. apply G, trim_every, strip_placeholders_every, H.
Qed.

(** The [Exec] line of a browser started through [env]. *)
Lemma resolveExecCommand_word_witness :
  exists before word after,
    InstalledAppsLinux.tokenizeExec
      (LinuxWindowManager.trim
         (InstalledAppsLinux.strip_placeholders
            false "env MOZ_ENABLE_WAYLAND=1 firefox %u"))
    = (before ++ word :: after)%list
    /\ Forall (fun t => Js.includes "=" t = true \/ t = "env") before
    /\ Js.includes "=" word = false
    /\ word <> "env"
    /\ (fun w => if String.eqb w "firefox"
                 then Some "/usr/lib/firefox/firefox" else None) word
       = Some "/usr/lib/firefox/firefox"
    /\ "/usr/lib/firefox/firefox" <> ""
    /\ "firefox" = NodePath.name "/usr/lib/firefox/firefox".
Proof.
  apply (proj1 (proj1 (resolveExecCommand_word
                         (fun w => if String.eqb w "firefox"
                                   then Some "/usr/lib/firefox/firefox"
                                   else None)
                         "env MOZ_ENABLE_WAYLAND=1 firefox %u"
                         "/usr/lib/firefox/firefox" "firefox"))).
  vm_compute. reflexivity.
Defined.

Lemma getDesktopName_nonempty (entry : InstalledAppsLinux.DesktopEntry)
      (name : string) :
  InstalledAppsLinux.getDesktopName entry = Some name -> name <> "".
Proof.
  unfold InstalledAppsLinux.getDesktopName.
  destruct (JsMap.get "Name" entry) as [n|] eqn:G;
    cbn [LinuxWindowManager.truthy_opt].
  - destruct (Js.truthy_str n) eqn:T.
    + intros [= <-]. apply truthy_str_true. exact T.
    + intros H. apply find_some in H. apply truthy_str_true. tauto.
  - intros H. apply find_some in H. apply truthy_str_true. tauto.
Qed.

(** An app that [buildAppData] makes of a desktop file comes from an
    entry of type [Application] that is neither hidden nor kept from
    display; its name, its path and the name of its executable are not
    empty, the last being the base name of the path; its version is
    unknown. *)
Theorem buildAppData_shown_application :
  forall (allApps_find : string -> option InstalledAppsLinux.LinuxAppMetadata)
         (resolveExecutablePath : string -> option string)
         (resolveIcon : option string -> option string)
         (content : string) (app : InstalledAppsLinux.InstalledApp),
    InstalledAppsLinux.buildAppData allApps_find resolveExecutablePath
                                    resolveIcon content
    = Some app ->
    (exists entry,
        InstalledAppsLinux.parseDesktopEntry content = Some entry
        /\ JsMap.get "Type" entry = Some "Application"
        /\ JsMap.get "NoDisplay" entry <> Some "true"
        /\ JsMap.get "Hidden" entry <> Some "true"
        /\ InstalledAppsLinux.getDesktopName entry
           = Some (InstalledAppsLinux.app_name app))
    /\ InstalledAppsLinux.app_name app <> ""
    /\ InstalledAppsLinux.app_path app <> ""
    /\ InstalledAppsLinux.app_execName app <> ""
    /\ InstalledAppsLinux.app_execName app
       = NodePath.name (InstalledAppsLinux.app_path app)
    /\ InstalledAppsLinux.app_version app = None.
Proof.
  intros find_app resolve icon content app.
  unfold InstalledAppsLinux.buildAppData.
  destruct (InstalledAppsLinux.parseDesktopEntry content) as [entry|];
    [|discriminate].
  destruct (JsMap.get "Type" entry) as [t|] eqn:Ty; cbn [negb];
    [|discriminate].
  destruct (String.eqb_spec t "Application") as [->|]; cbn [negb];
    [|discriminate].
  destruct (match JsMap.get "NoDisplay" entry with
            | Some v => String.eqb v "true"
            | None => false
            end) eqn:N; cbn [orb]; [discriminate|].
  destruct (match JsMap.get "Hidden" entry with
            | Some v => String.eqb v "true"
            | None => false
            end) eqn:H; [discriminate|].
  destruct (InstalledAppsLinux.getDesktopName entry) as [name|] eqn:D;
    [|discriminate].
  destruct (LinuxWindowManager.or_else _ _) as [execCommand|];
    [|discriminate].
  destruct (Js.truthy_str execCommand); cbn [negb]; [|discriminate].
  destruct (InstalledAppsLinux.resolveExecCommand resolve execCommand)
    as [[command execName]|] eqn:R; [|discriminate].
  destruct (Js.truthy_str command) eqn:Tc; cbn [negb orb]; [|discriminate].
  destruct (Js.truthy_str execName) eqn:Te; cbn [negb]; [|discriminate].
  intros [= <-]. cbn.
  destruct (resolveExecCommand_found _ _ _ _ R) as [_ [E _]].
  split.
  - exists entry. split; [reflexivity|]. split; [exact Ty|].
    split; [|split].
    + intros E'. rewrite E' in N. discriminate N.
    + intros E'. rewrite E' in H. discriminate H.
    + exact D.
  - repeat split; try (apply truthy_str_true; assumption);
      try assumption.
    exact (getDesktopName_nonempty _ _ D).
Qed.

(** The desktop file of a browser. *)
Lemma buildAppData_shown_application_witness :
  InstalledAppsLinux.app_execName
    {| InstalledAppsLinux.app_path := "/usr/lib/firefox/firefox";
       InstalledAppsLinux.app_icon := None;
       InstalledAppsLinux.app_name := "Firefox Web Browser";
       InstalledAppsLinux.app_bundleId := None;
       InstalledAppsLinux.app_id := "firefox";
       InstalledAppsLinux.app_isBrowser := true;
       InstalledAppsLinux.app_isDefaultEnabled := false;
       InstalledAppsLinux.app_isElectronApp := false;
       InstalledAppsLinux.app_version := None;
       InstalledAppsLinux.app_execName := "firefox" |}
  = NodePath.name "/usr/lib/firefox/firefox".
Proof.
  refine (proj1 (proj2 (proj2 (proj2 (proj2
            (buildAppData_shown_application
               (fun _ => None)
               (fun w => if String.eqb w "firefox"
                         then Some "/usr/lib/firefox/firefox" else None)
               (fun _ => None)
               ("[Desktop Entry]" ++ Sample.newline
                  ++ "Type=Application" ++ Sample.newline
                  ++ "Name=Firefox Web Browser" ++ Sample.newline
                  ++ "Exec=firefox %u" ++ Sample.newline
                  ++ "Icon=firefox")
               _ _)))))).
  vm_compute. reflexivity.
Defined.

(* ------------------------------------------------------------------ *)
(** ** Browsers under the polling window manager *)

Lemma buildWindowFromId_url (resolveProcessPath : Z -> option string)
      (xprop : LinuxWindowManager.xprop_outcome) (windowId : string)
      (pidFromWmctrl : option Z) (fallbackTitle : option string)
      (w : DesktopWindow.t) :
  LinuxWindowManager.buildWindowFromId resolveProcessPath xprop windowId
                                       pidFromWmctrl fallbackTitle
  = Some w ->
  DesktopWindow.url w = None /\ DesktopWindow.id w = windowId.
Proof.
  assert (C : LinuxWindowManager.buildWindowFromId_catch
                resolveProcessPath windowId pidFromWmctrl fallbackTitle
              = Some w ->
              DesktopWindow.url w = None /\ DesktopWindow.id w = windowId).
  { unfold LinuxWindowManager.buildWindowFromId_catch.
    destruct (LinuxWindowManager.truthy_pid pidFromWmctrl); [|discriminate].
    destruct (negb _); [discriminate|].
    intros [= <-]. split; reflexivity. }
  unfold LinuxWindowManager.buildWindowFromId.
  destruct xprop as [stdout|]; [|exact C].
  destruct (LinuxWindowManager.buildWindowFromId_try _ _ _ _ _)
    as [w'|] eqn:T; [|exact C].
  intros [= ->]. revert T.
  unfold LinuxWindowManager.buildWindowFromId_try.
  destruct (LinuxWindowManager.truthy_opt _);
    [destruct (LinuxWindowManager.parse_name _); [|discriminate]|];
    intros [= <-]; split; reflexivity.
Qed.

(** A window built by the polling window manager carries the id that was
    asked for and never an address.  So for an app that is a browser the
    classifier gives no signal, and a key pressed in such a window calls
    nothing and leaves the state as it is. *)
Theorem polled_browser_gives_no_signal :
  forall (resolveProcessPath : Z -> option string)
         (xprop : LinuxWindowManager.xprop_outcome) (windowId : string)
         (pidFromWmctrl : option Z) (fallbackTitle : option string)
         (window : DesktopWindow.t),
    LinuxWindowManager.buildWindowFromId resolveProcessPath xprop windowId
                                         pidFromWmctrl fallbackTitle
    = Some window ->
    DesktopWindow.url window = None
    /\ DesktopWindow.id window = windowId
    /\ forall (mc : MonitoredApp.Collaborators) (app : AppData.t),
        AppData.isBrowser app = true ->
        MonitoredApp.heartbeatData mc window (Some app) = Returns None
        /\ forall (wc : Wakatime.Collaborators)
                  (getApp : string -> option AppData.t)
                  (state_ : Watcher.key_state) (w : Wakatime.world)
                  (st : Wakatime.state),
            (forall p, DesktopWindowInfo.path (DesktopWindow.info window)
                       = Some p -> getApp p = Some app) ->
            Watcher.globalKeyListener mc wc getApp (Some window) state_ w st
            = (st, []).
Proof.
  intros resolve xprop windowId pidw fb window H.
  destruct (buildWindowFromId_url _ _ _ _ _ _ H) as [Hu Hi].
  split; [exact Hu|]. split; [exact Hi|].
  intros mc app Hb.
  assert (Hd : MonitoredApp.heartbeatData mc window (Some app)
               = Returns None).
  { unfold MonitoredApp.heartbeatData, MonitoredApp.entity.
    cbn [MonitoredApp.is_browser]. rewrite Hb, Hu. reflexivity. }
  split; [exact Hd|].
  intros wc getApp state_ w st Hg. unfold Watcher.globalKeyListener.
  destruct state_; [|reflexivity].
  destruct (DesktopWindowInfo.path (DesktopWindow.info window)) as [p|];
    [|reflexivity].
  destruct (Js.truthy_str p); cbn [negb]; [|reflexivity].
  rewrite (Hg p eq_refl), Hd. reflexivity.
Qed.

(** The browser window of the samples. *)
Lemma polled_browser_gives_no_signal_witness :
  MonitoredApp.heartbeatData
    Sample.classifier
    {| DesktopWindow.id := "0x3a00007";
       DesktopWindow.title := "Mozilla Firefox";
       DesktopWindow.url := None;
       DesktopWindow.info :=
         {| DesktopWindowInfo.processId := Some 4242%Z;
            DesktopWindowInfo.path := Some "/usr/lib/firefox/firefox-bin";
            DesktopWindowInfo.name := "firefox-bin";
            DesktopWindowInfo.execName := Some "firefox-bin" |} |}
    (Some (Sample.app "firefox" true))
  = Returns None.
Proof.
  refine (proj1 (proj2 (proj2
            (polled_browser_gives_no_signal
               (fun _ => Some "/usr/lib/firefox/firefox-bin")
               (LinuxWindowManager.Stdout Sample.xprop_firefox)
               "0x3a00007" None None _ _))
            Sample.classifier (Sample.app "firefox" true) eq_refl)).
  vm_compute. reflexivity.
Defined.

(* ------------------------------------------------------------------ *)
(** ** The metadata and the id of an app *)

Lemma get_values {V : Type} (k : string) (m : JsMap.t V) (v : V) :
  JsMap.get k m = Some v -> In v (JsMap.values m).
Proof.
  induction m as [|[k' v'] m IH]; [discriminate|].
  cbn [JsMap.get JsMap.values map snd].
  destruct (String.eqb k' k).
  - intros [= ->]. left. reflexivity.
  - intros H. right. apply IH. exact H.
Qed.

(** The ids of the built-in table are not empty and are written in the
    alphabet of [sanitizeId]. *)
Lemma LINUX_APP_METADATA_ids (m : InstalledAppsLinux.LinuxAppMetadata) :
  In m (JsMap.values InstalledAppsLinux.LINUX_APP_METADATA) ->
  exists i,
    InstalledAppsLinux.id m = Some i
    /\ i <> ""
    /\ Js.every (fun c => InstalledAppsLinux.alnum c || Ascii.eqb c "_") i
       = true.
Proof.
  assert (F : forallb
                (fun m =>
                   match InstalledAppsLinux.id m with
                   | Some i =>
                       Js.truthy_str i
                       && Js.every (fun c => InstalledAppsLinux.alnum c
                                             || Ascii.eqb c "_") i
                   | None => false
                   end)
                (JsMap.values InstalledAppsLinux.LINUX_APP_METADATA)
              = true) by (vm_compute; reflexivity).
  intros H. rewrite forallb_forall in F. specialize (F m H).
  destruct (InstalledAppsLinux.id m) as [i|]; [|discriminate].
  apply andb_true_iff in F. destruct F as [F1 F2].
  exists i. split; [reflexivity|]. split; [|exact F2].
  apply truthy_str_true. exact F1.
Qed.

Lemma to_lower_again (c : ascii) :
  InstalledAppsLinux.to_lower (InstalledAppsLinux.to_lower c)
  = InstalledAppsLinux.to_lower c.
Proof. destruct c as [[] [] [] [] [] [] [] []]; reflexivity. Qed.

Lemma toLowerCase_again (s : string) :
  InstalledAppsLinux.toLowerCase (InstalledAppsLinux.toLowerCase s)
  = InstalledAppsLinux.toLowerCase s.
Proof.
  induction s as [|c s IH]; [reflexivity|].
  cbn [InstalledAppsLinux.toLowerCase]. rewrite to_lower_again, IH.
  reflexivity.
Qed.

(** The metadata of an executable does not depend on the case of the
    letters of its name: the name in lower case has the metadata of the
    name, and two names that agree in lower case have the same. *)
Theorem getMetadataForExec_ignores_case :
  forall (allApps_find : string -> option InstalledAppsLinux.LinuxAppMetadata)
         (execName : string),
    InstalledAppsLinux.getMetadataForExec
      allApps_find (InstalledAppsLinux.toLowerCase execName)
    = InstalledAppsLinux.getMetadataForExec allApps_find execName
    /\ forall other : string,
        InstalledAppsLinux.toLowerCase other
        = InstalledAppsLinux.toLowerCase execName ->
        InstalledAppsLinux.getMetadataForExec allApps_find other
        = InstalledAppsLinux.getMetadataForExec allApps_find execName.
Proof.
  intros find_app execName. unfold InstalledAppsLinux.getMetadataForExec.
  cbv zeta. split.
  - rewrite toLowerCase_again. reflexivity.
  - intros other ->. reflexivity.
Qed.

(** As long as the ids that [allApps] gives are not empty and written
    with lower-case letters, digits and underscores, so is the id of
    every app that [buildAppData] makes, also for an executable named
    like a key that every object inherits; the id is the one of the
    metadata of the executable, or else the sanitised name. *)
Theorem buildAppData_id :
  forall (allApps_find : string -> option InstalledAppsLinux.LinuxAppMetadata)
         (resolveExecutablePath : string -> option string)
         (resolveIcon : option string -> option string)
         (content : string) (app : InstalledAppsLinux.InstalledApp),
    (forall e m i,
        allApps_find e = Some m -> InstalledAppsLinux.id m = Some i ->
        i <> ""
        /\ Js.every (fun c => InstalledAppsLinux.alnum c || Ascii.eqb c "_")
                    i = true) ->
    InstalledAppsLinux.buildAppData allApps_find resolveExecutablePath
                                    resolveIcon content
    = Some app ->
    InstalledAppsLinux.app_id app <> ""
    /\ Js.every (fun c => InstalledAppsLinux.alnum c || Ascii.eqb c "_")
                (InstalledAppsLinux.app_id app) = true
    /\ (InstalledAppsLinux.app_id app
        = InstalledAppsLinux.sanitizeId (InstalledAppsLinux.app_name app)
        \/ exists m,
            InstalledAppsLinux.getMetadataForExec
              allApps_find (InstalledAppsLinux.app_execName app) = Some m
            /\ InstalledAppsLinux.id m
               = Some (InstalledAppsLinux.app_id app)).
Proof.
  intros find_app resolve icon content app Hfind.
  unfold InstalledAppsLinux.buildAppData.
  destruct (InstalledAppsLinux.parseDesktopEntry content) as [entry|];
    [|discriminate].
  destruct (negb _); [discriminate|].
  destruct (_ || _); [discriminate|].
  destruct (InstalledAppsLinux.getDesktopName entry) as [name|] eqn:D;
    [|discriminate].
  destruct (LinuxWindowManager.or_else _ _) as [execCommand|];
    [|discriminate].
  destruct (negb (Js.truthy_str execCommand)); [discriminate|].
  destruct (InstalledAppsLinux.resolveExecCommand resolve execCommand)
    as [[command execName]|]; [|discriminate].
  destruct (_ || _); [discriminate|].
  intros [= <-].
  cbn [InstalledAppsLinux.app_id InstalledAppsLinux.app_name
       InstalledAppsLinux.app_execName].
  pose proof (getDesktopName_nonempty _ _ D) as Hn.
  assert (S : InstalledAppsLinux.sanitizeId name <> ""
              /\ Js.every (fun c => InstalledAppsLinux.alnum c
                                    || Ascii.eqb c "_")
                          (InstalledAppsLinux.sanitizeId name) = true).
  { unfold InstalledAppsLinux.sanitizeId. split.
    - apply replace_runs_nonempty. destruct name; [congruence|discriminate].
    - apply replace_runs_alphabet. }
  unfold InstalledAppsLinux.field_or.
  destruct (InstalledAppsLinux.getMetadataForExec find_app execName)
    as [m|] eqn:M; [|intuition].
  destruct (InstalledAppsLinux.id m) as [i|] eqn:I; [|intuition].
  assert (G : i <> ""
              /\ Js.every (fun c => InstalledAppsLinux.alnum c
                                    || Ascii.eqb c "_") i = true).
  { revert M. unfold InstalledAppsLinux.getMetadataForExec. cbv zeta.
    destruct (JsMap.get _ InstalledAppsLinux.LINUX_APP_METADATA)
      as [m'|] eqn:T.
    - intros [= ->]. apply get_values in T.
      destruct (LINUX_APP_METADATA_ids _ T) as [i' [I' G]].
      rewrite I in I'. injection I' as <-. exact G.
    - unfold InstalledAppsLinux.inherited.
      destruct (_ || _).
      + intros [= <-]. discriminate I.
      + intros M. exact (Hfind _ _ _ M I). }
  split; [apply G|]. split; [apply G|].
  right. exists m. split; [reflexivity | exact I].
Qed.

(** The desktop file of an app that no table lists. *)
Lemma buildAppData_id_witness :
  InstalledAppsLinux.app_id
    {| InstalledAppsLinux.app_path := "/usr/bin/gimp-2.10";
       InstalledAppsLinux.app_icon := None;
       InstalledAppsLinux.app_name := "GNU Image Manipulation Program";
       InstalledAppsLinux.app_bundleId := None;
       InstalledAppsLinux.app_id := "gnu_image_manipulation_program";
       InstalledAppsLinux.app_isBrowser := false;
       InstalledAppsLinux.app_isDefaultEnabled := false;
       InstalledAppsLinux.app_isElectronApp := false;
       InstalledAppsLinux.app_version := None;
       InstalledAppsLinux.app_execName := "gimp-2" |}
  <> "".
Proof.
  refine (proj1 (buildAppData_id
                   (fun _ => None)
                   (fun w => if String.eqb w "gimp-2.10"
                             then Some "/usr/bin/gimp-2.10" else None)
                   (fun _ => None)
                   ("[Desktop Entry]" ++ Sample.newline
                      ++ "Type=Application" ++ Sample.newline
                      ++ "Name=GNU Image Manipulation Program"
                      ++ Sample.newline
                      ++ "Exec=gimp-2.10 %U")
                   _ _ _)).
  - intros e m i H. discriminate H.
  - vm_compute. reflexivity.
Defined.
